(** * create-new-app: option resolution, template renderers and file assembly

    A shallow embedding of the command-line generator:
    - [portValidator]                          (modules/portValidator),
    - [optionDefinitions], [parseArgs], [guidedProcess],
      [processUsersCommand], [createFiles]     (the entry point, src/unnamed/part_000),
    - [Legacy.parseArgs]                       (the older entry point, src/unnamed/part_001),
    - [dotEnv], [packageJson]                  (src/file-creators).

    JavaScript objects are finite maps from property names to values; a
    property that is absent reads as [undefined].  Console output, calls to
    helper modules and [process.exit()] are recorded in a trace. *)

From Stdlib Require Import ZArith QArith Qround String Ascii List Lia.
From Stdlib Require Import DecimalString HexadecimalString.
From stdpp Require Import gmap strings list fin_maps.

Local Open Scope string_scope.
Local Open Scope list_scope.
Local Open Scope Z_scope.

(** ** JavaScript values *)

(** The values this program stores in its option objects.  Numbers are
    ports: integers; [NaN] is what [++] makes of a value that is no number.
    An array holds strings ([keywords]). *)
Inductive value : Type :=
| undefined
| null
| NaN
| Bool (b : bool)
| Num (n : Z)
| Str (s : string)
| Arr (l : list string).

Global Instance value_eq_dec : EqDecision value.
Proof. solve_decision. Defined.

(** ToBoolean *)
Definition truthy (v : value) : bool :=
  match v with
  | undefined | null | NaN => false
  | Bool b => b
  | Num n => negb (n =? 0)
  | Str EmptyString => false
  | Str _ => true
  | Arr _ => true
  end.

(** [a || b] and [a && b] *)
Definition or_ (a b : value) : value := if truthy a then a else b.
Definition and_ (a b : value) : value := if truthy a then b else a.

(** [a === b].  Two arrays are equal only when they are the same object,
    which no comparison in this program relies on: they compare unequal. *)
Definition strict_eq (a b : value) : bool :=
  match a, b with
  | undefined, undefined | null, null => true
  | Bool x, Bool y => Bool.eqb x y
  | Num x, Num y => x =? y
  | Str x, Str y => bool_decide (x = y)
  | _, _ => false
  end.

(** ** Numbers as text *)

(** An integer written out in decimal. *)
Definition decimal (n : Z) : string :=
  DecimalString.NilZero.string_of_int (Z.to_int n).

(** The Number nearest to a positive integer: 53 significant bits, a tie
    going to the even significand. *)
Definition nearestNumber (z : Z) : Z :=
  let e := Z.log2 z - 52 in
  if e <=? 0 then z
  else
    let m := Z.shiftr z e in
    let r := z - Z.shiftl m e in
    let half := Z.shiftl 1 (e - 1) in
    if (half <? r) || ((r =? half) && Z.odd m) then Z.shiftl (m + 1) e else Z.shiftl m e.

(** A multiple of [10^p] next to [x] that reads back as [x], if there is
    one: of two, the one closer to [x], and the even one on a tie. *)
Definition roundTrip (x p : Z) : option Z :=
  let s := x / 10 ^ p in
  let lo := s * 10 ^ p in
  let hi := lo + 10 ^ p in
  let lo_ok := nearestNumber lo =? x in
  let hi_ok := nearestNumber hi =? x in
  let prefer_lo := (x - lo <? hi - x) || ((x - lo =? hi - x) && Z.even s) in
  if lo_ok && (negb hi_ok || prefer_lo) then Some lo
  else if hi_ok then Some hi
  else None.

(** The decimal with the fewest digits other than trailing zeros that
    reads back as [x]: [p] counts the zeros tried. *)
Fixpoint shortest (x : Z) (p : nat) : Z :=
  match roundTrip x (Z.of_nat p) with
  | Some v => v
  | None => match p with O => x | S p' => shortest x p' end
  end.

Fixpoint dropZeros (digits : list ascii) : list ascii :=
  match digits with
  | "0"%char :: rest => dropZeros rest
  | _ => digits
  end.

(** [d.ddde+n] for a decimal of [n + 1] digits *)
Definition exponential (digits : string) : string :=
  let significand := rev (dropZeros (rev (list_ascii_of_string digits))) in
  let exponent := decimal (Z.of_nat (String.length digits - 1)) in
  match significand with
  | [] => digits
  | [d] => String d ("e+" +:+ exponent)
  | d :: rest => String d ("." +:+ string_of_list_ascii rest +:+ "e+" +:+ exponent)
  end.

(** Number::toString of an integer [n > 0], read as the Number nearest to
    it: the shortest decimal that reads back as that Number, written out
    below 10^21 and in exponent form from there on. *)
Definition positiveToString (n : Z) : string :=
  let x := nearestNumber n in
  let v := shortest x (String.length (decimal x) - 1) in
  if v <? 10 ^ 21 then decimal v else exponential (decimal v).

(** Number::toString of an integer: what a template literal and
    [JSON.stringify] print for it. *)
Definition Z_to_string (n : Z) : string :=
  match n with
  | Z0 => "0"
  | Zpos _ => positiveToString n
  | Zneg _ => "-" +:+ positiveToString (- n)
  end.

(** ToString, as a template literal [`${v}`] applies it *)
Definition toString (v : value) : string :=
  match v with
  | undefined => "undefined"
  | null => "null"
  | NaN => "NaN"
  | Bool true => "true"
  | Bool false => "false"
  | Num n => Z_to_string n
  | Str s => s
  | Arr l => String.concat "," l
  end.

Definition LF : string := String "010" EmptyString.
Definition dquote : string := String "034" EmptyString.

(** ** Objects *)

Abbreviation object := (gmap string value).

(** Property read [o.k]. *)
Definition get (o : object) (k : string) : value := default undefined (o !! k).

(** ** Effects *)

Inductive event : Type :=
| console_log (text : string)
| showVersion_call
| showHelp_call
| noName_call
| badName_call (appName : value)
| checkDirExists_call (options : object)
| createSandbox_call (options : object)
| promptQ_call (question : string)
| promptYN_call (question : string).

(** How a function ends: with a value, in [process.exit()], or in an
    uncaught [TypeError]. *)
Inductive outcome (A : Type) : Type :=
| returns (a : A)
| exits
| throws.
Arguments returns {A} a.
Arguments exits {A}.
Arguments throws {A}.

Definition M (A : Type) : Type := list event * outcome A.

Global Instance M_ret : MRet M := fun A a => ([], returns a).
Global Instance M_bind : MBind M := fun A B f m =>
  match m with
  | (t, returns a) => let '(t', r) := f a in (t ++ t', r)
  | (t, exits) => (t, exits)
  | (t, throws) => (t, throws)
  end.

Global Instance M_fmap : FMap M := fun A B f m =>
  match m with
  | (t, returns a) => (t, returns (f a))
  | (t, exits) => (t, exits)
  | (t, throws) => (t, throws)
  end.

Definition emit (e : event) : M unit := ([e], returns tt).
Definition process_exit {A} : M A := ([], exits).
Definition TypeError {A} : M A := ([], throws).

Definition trace {A} (m : M A) : list event := fst m.
Definition result {A} (m : M A) : outcome A := snd m.

(** ** Numbers read from the command line *)

(** What the unary plus [+val] makes of a token, as far as
    [Number.isInteger] tells the results apart. *)
Inductive number : Type :=
| integer (z : Z)
| fraction
| infinity
| not_a_number.

Section Coercions.

(** StringToNumber of ECMAScript, the reading of a string as a numeric
    literal; a builtin of the language, left abstract. *)
Variable StringToNumber : string -> number.

(** ToNumber *)
Definition ToNumber (v : value) : number :=
  match v with
  | undefined => not_a_number
  | null => integer 0
  | NaN => not_a_number
  | Bool true => integer 1
  | Bool false => integer 0
  | Num n => integer n
  | Str s => StringToNumber s
  | Arr l => StringToNumber (String.concat "," l)
  end.

(** [v++] gives [ToNumber(v) + 1].  Ports stay far below 2^53, where the
    addition is exact.  An infinite or fractional result is no [value] and
    reads as [NaN] here; no option object holds such a port. *)
Definition increment (v : value) : value :=
  match ToNumber v with
  | integer z => Num (z + 1)
  | _ => NaN
  end.

(** *** modules/portValidator *)

Definition invalid_port_msg (val defaultPort : value) : string :=
  LF +:+ dquote +:+ toString val +:+ dquote +:+ " is an invalid port. Defaulting to "
     +:+ toString defaultPort +:+ "..." +:+ LF.

Definition out_of_range_msg (num : Z) (defaultPort : value) : string :=
  LF +:+ dquote +:+ Z_to_string num +:+ dquote +:+ " is out of range (1 - 65535). Defaulting to "
     +:+ toString defaultPort +:+ "..." +:+ LF.

(** [num] is [+val] when that is an integer and [undefined] otherwise;
    [chalk] only colours the message. *)
Definition portValidator (val : value) (type : string) (defaultPort : value) : M value :=
  match ToNumber val with
  | integer num =>
      if (num <? 1) || (num >? 65535) then
        _ ← emit (console_log (out_of_range_msg num defaultPort));
        mret defaultPort
      else mret (Num num)
  | _ =>
      _ ← emit (console_log (invalid_port_msg val defaultPort));
      mret defaultPort
  end.

End Coercions.

(** ** The option schema *)

(** The [type] of an option definition: [Boolean], [String], or the port
    reader [val => portValidator(val, type, defaultPort)]. *)
Inductive optionType : Type :=
| Boolean
| String_
| portType (type : string) (defaultPort : Z).

Record definition : Type := mkDefinition {
  name : string;
  alias : option string;
  type : optionType;
  defaultValue : value;      (* [undefined] when the definition has none *)
  multiple : bool;
  defaultOption : bool
}.

Definition flagDef (n : string) (a : option string) (d : value) : definition :=
  mkDefinition n a Boolean d false false.
Definition stringDef (n : string) (a : option string) (d : value) : definition :=
  mkDefinition n a String_ d false false.
Definition portDef (n : string) (t : string) (p : Z) : definition :=
  mkDefinition n None (portType t p) (Num p) false false.

Definition optionDefinitions : list definition :=
  [ (* Information only. *)
    flagDef "version" (Some "v") undefined;
    flagDef "help" (Some "h") undefined;

    mkDefinition "appName" None String_ undefined false true;
    stringDef "title" (Some "t") (Str EmptyString);

    (* Optional addons. *)
    flagDef "redux" (Some "x") (Bool false);
    flagDef "router" (Some "r") (Bool false);

    (* Flags. *)
    flagDef "offline" (Some "o") (Bool false);
    flagDef "force" (Some "f") (Bool false);
    flagDef "sandbox" (Some "s") (Bool false);

    (* package.json fields. *)
    stringDef "author" None (Str EmptyString);
    stringDef "description" None (Str EmptyString);
    stringDef "email" None (Str EmptyString);
    mkDefinition "keywords" None String_ (Arr []) true false;

    (* API / server / devServer options. *)
    portDef "devServerPort" "dev" 8080;
    portDef "apiPort" "api" 3000;
    stringDef "api" None null;
    flagDef "express" (Some "e") undefined;
    flagDef "mongo" (Some "m") undefined ].

(** The default CLI values, as [guidedProcess] aggregates them:
    [filter] on [defaultValue !== undefined], then [reduce] into an object. *)
Definition defaultsOf (defs : list definition) : object :=
  fold_left (fun acc d => <[name d := defaultValue d]> acc)
            (List.filter (fun d => negb (strict_eq (defaultValue d) undefined)) defs)
            ∅.

Definition defaultOptions : object := defaultsOf optionDefinitions.

(** ** command-line-args *)

(** The command line after tokenising: a flag that stands alone, or an
    option with the token that is its value (the bare application name is
    the value of the default option, [appName]). *)
Inductive argument : Type :=
| flag (name : string)
| valued (name : string) (val : string).

Section Cla.

Variable StringToNumber : string -> number.

Definition isNamed (n : string) (d : definition) : bool :=
  bool_decide (name d = n) || bool_decide (alias d = Some n).

(** Applying an option's [type] to the token. *)
Definition applyType (d : definition) (val : string) (acc : object) : M object :=
  match type d with
  | Boolean => mret (<[name d := Bool true]> acc)
  | String_ =>
      if multiple d then
        match get acc (name d) with
        | Arr l => mret (<[name d := Arr (l ++ [val])]> acc)
        | _ => mret (<[name d := Arr [val]]> acc)
        end
      else mret (<[name d := Str val]> acc)
  | portType t p =>
      v ← portValidator StringToNumber (Str val) t (Num p);
      mret (<[name d := v]> acc)
  end.

Definition setArgument (defs : list definition) (a : argument) (acc : object) : M object :=
  match a with
  | flag n =>
      match List.find (isNamed n) defs with
      | Some d => match type d with
                  | Boolean => mret (<[name d := Bool true]> acc)
                  | _ => mret acc
                  end
      | None => mret acc
      end
  | valued n val =>
      match List.find (isNamed n) defs with
      | Some d => applyType d val acc
      | None => mret acc
      end
  end.

(** [cla(defs, { partial: true })] on well-formed usage: every option
    with a default value starts at it, each argument then sets its
    option through the option's [type]; an argument that names no
    option goes to [_unknown], which nothing reads and is left out. *)
Fixpoint setArguments (defs : list definition) (argv : list argument) (acc : object) : M object :=
  match argv with
  | [] => mret acc
  | a :: rest => acc' ← setArgument defs a acc; setArguments defs rest acc'
  end.

Definition cla (defs : list definition) (argv : list argument) : M object :=
  setArguments defs argv (defaultsOf defs).

End Cla.

(** ** The entry point (src/unnamed/part_000) *)

(** What a resolver hands back: the options object, or whatever a helper
    returned in a [return helper() || process.exit()]. *)
Inductive resolved : Type :=
| options_of (o : object)
| other (v : value).

(** [api.replace(/ /g, '')] *)
Fixpoint removeSpaces (s : string) : string :=
  match s with
  | EmptyString => EmptyString
  | String c rest =>
      if Ascii.eqb c " " then removeSpaces rest else String c (removeSpaces rest)
  end.

(** [helper() || process.exit()]: the helper's value when it is truthy. *)
Definition or_exit (call : event) (returned : value) : M value :=
  _ ← emit call;
  if truthy returned then mret returned else process_exit.

(** Modelled from the spec: modules/prompts is not among the sources.  A
    yes/no question blocks until the user answers and has a stated default,
    applied when the user presses enter with no input.  [replies] are the
    answers still to come, [None] for a bare enter; the answer is returned
    with the replies that remain. *)
Definition promptYN (question : string) (default : bool) (replies : list (option bool))
  : value * list (option bool) :=
  match replies with
  | Some b :: rest => (Bool b, rest)
  | None :: rest => (Bool default, rest)
  | [] => (Bool default, [])
  end.

(** [await promptYN(question, default)]: the question is put, and the
    next reply answers it. *)
Definition askYN (question : string) (default : bool) (replies : list (option bool))
  : M (value * list (option bool)) :=
  _ ← emit (promptYN_call question);
  mret (promptYN question default replies).

Section Main.

(** The surroundings of a run: the working directory, the verdict of
    validate-npm-package-name, and the values returned by the helper
    modules (modules/checkDirExists, showVersion, showHelp, badName),
    which only print or look at the file system. *)
Variable cwd : string.
Variable validForNewPackages : value -> bool.
Variable checkDirExists : object -> value.
Variable showVersion showHelp : value.
Variable badName : value -> value.
Variable StringToNumber : string -> number.

(** Analyzes the CLI arguments; [parsed] is what [cla] returned. *)
Definition parseArgs (online : bool) (parsed : object) : M resolved :=
  let version := get parsed "version" in
  let help := get parsed "help" in
  let appName := get parsed "appName" in
  let api := get parsed "api" in
  let offline := get parsed "offline" in
  let express := get parsed "express" in
  let mongo := get parsed "mongo" in
  let redux := get parsed "redux" in
  let router := get parsed "router" in
  let sandbox := get parsed "sandbox" in
  let validation := validForNewPackages appName in
  (* Add properties we'll use down the line. *)
  api' ← (if truthy api then
            match api with
            | Str s => mret (Str (removeSpaces s))
            | _ => TypeError
            end
          else mret null : M value);
  let options : object :=
    <["appDir" := Str (cwd +:+ "/" +:+ toString appName)]>
    (<["server" := or_ express mongo]>
    (<["api" := api']>
    (<["offline" := or_ (Bool (negb online)) offline]>
    (<["router" := router]>
    (<["redux" := redux]>
    (<["online" := Bool online]> parsed)))))) in
  if truthy version then other <$> or_exit showVersion_call showVersion
  else if truthy help then other <$> or_exit showHelp_call showHelp
  else
    _ ← or_exit (checkDirExists_call options) (checkDirExists options);
    if truthy sandbox then mret (options_of (<["sandbox" := Bool true]> options))
    else if negb validation then other <$> or_exit (badName_call appName) (badName appName)
    else mret (options_of options).

(** Creates the options via a series of prompts: [name] is the reply to
    the first question, [replies] those to the yes/no questions. *)
Definition guidedProcess (online : bool) (name : string) (replies : list (option bool))
  : M resolved :=
  _ ← emit (promptQ_call "Enter a name for your app:");
  let appName := Str name in
  let appDir := Str (cwd +:+ "/" +:+ toString appName) in
  _ ← or_exit (checkDirExists_call (<["appName" := appName]> (<["appDir" := appDir]> ∅)))
              (checkDirExists (<["appName" := appName]> (<["appDir" := appDir]> ∅)));
  let validation := validForNewPackages appName in
  if negb validation then other <$> or_exit (badName_call appName) (badName appName)
  else
    _ ← emit (console_log
           (LF +:+ "Pressing `enter` defaults to no for the following..." +:+ LF));
    '(redux, replies) ← askYN "Would you like to include Redux?" false replies;
    '(router, replies) ←
      (if truthy redux
       then askYN "Would you like to include Redux First Router?" false replies
       else mret (redux, replies));
    '(express, replies) ← askYN "Would you like to include an Express server?" false replies;
    '(mongo, replies) ←
      (if truthy express
       then askYN "Would you like to include MongoDB?" false replies
       else mret (express, replies));
    mret (options_of
      (<["appDir" := appDir]>
      (<["server" := or_ express mongo]>
      (<["offline" := Bool (negb online)]>
      (<["online" := Bool online]>
      (<["mongo" := mongo]>
      (<["express" := express]>
      (<["router" := router]>
      (<["redux" := redux]>
      (<["appName" := appName]> defaultOptions)))))))))).

(** The console warnings about being offline, then the port adjustment. *)
Definition processUsersCommand (options : object) : M object :=
  let online := get options "online" in
  let offline := get options "offline" in
  let apiPort := get options "apiPort" in
  let express := get options "express" in
  let mongo := get options "mongo" in
  let devServerPort := get options "devServerPort" in
  let sandbox := get options "sandbox" in
  (* Not online. *)
  _ ← (if negb (truthy sandbox) && (truthy offline || negb (truthy online)) then
         _ ← (if negb (truthy online)
              then emit (console_log "You appear to be offline.") else mret tt);
         emit (console_log "Installing via local npm cache.")
       else mret tt);
  (* The apiPort takes prescedence over the devServerPort. *)
  if truthy (or_ express mongo) && strict_eq devServerPort apiPort
  then mret (<["devServerPort" := increment StringToNumber devServerPort]> options)
  else mret options.

End Main.

(** ** The older entry point (src/unnamed/part_001) *)

Module Legacy.
Section Legacy.

Variable cwd : string.
Variable validForNewPackages : value -> bool.
Variable noName : value.
Variable badName : value -> value.
(** modules/titleCase, applied to [appName] *)
Variable titleCase : value -> value.

(** [helper() && process.exit()]: the helper's value when it is falsy. *)
Definition and_exit (call : event) (returned : value) : M value :=
  _ ← emit call;
  if truthy returned then process_exit else mret returned.

(** [checkDirExists(options)] is called for its effect, and
    [createSandbox(options)] ends without a [return]: it gives
    [undefined]. *)
Definition parseArgs (online : bool) (parsed : object) : M resolved :=
  let appName := get parsed "appName" in
  let api := get parsed "api" in
  let offline := get parsed "offline" in
  let title := get parsed "title" in
  let description := get parsed "description" in
  let express := get parsed "express" in
  let mongo := get parsed "mongo" in
  let redux := get parsed "redux" in
  let router := get parsed "router" in
  let sandbox := get parsed "sandbox" in
  let validation := validForNewPackages appName in
  (* Add properties we'll use down the line. *)
  api' ← (if truthy api then
            match api with
            | Str s => mret (Str (removeSpaces s))
            | _ => TypeError
            end
          else mret null : M value);
  let options : object :=
    <["appDir" := Str (cwd +:+ "/" +:+ toString appName)]>
    (<["server" := or_ express mongo]>
    (<["description" :=
         if truthy description then description
         else if truthy title then title else titleCase appName]>
    (<["title" := or_ title appName]>
    (<["api" := api']>
    (<["offline" := or_ (Bool (negb online)) offline]>
    (<["router" := router]>
    (<["redux" := redux]>
    (<["online" := Bool online]> parsed)))))))) in
  if negb (truthy appName) then other <$> and_exit noName_call noName
  else
    _ ← emit (checkDirExists_call options);
    if truthy sandbox then other <$> and_exit (createSandbox_call options) undefined
    else if negb validation then other <$> and_exit (badName_call appName) (badName appName)
    else mret (options_of options).

(** The port options of the older schema, [val => portValidator(val, 'api')]
    and [val => portValidator(val, 'dev')]: no default is handed over, so
    [defaultPort] is [undefined]. *)
Variable StringToNumber : string -> number.
Variable showVersion showHelp : value.

Definition apiportOption (val : value) : M value :=
  portValidator StringToNumber val "api" undefined.
Definition portOption (val : value) : M value :=
  portValidator StringToNumber val "dev" undefined.

(** Processes --version and --help, warns about being offline, and
    adjusts the port; [return showVersion()] hands back what the helper
    returned. *)
Definition processUsersCommand (options : object) : M resolved :=
  let version := get options "version" in
  let help := get options "help" in
  let online := get options "online" in
  let offline := get options "offline" in
  let apiport := get options "apiport" in
  let express := get options "express" in
  let mongo := get options "mongo" in
  let port := get options "port" in
  if truthy version then _ ← emit showVersion_call; mret (other showVersion)
  else if truthy help then _ ← emit showHelp_call; mret (other showHelp)
  else
    (* Not online. *)
    _ ← (if truthy offline || negb (truthy online) then
           _ ← (if negb (truthy online)
                then emit (console_log "You appear to be offline.") else mret tt);
           emit (console_log "Installing via local npm cache.")
         else mret tt);
    (* The api port takes prescedence over the dev server port. *)
    if truthy (or_ express mongo) && strict_eq port apiport
    then mret (options_of (<["port" := increment StringToNumber port]> options))
    else mret (options_of options).


End Legacy.
End Legacy.

(** ** Template renderers (src/file-creators) *)

(** *** dotEnv *)

(** ToInt32: the 32-bit two's complement reading of an integer. *)
Definition ToInt32 (z : Z) : Z := (z + 2 ^ 31) mod 2 ^ 32 - 2 ^ 31.

(** The integer part of a number, rounding toward zero. *)
Definition truncate (q : Q) : Z := Z.quot (Qnum q) (Zpos (Qden q)).

(** [n.toString(16)] of an integer *)
Definition toString16 (n : Z) : string :=
  HexadecimalString.NilZero.string_of_int (Z.to_hex_int n).

(** The numeric value of the matched character [a], one of 0, 1 and 8. *)
Definition digitValue (a : ascii) : Z := Z.of_nat (nat_of_ascii a) - 48.

(** [(a ^ Math.random()*16 >> a/4).toString(16)], where [r] is the number
    that [Math.random()] returned: the shift binds tighter than the xor,
    and its count is [a/4] cut to an integer and taken modulo 32. *)
Definition uuidDigit (a : ascii) (r : Q) : string :=
  toString16
    (ToInt32 (Z.lxor (ToInt32 (digitValue a))
                     (Z.shiftr (ToInt32 (truncate (r * 16)))
                               (Z.land (Z.quot (digitValue a) 4) 31)))).

Definition is018 (c : ascii) : bool :=
  Ascii.eqb c "0" || Ascii.eqb c "1" || Ascii.eqb c "8".

(** [s.replace(/[018]/g, uuid)]: every 0, 1 and 8 of [s], from left to
    right, is replaced by [uuid] of it; each replacement draws one number
    from [Math.random()].  [random k] is the [k]-th number of the run. *)
Fixpoint replace018 (random : nat -> Q) (k : nat) (s : string) : string * nat :=
  match s with
  | EmptyString => (EmptyString, k)
  | String c rest =>
      if is018 c then
        let '(rest', k') := replace018 random (S k) rest in
        (uuidDigit c (random k) +:+ rest', k')
      else
        let '(rest', k') := replace018 random k rest in
        (String c rest', k')
  end.

(** [[1e7]+-1e3+-4e3+-8e3+-1e11] *)
Definition uuidTemplate : string := "10000000-1000-4000-8000-100000000000".

(** [uuid()], the micro UUID *)
Definition uuid (random : nat -> Q) (k : nat) : string * nat :=
  replace018 random k uuidTemplate.

(** The array [contents] of [dotEnv] before [filter(Boolean)]; the secret
    is drawn only when [mongo] is truthy. *)
Definition dotEnvContents (answers : object) (random : nat -> Q) (k : nat)
  : list value * nat :=
  let appName := get answers "appName" in
  let apiport := get answers "apiport" in
  let mongo := get answers "mongo" in
  let name := "appName=" +:+ toString appName +:+ LF in
  let '(secret, k') :=
    if truthy mongo
    then let '(u, k') := uuid random k in (Str ("secret=" +:+ u), k')
    else (mongo, k) in
  ([ Str ("PORT=" +:+ toString apiport);
     and_ mongo (Str ("mongoURI=mongodb://localhost:27017/" +:+ toString appName));
     and_ mongo (Str ("mongoSession=" +:+ toString appName +:+ "Sessions"));
     secret;
     Str name ], k').

Definition dotEnv (answers : object) (random : nat -> Q) (k : nat) : string * nat :=
  let appName := get answers "appName" in
  let server := get answers "server" in
  let name := "appName=" +:+ toString appName +:+ LF in
  let '(contents, k') := dotEnvContents answers random k in
  let contents := String.concat LF (map toString (List.filter truthy contents)) in
  (if truthy server then contents else name, k').

(** *** packageJson *)

(** A property of the object literal that [packageJson] builds: a value,
    or the nested object [scripts], whose properties are values.  The
    properties are kept in insertion order, the order [JSON.stringify]
    prints them in. *)
Inductive js : Type :=
| prim (v : value)
| obj (props : list (string * value)).

(** Property read on a literal: the last assignment to [k]. *)
Definition prop {A} (k : string) (props : list (string * A)) : option A :=
  snd <$> List.find (fun p => bool_decide (fst p = k)) (rev props).

Definition serverScripts : list (string * value) :=
  [ ("build", Str "cross-env NODE_ENV=production webpack --mode production --env.prod");
    ("build:dev", Str "cross-env NODE_ENV=development webpack --mode development --env.dev");
    ("local", Str "npm run server:api");
    ("server:dev", Str "webpack-dev-server --mode development --env.dev --open --progress");
    ("server:api", Str "nodemon server.js");
    ("start", Str "cross-env NODE_ENV=development npm-run-all --parallel server:*") ].

Definition plainScripts : list (string * value) :=
  [ ("build", Str "cross-env NODE_ENV=production webpack --mode production --env.prod");
    ("start", Str "cross-env NODE_ENV=development webpack-dev-server --mode development --env.dev --open --progress") ].

(** The object [packageJson] that the function builds before it prints it;
    [keywords] defaults to the empty array when the property is undefined. *)
Definition packageJsonObject (answers : object) : list (string * js) :=
  let appName := get answers "appName" in
  let server := get answers "server" in
  let description := get answers "description" in
  let author := get answers "author" in
  let email := get answers "email" in
  let keywords :=
    match get answers "keywords" with undefined => Arr [] | k => k end in
  let packageJson :=
    [ ("name", prim appName);
      ("version", prim (Str "0.1.0"));
      ("description", prim description);
      ("keywords", prim keywords);
      ("author", prim author);
      ("email", prim email) ] in
  if truthy server
  then packageJson ++ [("main", prim (Str "server.js"))] ++ [("scripts", obj serverScripts)]
  else packageJson ++ [("scripts", obj plainScripts)].

(** QuoteJSONString: the quote, the backslash and the control characters
    are escaped. *)
Definition hexDigit (n : nat) : ascii :=
  nth n (list_ascii_of_string "0123456789abcdef") "0"%char.

Definition escapeChar (c : ascii) : string :=
  let n := nat_of_ascii c in
  if Ascii.eqb c "034" then String "\" (String "034" EmptyString)
  else if Ascii.eqb c "\" then "\\"
  else if Ascii.eqb c "008" then "\b"
  else if Ascii.eqb c "009" then "\t"
  else if Ascii.eqb c "010" then "\n"
  else if Ascii.eqb c "012" then "\f"
  else if Ascii.eqb c "013" then "\r"
  else if (n <? 32)%nat
       then "\u00" +:+ String (hexDigit (n / 16)) (String (hexDigit (n mod 16)) EmptyString)
  else String c EmptyString.

Fixpoint escape (s : string) : string :=
  match s with
  | EmptyString => EmptyString
  | String c rest => escapeChar c +:+ escape rest
  end.

Definition quote (s : string) : string := dquote +:+ escape s +:+ dquote.

(** Lines of a bracketed, indented block; an empty block is [open close]. *)
Definition block (open close indent : string) (members : list string) : string :=
  match members with
  | [] => open +:+ close
  | _ => open +:+ LF +:+ String.concat ("," +:+ LF) members +:+ LF +:+ indent +:+ close
  end.

(** [JSON.stringify] of a value at the given indentation: [None] for
    [undefined], which an object leaves out. *)
Definition stringifyValue (indent : string) (v : value) : option string :=
  match v with
  | undefined => None
  | null | NaN => Some "null"
  | Bool _ | Num _ => Some (toString v)
  | Str s => Some (quote s)
  | Arr l => Some (block "[" "]" indent (map (fun s => indent +:+ "  " +:+ quote s) l))
  end.

(** The members of an object at indentation [indent], each printed by
    [print]; a property that prints as nothing is left out. *)
Definition members {A} (print : string -> A -> option string) (indent : string)
  (props : list (string * A)) : list string :=
  omap (fun p => (fun s => indent +:+ "  " +:+ quote (fst p) +:+ ": " +:+ s)
                   <$> print (indent +:+ "  ") (snd p)) props.

Definition stringifyJs (indent : string) (j : js) : option string :=
  match j with
  | prim v => stringifyValue indent v
  | obj props => Some (block "{" "}" indent (members stringifyValue indent props))
  end.

(** [JSON.stringify(o, null, 2)] of an object literal *)
Definition stringify (props : list (string * js)) : string :=
  block "{" "}" EmptyString (members stringifyJs EmptyString props).

Definition packageJson (answers : object) : string :=
  stringify (packageJsonObject answers).

(** ** The file assembler *)

Inductive fs_op : Type :=
| writeFileSync (file data : string)
| copyFileSync (src dest : string)
| mkdirSync (path : string)
| copyTree (src dest : string).

Section Files.

(** The directory of the generator's own files, [__dirname], and the
    bundler-configuration renderer (file-creators/webpackConfig). *)
Variable dirname : string.
Variable webpackConfig : value -> string.

(** [path.resolve(__dirname, text)]; a leading [./] resolves away. *)
Definition dir (text : string) : string :=
  dirname +:+ "/" +:+
    match text with
    | String "." (String "/" rest) => rest
    | _ => text
    end.

(** STEP 4: the file-system calls of [createFiles], in order. *)
Definition createFiles (options : object) (random : nat -> Q) : list fs_op :=
  let appDir := toString (get options "appDir") in
  let server := get options "server" in
  let mongo := get options "mongo" in
  let express := get options "express" in
  let redux := get options "redux" in
  let router := get options "router" in
  [ writeFileSync (appDir +:+ "/.env") (fst (dotEnv options random 0));
    copyFileSync (dir "files/gitignore.txt") (appDir +:+ "/.gitignore");
    writeFileSync (appDir +:+ "/package.json") (packageJson options);
    copyFileSync (dir "files/postcss.config.js") (appDir +:+ "/postcss.config.js");
    copyFileSync (dir "files/README.md") (appDir +:+ "/README.md") ]
  (* server.js (with or without MongoDB options) *)
  ++ (if truthy server
      then [ copyFileSync
               (dir ("files/server" +:+ (if truthy mongo then "-mongo" else EmptyString) +:+ ".js"))
               (appDir +:+ "/server.js") ]
      else [])
  ++ [ writeFileSync (appDir +:+ "/webpack.config.js") (webpackConfig redux) ]
  (* api directory tree. *)
  ++ (if truthy mongo then [ copyTree (dir "./files/api") appDir ] else [])
  ++ (if truthy express && negb (truthy mongo)
      then [ mkdirSync (appDir +:+ "/api");
             copyFileSync (dir "files/api/home.js") (appDir +:+ "/api" +:+ "/home.js") ]
      else [])
  ++ [ copyTree (dir "./files/dist") appDir;
       copyTree (dir "./files/src") appDir ]
  ++ (if truthy (or_ redux router)
      then
        [ copyFileSync (dir "files/redux/entry.js") (appDir +:+ "/src/entry.js");
          copyTree (dir "files/redux/utils") (appDir +:+ "/src") ]
        ++ (if truthy router
            then
              [ copyFileSync (dir "files/redux/Redux1stApp.jsx") (appDir +:+ "/src/components/App.jsx");
                copyFileSync (dir "files/redux/Redux1stExample.jsx") (appDir +:+ "/src/components/Example.jsx");
                copyFileSync (dir "files/redux/NotFound.jsx") (appDir +:+ "/src/components/NotFound.jsx");
                copyFileSync (dir "files/redux/routerStore.js") (appDir +:+ "/src/store.js");
                copyFileSync (dir "files/redux/routesMap.js") (appDir +:+ "/src/routesMap.js") ]
            else
              [ copyFileSync (dir "files/redux/ReduxApp.jsx") (appDir +:+ "/src/components/App.jsx");
                copyFileSync (dir "files/redux/ReduxExample.jsx") (appDir +:+ "/src/components/Example.jsx");
                copyFileSync (dir "files/redux/store.js") (appDir +:+ "/src/store.js") ])
      else []).

End Files.

(** ** Creating the project (src/unnamed/part_000, steps 3 to 5) *)

(** What a run does, in order: console output and helper calls, clearing
    the screen, file-system calls, changing the working directory, and
    running a shell command through modules/run. *)
Inductive action : Type :=
| said (e : event)
| clearScreen
| fsCall (op : fs_op)
| copySync (src dest : string)
| chdir (directory : string)
| run (command : string).

Definition Script (A : Type) : Type := list action * outcome A.

Global Instance Script_ret : MRet Script := fun A a => ([], returns a).
Global Instance Script_bind : MBind Script := fun A B f m =>
  match m with
  | (t, returns a) => let '(t', r) := f a in (t ++ t', r)
  | (t, exits) => (t, exits)
  | (t, throws) => (t, throws)
  end.
Global Instance Script_fmap : FMap Script := fun A B f m =>
  match m with
  | (t, returns a) => (t, returns (f a))
  | (t, exits) => (t, exits)
  | (t, throws) => (t, throws)
  end.

Definition act (a : action) : Script unit := ([a], returns tt).
Definition acts (l : list action) : Script unit := (l, returns tt).
Definition say {A} (m : M A) : Script A := (map said (fst m), snd m).
Definition log (text : string) : Script unit := act (said (console_log text)).

Definition actions {A} (s : Script A) : list action := fst s.
Definition ending {A} (s : Script A) : outcome A := snd s.

(** The properties that the steps read off what the resolver handed back:
    a value that is no options object has none of them. *)
Definition asObject (r : resolved) : object :=
  match r with
  | options_of o => o
  | other _ => ∅
  end.

Section Pipeline.

Variable cwd : string.
Variable validForNewPackages : value -> bool.
Variable checkDirExists : object -> value.
Variable showVersion showHelp : value.
Variable badName : value -> value.
Variable StringToNumber : string -> number.
Variable dirname : string.
Variable webpackConfig : value -> string.

(** [fs.mkdirSync(path)] and [fs.copySync(src, path)] on a path that is
    no string end in a [TypeError]; on a string the call is made.  What
    the file system answers is not modelled. *)
Definition mkdir (path : value) : Script unit :=
  match path with
  | Str p => act (fsCall (mkdirSync p))
  | _ => ([], throws)
  end.

Definition copyTo (src : string) (path : value) : Script unit :=
  match path with
  | Str p => act (copySync src p)
  | _ => ([], throws)
  end.

(** STEP 3 *)
Definition createProjectDirectory (options : object) : Script unit :=
  let appName := get options "appName" in
  let appDir := get options "appDir" in
  let force := get options "force" in
  let sandbox := get options "sandbox" in
  _ ← act (said (checkDirExists_call options));
  _ ← (if truthy (checkDirExists options) || (negb (truthy sandbox) && truthy force)
       then mret tt else ([], exits) : Script unit);
  _ ← log (LF +:+ "Creating a new"
              +:+ (if truthy sandbox then " sandbox" else EmptyString)
              +:+ " app in " +:+ cwd +:+ "/" +:+ toString appName +:+ ".");
  (* Create the project directory. *)
  mkdir appDir.

(** Simple sandbox projects. *)
Definition createSandbox (options : object) : Script unit :=
  if negb (truthy (get options "appName")) then
    _ ← log "Oops! You forgot to provide a project name.";
    log ("  " +:+ "create-new-app <project-name> --sandbox")
  else
    _ ← createProjectDirectory options;
    copyTo (dir dirname "files/sandbox") (get options "appDir").

(** STEP 5 *)
Definition installDependencies (options : object) : Script unit :=
  let appName := get options "appName" in
  let appDir := get options "appDir" in
  let server := get options "server" in
  let offline := get options "offline" in
  let forceOffline := if truthy offline then " --offline" else EmptyString in
  let cache := if truthy offline then " cache" else EmptyString in
  (* Change into the projects directory. *)
  _ ← act (chdir (cwd +:+ "/" +:+ toString appName));
  (* Install the dependencies. *)
  _ ← (if truthy offline
       then log (LF +:+ "It looks like you're offline or have a bad connection.")
       else mret tt);
  _ ← log ("Installing project dependencies via npm" +:+ cache +:+ "..." +:+ LF);
  _ ← act (run ("npm" +:+ forceOffline +:+ " i"));
  let serverMsg := if truthy server then "and Express servers" else "server" in
  _ ← log (LF +:+ "Success! Created " +:+ toString appName +:+ " at " +:+ toString appDir +:+ ".");
  _ ← log ("Inside that directory you can run several commands:" +:+ LF);
  _ ← log ("  " +:+ "npm start");
  _ ← log ("    Starts the development " +:+ serverMsg +:+ "." +:+ LF);
  _ ← log ("  " +:+ "npm run build");
  _ ← log ("    Bundles the app into static files for production." +:+ LF);
  _ ← (if truthy server then
         _ ← log ("  " +:+ "npm run local");
         log ("    Starts only the Express server (no development server)." +:+ LF)
       else mret tt);
  _ ← log (LF +:+ "Get started by typing:" +:+ LF);
  _ ← log ("  " +:+ "cd" +:+ " " +:+ toString appName);
  log ("  " +:+ "npm start" +:+ LF).

(** Let's go.  [online] is what [isOnline()] found; [argv] is the command
    line, empty when the generator is called with no arguments; [name] and
    [replies] are what the user types when the wizard asks. *)
Definition letsGo (online : bool) (argv : list argument) (name : string)
  (replies : list (option bool)) (random : nat -> Q) : Script unit :=
  (* Clear the console. *)
  _ ← act clearScreen;
  (* STEP 2 - decide between a guided process or not. *)
  options ← (match argv with
             | [] =>
                 asObject <$> say (guidedProcess cwd validForNewPackages checkDirExists
                                                 badName online name replies)
             | _ =>
                 parsed ← say (cla StringToNumber optionDefinitions argv);
                 parsedArgs ← say (parseArgs cwd validForNewPackages checkDirExists
                                             showVersion showHelp badName online parsed);
                 say (processUsersCommand StringToNumber (asObject parsedArgs))
             end);
  (* STEP 3 - create project directory or sandbox project. *)
  if truthy (get options "sandbox") then createSandbox options
  else
    _ ← createProjectDirectory options;
    (* STEP 4 - create project files & folders. *)
    _ ← acts (map fsCall (createFiles dirname webpackConfig options random));
    (* STEP 5 - install dependecies. *)
    installDependencies options.

End Pipeline.

(** ** Notions used to state the properties *)

(** The spec's words: an integer in [1, 65535]. *)
Definition validPort (n : number) : option Z :=
  match n with
  | integer z => if (1 <=? z) && (z <=? 65535) then Some z else None
  | _ => None
  end.

(** A port as the option schema yields it. *)
Definition isPort (v : value) : Prop := exists p, v = Num p /\ 1 <= p <= 65535.

(** A string with a line feed in it. *)
Fixpoint hasLF (s : string) : bool :=
  match s with
  | EmptyString => false
  | String c rest => Ascii.eqb c "010" || hasLF rest
  end.

(** The object literal of [parseArgs], with [api'] for the cleaned
    proxy path. *)
Definition withProperties (cwd : string) (online : bool) (parsed : object) (api' : value)
  : object :=
  <["appDir" := Str (cwd +:+ "/" +:+ toString (get parsed "appName"))]>
  (<["server" := or_ (get parsed "express") (get parsed "mongo")]>
  (<["api" := api']>
  (<["offline" := or_ (Bool (negb online)) (get parsed "offline")]>
  (<["router" := get parsed "router"]>
  (<["redux" := get parsed "redux"]>
  (<["online" := Bool online]> parsed)))))).

(** The object that the wizard returns, from the four answers. *)
Definition wizardOptions (cwd : string) (online : bool) (name : string)
  (redux router express mongo : bool) : object :=
  <["appDir" := Str (cwd +:+ "/" +:+ name)]>
  (<["server" := or_ (Bool express) (Bool mongo)]>
  (<["offline" := Bool (negb online)]>
  (<["online" := Bool online]>
  (<["mongo" := Bool mongo]>
  (<["express" := Bool express]>
  (<["router" := Bool router]>
  (<["redux" := Bool redux]>
  (<["appName" := Str name]> defaultOptions)))))))).

(** The lines of the file when a server is present, given the secret. *)
Definition serverEnvLines (answers : object) (secret : string) : list string :=
  let appName := toString (get answers "appName") in
  [ "PORT=" +:+ toString (get answers "apiport") ]
  ++ (if truthy (get answers "mongo")
      then [ "mongoURI=mongodb://localhost:27017/" +:+ appName;
             "mongoSession=" +:+ appName +:+ "Sessions";
             "secret=" +:+ secret ]
      else [])
  ++ [ "appName=" +:+ appName +:+ LF ].

(** The sources of the files copied one by one. *)
Definition copiedFrom (ops : list fs_op) : list string :=
  omap (fun op => match op with copyFileSync src _ => Some src | _ => None end) ops.

(** The variants of the app shell, the example component and the store
    without the router, and the router-aware ones, with the not-found
    component and the routes map. *)
Definition plainVariants : list (string * string) :=
  [ ("files/redux/ReduxApp.jsx", "/src/components/App.jsx");
    ("files/redux/ReduxExample.jsx", "/src/components/Example.jsx");
    ("files/redux/store.js", "/src/store.js") ].

Definition routerVariants : list (string * string) :=
  [ ("files/redux/Redux1stApp.jsx", "/src/components/App.jsx");
    ("files/redux/Redux1stExample.jsx", "/src/components/Example.jsx");
    ("files/redux/NotFound.jsx", "/src/components/NotFound.jsx");
    ("files/redux/routerStore.js", "/src/store.js");
    ("files/redux/routesMap.js", "/src/routesMap.js") ].

(** All of [variants] are copied into the application directory. *)
Definition allCopied (dirname : string) (variants : list (string * string))
  (appDir : string) (ops : list fs_op) : Prop :=
  forall src dest, In (src, dest) variants ->
    In (copyFileSync (dir dirname src) (appDir +:+ dest)) ops.

(** None of [variants] is the source of a copy. *)
Definition noneCopied (dirname : string) (variants : list (string * string))
  (ops : list fs_op) : Prop :=
  forall src dest, In (src, dest) variants -> ~ In (dir dirname src) (copiedFrom ops).

(** A string without a space. *)
Fixpoint hasSpace (s : string) : bool :=
  match s with
  | EmptyString => false
  | String c rest => Ascii.eqb c " " || hasSpace rest
  end.

(** A hexadecimal digit in lower case, and one of 8, 9, a and b. *)
Definition isHexChar (c : ascii) : bool :=
  let n := nat_of_ascii c in
  ((48 <=? n) && (n <=? 57) || (97 <=? n) && (n <=? 102))%nat.

Definition isVariantChar (c : ascii) : bool :=
  Ascii.eqb c "8" || Ascii.eqb c "9" || Ascii.eqb c "a" || Ascii.eqb c "b".

(** [s] follows [template] character by character: a variant digit for
    an 8, a hexadecimal digit for a 0 or a 1, and the character of the
    template itself anywhere else. *)
Fixpoint fitsTemplate (template s : string) : bool :=
  match template, s with
  | EmptyString, EmptyString => true
  | String t template', String c s' =>
      (if Ascii.eqb t "8" then isVariantChar c
       else if is018 t then isHexChar c
       else Ascii.eqb c t)
      && fitsTemplate template' s'
  | _, _ => false
  end.

(** The path that a file-system call writes to. *)
Definition destination (op : fs_op) : string :=
  match op with
  | writeFileSync file _ => file
  | copyFileSync _ dest => dest
  | mkdirSync path => path
  | copyTree _ dest => dest
  end.

(** An action that only prints, calls a helper or clears the screen; and
    one that makes a file-system call. *)
Definition quiet (a : action) : bool :=
  match a with
  | said _ | clearScreen => true
  | _ => false
  end.

Definition touchesDisk (a : action) : bool :=
  match a with
  | fsCall _ | copySync _ _ => true
  | _ => false
  end.

(** ** Surroundings used to run the model on examples *)

(** A reading of tokens that agrees with the unary plus on the strings of
    decimal digits that are ports (at most five digits); every other
    string is taken as [NaN]. *)
Definition isDigit (c : ascii) : bool :=
  (48 <=? nat_of_ascii c)%nat && (nat_of_ascii c <=? 57)%nat.

Definition decimalToNumber (s : string) : number :=
  if forallb isDigit (list_ascii_of_string s)
     && (1 <=? String.length s)%nat && (String.length s <=? 5)%nat
  then integer (fold_left (fun acc c => 10 * acc + (Z.of_nat (nat_of_ascii c) - 48))
                          (list_ascii_of_string s) 0)
  else not_a_number.

(** A verdict on names in the spirit of the package-naming rules: a
    non-empty string of lower-case letters, digits and dashes. *)
Definition isNameChar (c : ascii) : bool :=
  let n := nat_of_ascii c in
  ((97 <=? n) && (n <=? 122) || (48 <=? n) && (n <=? 57) || (n =? 45))%nat.

Definition lowerCaseName (v : value) : bool :=
  match v with
  | Str (String c rest) => forallb isNameChar (c :: list_ascii_of_string rest)
  | _ => false
  end.

(** No directory is in the way, and the printing helpers return nothing. *)
Definition dirIsFree (_ : object) : value := Bool true.
Definition printsOnly (_ : value) : value := undefined.

(** Command lines, parsed. *)

(** [cna my-app --devServerPort=3000 --apiPort=3000 --express], parsed *)
Definition scenario4 : object :=
  <["express" := Bool true]>
  (<["apiPort" := Num 3000]>
  (<["devServerPort" := Num 3000]>
  (<["appName" := Str "my-app"]> defaultOptions))).

(** [cna myapp --router], [cna myapp --mongo] and [cna myapp], parsed *)
Definition routerOnly : object :=
  <["router" := Bool true]> (<["appName" := Str "myapp"]> defaultOptions).
Definition mongoOnly : object :=
  <["mongo" := Bool true]> (<["appName" := Str "myapp"]> defaultOptions).
Definition nameOnly : object :=
  <["appName" := Str "myapp"]> defaultOptions.

(** [cna "My App" --sandbox], parsed: a name that is no package name *)
Definition sandboxBadName : object :=
  <["sandbox" := Bool true]> (<["appName" := Str "My App"]> defaultOptions).

(** ** The documents as they read *)

(** The manifest as it reads: a member of the top-level object, on a line
    of its own behind two spaces, and the document of the given members. *)
Definition quoted (s : string) : string := dquote +:+ s +:+ dquote.

Definition member (key text : string) : string :=
  "  " +:+ quoted key +:+ ": " +:+ text.

Definition document (members : list string) : string :=
  "{" +:+ LF +:+ String.concat ("," +:+ LF) members +:+ LF +:+ "}".

(** An array of strings as it reads at the top level of the document. *)
Definition keywordsText (keywords : list string) : string :=
  match keywords with
  | [] => "[]"
  | _ => "[" +:+ LF
         +:+ String.concat ("," +:+ LF) (map (fun k => "    " +:+ quote k) keywords)
         +:+ LF +:+ "  ]"
  end.

(** The two scripts tables as they read in the document. *)
Definition script (key command : string) : string :=
  "    " +:+ quoted key +:+ ": " +:+ quoted command.

Definition plainScriptsText : string :=
  String.concat LF
    [ "{";
      script "build" "cross-env NODE_ENV=production webpack --mode production --env.prod"
        +:+ ",";
      script "start" "cross-env NODE_ENV=development webpack-dev-server --mode development --env.dev --open --progress";
      "  }" ].

Definition serverScriptsText : string :=
  String.concat LF
    [ "{";
      script "build" "cross-env NODE_ENV=production webpack --mode production --env.prod"
        +:+ ",";
      script "build:dev" "cross-env NODE_ENV=development webpack --mode development --env.dev"
        +:+ ",";
      script "local" "npm run server:api" +:+ ",";
      script "server:dev" "webpack-dev-server --mode development --env.dev --open --progress"
        +:+ ",";
      script "server:api" "nodemon server.js" +:+ ",";
      script "start" "cross-env NODE_ENV=development npm-run-all --parallel server:*";
      "  }" ].

(** A string that JSON prints as it is: no quote, no backslash and no
    control character. *)
Definition plainChar (c : ascii) : bool :=
  negb (Ascii.eqb c "034") && negb (Ascii.eqb c "\") && (32 <=? nat_of_ascii c)%nat.

Definition plain (s : string) : bool := forallb plainChar (list_ascii_of_string s).

(** The manifest fields of an options object are strings, its keywords an
    array. *)
Definition manifestFields (o : object) : Prop :=
  (exists description, get o "description" = Str description)
  /\ (exists keywords, get o "keywords" = Arr keywords)
  /\ (exists author, get o "author" = Str author)
  /\ (exists email, get o "email" = Str email).

(** The properties that [dotEnv] reads for the ports, [apiport] and
    [port], are not set, and the manifest fields are of their kind. *)
Definition parsedFields (o : object) : Prop :=
  get o "apiport" = undefined /\ get o "port" = undefined /\ manifestFields o.

(** [cna myapp --express --apiPort 4000] *)
Definition expressOn4000 : list argument :=
  [valued "appName" "myapp"; flag "express"; valued "apiPort" "4000"].

(** that command line, parsed *)
Definition expressOn4000Parsed : object :=
  <["apiPort" := Num 4000]> (<["express" := Bool true]> nameOnly).

(** * Properties *)

(** ** Numbers as text *)

(** Integers below 2^53 are Numbers, and nothing from there on is read
    as one of them. *)
Lemma nearestNumber_small (z : Z) : 0 <= z < 2 ^ 53 -> nearestNumber z = z.
Proof.
  intros [H0 H]. unfold nearestNumber.
  destruct (Z.eq_dec z 0) as [->|Hz]; [reflexivity |].
  assert (Z.log2 z < 53) by (apply Z.log2_lt_pow2; lia).
  destruct (Z.leb_spec (Z.log2 z - 52) 0); [reflexivity | lia].
Qed.

Lemma nearestNumber_large (z : Z) : 2 ^ 53 <= z -> 2 ^ 53 <= nearestNumber z.
Proof.
  intros H. unfold nearestNumber.
  assert (Hlog : 53 <= Z.log2 z) by (apply Z.log2_le_pow2; lia).
  destruct (Z.leb_spec (Z.log2 z - 52) 0); [lia |].
  set (e := Z.log2 z - 52) in *.
  assert (Hm : 2 ^ 52 <= Z.shiftr z e).
  { rewrite Z.shiftr_div_pow2 by lia.
    apply Z.div_le_lower_bound; [apply Z.pow_pos_nonneg; lia |].
    rewrite <- Z.pow_add_r by lia. replace (e + 52) with (Z.log2 z) by lia.
    apply Z.log2_spec. lia. }
  assert (Hpow : 2 <= 2 ^ e).
  { change 2 with (2 ^ 1) at 1. apply Z.pow_le_mono_r; lia. }
  destruct (_ || _); rewrite Z.shiftl_mul_pow2 by lia; nia.
Qed.

Lemma roundTrip_small (x p : Z) :
  0 < x < 2 ^ 53 -> 0 <= p -> roundTrip x p = None \/ roundTrip x p = Some x.
Proof.
  intros Hx Hp. unfold roundTrip.
  assert (Hpow : 0 < 10 ^ p) by (apply Z.pow_pos_nonneg; lia).
  pose proof (Z.mul_div_le x (10 ^ p) Hpow) as Hlo.
  pose proof (Z.mod_pos_bound x (10 ^ p) Hpow) as Hmod.
  pose proof (Z.div_mod x (10 ^ p) ltac:(lia)) as Hdiv.
  pose proof (Z.div_pos x (10 ^ p) ltac:(lia) Hpow) as Hs.
  set (s := x / 10 ^ p) in *.
  assert (Hlo' : 0 <= s * 10 ^ p <= x) by nia.
  assert (Hhi : x < s * 10 ^ p + 10 ^ p) by nia.
  assert (Hhi_no : (nearestNumber (s * 10 ^ p + 10 ^ p) =? x) = false).
  { apply Z.eqb_neq.
    destruct (Z.lt_ge_cases (s * 10 ^ p + 10 ^ p) (2 ^ 53)).
    - rewrite nearestNumber_small by lia. lia.
    - pose proof (nearestNumber_large (s * 10 ^ p + 10 ^ p) ltac:(lia)). lia. }
  rewrite Hhi_no. rewrite nearestNumber_small by lia.
  destruct (Z.eqb_spec (s * 10 ^ p) x) as [->|]; simpl; auto.
Qed.

Lemma shortest_small (x : Z) (p : nat) : 0 < x < 2 ^ 53 -> shortest x p = x.
Proof.
  intros Hx. induction p as [|p IH]; cbn [shortest].
  - destruct (roundTrip_small x (Z.of_nat 0) Hx ltac:(lia)) as [-> | ->]; reflexivity.
  - destruct (roundTrip_small x (Z.of_nat (S p)) Hx ltac:(lia)) as [-> | ->];
      [exact IH | reflexivity].
Qed.

(** A number below 2^53, so every port and every number that the port
    options turn down within that range, prints as its decimal. *)
Lemma Z_to_string_small (n : Z) : 0 <= n < 2 ^ 53 -> Z_to_string n = decimal n.
Proof.
  intros Hn. destruct n as [|n|n]; [reflexivity | | lia].
  unfold Z_to_string, positiveToString.
  rewrite nearestNumber_small by lia. rewrite shortest_small by lia.
  destruct (Z.ltb_spec (Z.pos n) (10 ^ 21)); [reflexivity |].
  assert (2 ^ 53 < 10 ^ 21) by (vm_compute; reflexivity). lia.
Qed.

(** Above 2^53 the shortest decimal that reads back is printed, and from
    10^21 on in exponent form. *)
Example large_numbers_print :
  Z_to_string (2 ^ 53) = "9007199254740992"
  /\ Z_to_string (2 ^ 64) = "18446744073709552000"
  /\ Z_to_string (10 ^ 21 - 1) = "1e+21"
  /\ Z_to_string (10 ^ 21) = "1e+21"
  /\ Z_to_string (- 2 ^ 70) = "-1.1805916207174113e+21"
  /\ Z_to_string (10 ^ 23) = "1e+23".
Proof. repeat split; vm_compute; reflexivity. Qed.

(** The token [1e21] on the port option of the older schema *)
Example legacy_port_1e21 :
  Legacy.portOption (fun _ => integer (10 ^ 21)) (Str "1e21")
  = ([console_log (LF +:+ dquote +:+ "1e+21" +:+ dquote
                      +:+ " is out of range (1 - 65535). Defaulting to undefined..."
                      +:+ LF)],
     returns undefined).
Proof. vm_compute. reflexivity. Qed.

(** ** Reading properties *)

Lemma get_insert_eq (o : object) k v : get (<[k := v]> o) k = v.
Proof. unfold get. by rewrite lookup_insert_eq. Qed.

Lemma get_insert_ne (o : object) k k' v : k ≠ k' -> get (<[k := v]> o) k' = get o k'.
Proof. intros H. unfold get. by rewrite lookup_insert_ne. Qed.

Ltac get_simpl :=
  repeat first [ rewrite get_insert_eq | rewrite get_insert_ne by done ].

(** ** Ports *)

Lemma validPort_Some n p :
  validPort n = Some p <-> n = integer p /\ 1 <= p <= 65535.
Proof.
  destruct n as [z| | |]; simpl;
    try (split; [discriminate | intros [? _]; discriminate]).
  destruct (Z.leb_spec 1 z), (Z.leb_spec z 65535); simpl; split.
  all: try discriminate.
  all: try (intros [= ->]; split; [reflexivity | lia]).
  all: intros [[= ->] ?]; first [reflexivity | lia].
Qed.

Section PortFacts.

Variable StringToNumber : string -> number.

(** [portValidator] returns the number read when it is a valid port, and
    otherwise logs one warning and returns the default it was given. *)
Lemma portValidator_spec val ty defaultPort :
  match validPort (ToNumber StringToNumber val) with
  | Some p => portValidator StringToNumber val ty defaultPort = ([], returns (Num p))
  | None => exists msg,
      portValidator StringToNumber val ty defaultPort
      = ([console_log msg], returns defaultPort)
  end.
Proof.
  unfold portValidator, validPort.
  destruct (ToNumber StringToNumber val) as [z| | |]; try (eexists; reflexivity).
  destruct (1 <=? z) eqn:H1, (z <=? 65535) eqn:H2; simpl.
  - replace (z <? 1) with false by lia. replace (z >? 65535) with false by lia.
    reflexivity.
  - replace (z >? 65535) with true by lia. rewrite orb_true_r. eexists; reflexivity.
  - replace (z <? 1) with true by lia. eexists; reflexivity.
  - replace (z <? 1) with true by lia. eexists; reflexivity.
Qed.

End PortFacts.

(** C5. A token given to --devServerPort or --apiPort that does not read
    as an integer in [1, 65535] leaves the option at its documented
    default, 8080 or 3000, and one warning is logged; a token that reads as
    such an integer sets the option to it, and nothing is logged. *)
Theorem C5_port_flags (StringToNumber : string -> number) (val : string) (acc : object) :
  (match validPort (StringToNumber val) with
   | Some p =>
       setArgument StringToNumber optionDefinitions (valued "devServerPort" val) acc
       = ([], returns (<["devServerPort" := Num p]> acc))
   | None => exists msg,
       setArgument StringToNumber optionDefinitions (valued "devServerPort" val) acc
       = ([console_log msg], returns (<["devServerPort" := Num 8080]> acc))
   end)
  /\
  (match validPort (StringToNumber val) with
   | Some p =>
       setArgument StringToNumber optionDefinitions (valued "apiPort" val) acc
       = ([], returns (<["apiPort" := Num p]> acc))
   | None => exists msg,
       setArgument StringToNumber optionDefinitions (valued "apiPort" val) acc
       = ([console_log msg], returns (<["apiPort" := Num 3000]> acc))
   end).
Proof.
  split.
  - change (setArgument StringToNumber optionDefinitions (valued "devServerPort" val) acc)
      with (v ← portValidator StringToNumber (Str val) "dev" (Num 8080);
            mret (<["devServerPort" := v]> acc)).
    pose proof (portValidator_spec StringToNumber (Str val) "dev" (Num 8080)) as H.
    simpl ToNumber in H.
    destruct (validPort (StringToNumber val)) as [p|].
    + rewrite H. reflexivity.
    + destruct H as [msg ->]. exists msg. reflexivity.
  - change (setArgument StringToNumber optionDefinitions (valued "apiPort" val) acc)
      with (v ← portValidator StringToNumber (Str val) "api" (Num 3000);
            mret (<["apiPort" := v]> acc)).
    pose proof (portValidator_spec StringToNumber (Str val) "api" (Num 3000)) as H.
    simpl ToNumber in H.
    destruct (validPort (StringToNumber val)) as [p|].
    + rewrite H. reflexivity.
    + destruct H as [msg ->]. exists msg. reflexivity.
Qed.

(** [--devServerPort 70000] and [--apiPort http] fall back to the
    defaults, each with a warning; [--apiPort 4000] is taken. *)
Example port_out_of_range :
  cla decimalToNumber optionDefinitions [valued "appName" "myapp"; valued "devServerPort" "70000"]
  = ([console_log (out_of_range_msg 70000 (Num 8080))], returns nameOnly).
Proof. reflexivity. Qed.

Example port_not_a_number :
  cla decimalToNumber optionDefinitions [valued "appName" "myapp"; valued "apiPort" "http"]
  = ([console_log (invalid_port_msg (Str "http") (Num 3000))], returns nameOnly).
Proof. reflexivity. Qed.

Example port_taken :
  cla decimalToNumber optionDefinitions [valued "appName" "myapp"; valued "apiPort" "4000"]
  = ([], returns (<["apiPort" := Num 4000]> nameOnly)).
Proof. reflexivity. Qed.

(** ** Running the resolvers *)

Ltac run_M :=
  unfold or_exit, Legacy.and_exit, mbind, M_bind, fmap, M_fmap, mret, M_ret,
    emit, process_exit, TypeError, result, trace in *;
  simpl in *.

Ltac split_truthy :=
  repeat match goal with
    | H : context [if truthy ?v then _ else _] |- _ => destruct (truthy v) eqn:?; simpl in H
    | |- context [if truthy ?v then _ else _] => destruct (truthy v) eqn:?; simpl
    | H : context [if negb ?v then _ else _] |- _ => destruct v eqn:?; simpl in H
    | |- context [if negb ?v then _ else _] => destruct v eqn:?; simpl
    end.

Lemma promptYN_Bool question default replies :
  exists b rest, promptYN question default replies = (Bool b, rest).
Proof. destruct replies as [|[b|] rest]; simpl; eauto. Qed.

Section Resolvers.

#[local] Opaque defaultOptions.

Variable cwd : string.
Variable validForNewPackages : value -> bool.
Variable checkDirExists : object -> value.
Variable showVersion showHelp : value.
Variable badName : value -> value.

(** What [parseArgs] returns, when it returns the options. *)
Lemma parseArgs_returns online parsed o :
  result (parseArgs cwd validForNewPackages checkDirExists showVersion showHelp badName
                    online parsed) = returns (options_of o) ->
  exists api',
    o = withProperties cwd online parsed api'
    \/ (truthy (get parsed "sandbox") = true
        /\ o = <["sandbox" := Bool true]> (withProperties cwd online parsed api')).
Proof.
  unfold parseArgs, withProperties. intros H.
  destruct (truthy (get parsed "api")) eqn:Hapi; [destruct (get parsed "api") eqn:Ha |];
    run_M; try discriminate H; split_truthy; try discriminate H.
  all: injection H as H; subst o; eexists; eauto.
Qed.

(** In sandbox mode [badName] is never called. *)
Lemma parseArgs_sandbox_trace online parsed a :
  truthy (get parsed "sandbox") = true ->
  badName_call a ∉ trace (parseArgs cwd validForNewPackages checkDirExists showVersion
                                    showHelp badName online parsed).
Proof.
  unfold parseArgs. intros Hs. rewrite Hs.
  destruct (truthy (get parsed "api")) eqn:Hapi; [destruct (get parsed "api") eqn:Ha |];
    run_M; split_truthy.
  all: intros HIn; apply list_elem_of_In in HIn; simpl in HIn; intuition discriminate.
Qed.

(** The wizard, run: the questions it puts and what it hands back. *)
Lemma guidedProcess_run online name replies :
  guidedProcess cwd validForNewPackages checkDirExists badName online name replies
  = if negb (truthy (checkDirExists (<["appName" := Str name]> (<["appDir" := Str (cwd +:+ "/" +:+ name)]> (∅ : object)))))
    then ([promptQ_call "Enter a name for your app:"; checkDirExists_call (<["appName" := Str name]> (<["appDir" := Str (cwd +:+ "/" +:+ name)]> (∅ : object)))], exits)
    else if negb (validForNewPackages (Str name))
    then ([promptQ_call "Enter a name for your app:"; checkDirExists_call (<["appName" := Str name]> (<["appDir" := Str (cwd +:+ "/" +:+ name)]> (∅ : object)));
           badName_call (Str name)],
          if truthy (badName (Str name)) then returns (other (badName (Str name)))
          else exits)
    else
      let '(redux, r1) := promptYN "Would you like to include Redux?" false replies in
      let '(router, r2) :=
        if truthy redux
        then promptYN "Would you like to include Redux First Router?" false r1
        else (redux, r1) in
      let '(express, r3) :=
        promptYN "Would you like to include an Express server?" false r2 in
      let '(mongo, r4) :=
        if truthy express
        then promptYN "Would you like to include MongoDB?" false r3
        else (express, r3) in
      ([promptQ_call "Enter a name for your app:"; checkDirExists_call (<["appName" := Str name]> (<["appDir" := Str (cwd +:+ "/" +:+ name)]> (∅ : object)));
        console_log (LF +:+ "Pressing `enter` defaults to no for the following..." +:+ LF);
        promptYN_call "Would you like to include Redux?"]
       ++ (if truthy redux
           then [promptYN_call "Would you like to include Redux First Router?"] else [])
       ++ [promptYN_call "Would you like to include an Express server?"]
       ++ (if truthy express then [promptYN_call "Would you like to include MongoDB?"]
           else []),
       returns (options_of
         (<["appDir" := Str (cwd +:+ "/" +:+ name)]>
         (<["server" := or_ express mongo]>
         (<["offline" := Bool (negb online)]>
         (<["online" := Bool online]>
         (<["mongo" := mongo]>
         (<["express" := express]>
         (<["router" := router]>
         (<["redux" := redux]>
         (<["appName" := Str name]> defaultOptions))))))))))).
Proof.
  unfold guidedProcess, askYN. cbv zeta.
  change (toString (Str name)) with name.
  generalize (<["appName" := Str name]>
                (<["appDir" := Str (cwd +:+ "/" +:+ name)]> (∅ : object))).
  intros literal. run_M.
  destruct (truthy (checkDirExists literal)); simpl; [| reflexivity].
  destruct (validForNewPackages (Str name)); simpl;
    [| by destruct (truthy (badName (Str name)))].
  destruct (promptYN_Bool "Would you like to include Redux?" false replies)
    as (redux & r1 & ->).
  simpl. destruct redux; simpl.
  - destruct (promptYN_Bool "Would you like to include Redux First Router?" false r1)
      as (router & r2 & ->).
    destruct (promptYN_Bool "Would you like to include an Express server?" false r2)
      as (express & r3 & ->).
    simpl. destruct express; simpl; [| reflexivity].
    by destruct (promptYN_Bool "Would you like to include MongoDB?" false r3)
      as (mongo & r4 & ->).
  - destruct (promptYN_Bool "Would you like to include an Express server?" false r1)
      as (express & r3 & ->).
    simpl. destruct express; simpl; [| reflexivity].
    by destruct (promptYN_Bool "Would you like to include MongoDB?" false r3)
      as (mongo & r4 & ->).
Qed.

Lemma guidedProcess_returns online name replies o :
  result (guidedProcess cwd validForNewPackages checkDirExists badName online name replies)
  = returns (options_of o) ->
  exists redux router express mongo,
    o = wizardOptions cwd online name redux router express mongo
    /\ (router = true -> redux = true)
    /\ (mongo = true -> express = true).
Proof.
  rewrite guidedProcess_run. unfold wizardOptions. intros H.
  generalize dependent (<["appName" := Str name]>
                          (<["appDir" := Str (cwd +:+ "/" +:+ name)]>
                             (∅ : object))).
  intros literal H. run_M.
  destruct (truthy (checkDirExists _)); simpl in H; [| discriminate H].
  destruct (validForNewPackages _); simpl in H;
    [| destruct (truthy (badName _)); discriminate H].
  destruct (promptYN_Bool "Would you like to include Redux?" false replies)
    as (redux & r1 & E1).
  rewrite E1 in H. simpl in H.
  assert (Hrouter : exists router r2,
             (if redux
              then promptYN "Would you like to include Redux First Router?" false r1
              else (Bool redux, r1)) = (Bool router, r2)
             /\ (router = true -> redux = true)).
  { destruct redux.
    - destruct (promptYN_Bool "Would you like to include Redux First Router?" false r1)
        as (b & r & E).
      exists b, r. auto.
    - exists false, r1. split; [reflexivity | discriminate]. }
  destruct Hrouter as (router & r2 & E2 & Hr). rewrite E2 in H.
  destruct (promptYN_Bool "Would you like to include an Express server?" false r2)
    as (express & r3 & E3).
  rewrite E3 in H. simpl in H.
  assert (Hmongo : exists mongo r4,
             (if express
              then promptYN "Would you like to include MongoDB?" false r3
              else (Bool express, r3)) = (Bool mongo, r4)
             /\ (mongo = true -> express = true)).
  { destruct express.
    - destruct (promptYN_Bool "Would you like to include MongoDB?" false r3)
        as (b & r & E).
      exists b, r. auto.
    - exists false, r3. split; [reflexivity | discriminate]. }
  destruct Hmongo as (mongo & r4 & E4 & Hm). rewrite E4 in H.
  simpl in H. injection H as H. subst o.
  exists redux, router, express, mongo. auto.
Qed.

(** Yes to redux and no to the router. *)
Lemma guidedProcess_redux_alone online name o :
  result (guidedProcess cwd validForNewPackages checkDirExists badName online name
                        [Some true; Some false])
  = returns (options_of o) ->
  get o "redux" = Bool true /\ get o "router" = Bool false.
Proof.
  rewrite guidedProcess_run. intros H.
  generalize dependent (<["appName" := Str name]>
                          (<["appDir" := Str (cwd +:+ "/" +:+ name)]>
                             (∅ : object))).
  intros literal H. run_M.
  destruct (truthy (checkDirExists _)); simpl in H; [| discriminate H].
  destruct (validForNewPackages _); simpl in H;
    [| destruct (truthy (badName _)); discriminate H].
  injection H as H. subst o. get_simpl. split; reflexivity.
Qed.

End Resolvers.

(** ** The port adjustment *)

Section ParsedPorts.

Variable StringToNumber : string -> number.

Lemma portValidator_isPort val ty p t v :
  1 <= p <= 65535 ->
  portValidator StringToNumber val ty (Num p) = (t, returns v) -> isPort v.
Proof.
  intros Hp H. pose proof (portValidator_spec StringToNumber val ty (Num p)) as Hspec.
  destruct (validPort (ToNumber StringToNumber val)) as [q|] eqn:Hq.
  - rewrite Hspec in H. injection H as _ <-.
    apply validPort_Some in Hq as [_ Hq]. by exists q.
  - destruct Hspec as [msg Hspec]. rewrite Hspec in H. injection H as _ <-. by exists p.
Qed.

Lemma setArgument_ports a acc t acc' :
  setArgument StringToNumber optionDefinitions a acc = (t, returns acc') ->
  isPort (get acc "devServerPort") /\ isPort (get acc "apiPort") ->
  isPort (get acc' "devServerPort") /\ isPort (get acc' "apiPort").
Proof.
  intros H [Hd Ha]. unfold setArgument in H.
  destruct a as [n|n val];
    (destruct (List.find (isNamed n) optionDefinitions) as [d|] eqn:Hfind;
     [apply List.find_some in Hfind as [Hin _] | by injection H as _ <-]).
  - simpl in Hin.
    repeat (destruct Hin as [<-|Hin]; [simpl in H; injection H as _ <-; by get_simpl |]).
    destruct Hin.
  - simpl in Hin. unfold applyType in H.
    repeat (destruct Hin as [<-|Hin];
            [simpl in H;
             first [ injection H as _ <-; by get_simpl
                   | destruct (get acc "keywords"); injection H as _ <-; by get_simpl
                   | destruct (portValidator StringToNumber (Str val) _ _)
                       as [t' [v| |]] eqn:Hv; simpl in H; try discriminate H;
                     injection H as _ <-; get_simpl;
                     apply portValidator_isPort in Hv; [by split | lia] ] |]).
    destruct Hin.
Qed.

(** Both ports of a parsed command line are numbers in [1, 65535]. *)
Lemma cla_ports argv t parsed :
  cla StringToNumber optionDefinitions argv = (t, returns parsed) ->
  isPort (get parsed "devServerPort") /\ isPort (get parsed "apiPort").
Proof.
  unfold cla.
  assert (Hdefault : isPort (get (defaultsOf optionDefinitions) "devServerPort")
                     /\ isPort (get (defaultsOf optionDefinitions) "apiPort")).
  { split; eexists; (split; [reflexivity | lia]). }
  revert Hdefault. generalize (defaultsOf optionDefinitions) as acc.
  revert t. induction argv as [|a argv IH]; intros t acc Hacc H; simpl in H.
  - by injection H as _ <-.
  - unfold mbind, M_bind in H.
    destruct (setArgument StringToNumber optionDefinitions a acc) as [t1 [acc1| |]] eqn:Ha;
      try discriminate H.
    apply setArgument_ports in Ha; [| exact Hacc].
    destruct (setArguments StringToNumber optionDefinitions argv acc1) as [t2 r2] eqn:Hrest.
    injection H as _ ->. by eapply IH.
Qed.

End ParsedPorts.

(** The value that [processUsersCommand] returns; the warnings about
    being offline are in its trace. *)
Lemma processUsersCommand_result (StringToNumber : string -> number) (options : object) :
  result (processUsersCommand StringToNumber options)
  = returns (if truthy (or_ (get options "express") (get options "mongo"))
                && strict_eq (get options "devServerPort") (get options "apiPort")
             then <["devServerPort" := increment StringToNumber (get options "devServerPort")]>
                    options
             else options).
Proof.
  unfold processUsersCommand.
  destruct (truthy (or_ _ _) && strict_eq _ _);
    destruct (negb (truthy (get options "sandbox")) && _);
    destruct (negb (truthy (get options "online"))); reflexivity.
Qed.

(** C3. When express or mongo is set and devServerPort equals apiPort,
    [processUsersCommand] returns the options with devServerPort at
    apiPort + 1; otherwise devServerPort is as it was.  No other property
    changes, and running the adjustment again changes nothing more. *)
Theorem C3_port_adjustment (StringToNumber : string -> number) (options : object) (d a : Z) :
  get options "devServerPort" = Num d ->
  get options "apiPort" = Num a ->
  exists o',
    result (processUsersCommand StringToNumber options) = returns o'
    /\ get o' "devServerPort"
       = Num (if truthy (or_ (get options "express") (get options "mongo")) && (d =? a)
              then a + 1 else d)
    /\ (forall k, k ≠ "devServerPort" -> o' !! k = options !! k)
    /\ result (processUsersCommand StringToNumber o') = returns o'.
Proof.
  intros Hd Ha. rewrite processUsersCommand_result, Hd, Ha. simpl strict_eq.
  destruct (truthy (or_ (get options "express") (get options "mongo"))) eqn:Hs;
    [destruct (Z.eqb_spec d a) as [->|Hne] |]; simpl andb; cbv iota.
  - exists (<["devServerPort" := Num (a + 1)]> options). split; [| split; [| split]].
    + reflexivity.
    + apply get_insert_eq.
    + intros k Hk. by apply lookup_insert_ne.
    + rewrite processUsersCommand_result. get_simpl. rewrite Ha. simpl strict_eq.
      replace (a + 1 =? a) with false by lia. by rewrite andb_false_r.
  - exists options. split; [| split; [| split]]; try done.
    rewrite processUsersCommand_result, Hs, Hd, Ha. simpl strict_eq.
    by replace (d =? a) with false by lia.
  - exists options. split; [| split; [| split]]; try done.
    by rewrite processUsersCommand_result, Hs.
Qed.

(** End-to-end scenario 4 of the spec, under a name that is a package
    name. *)
Example scenario4_resolved :
  cla decimalToNumber optionDefinitions
      [valued "appName" "my-app"; valued "devServerPort" "3000"; valued "apiPort" "3000";
       flag "express"]
  = ([], returns scenario4)
  /\ match result (parseArgs "/home" lowerCaseName dirIsFree undefined undefined printsOnly
                             true scenario4) with
     | returns (options_of o) =>
         match result (processUsersCommand decimalToNumber o) with
         | returns o' => get o' "devServerPort" = Num 3001 /\ get o' "apiPort" = Num 3000
         | _ => False
         end
     | _ => False
     end.
Proof. split; [reflexivity |]. vm_compute. split; reflexivity. Qed.

Lemma C3_port_adjustment_witness :
  exists o',
    result (processUsersCommand decimalToNumber scenario4) = returns o'
    /\ get o' "devServerPort" = Num 3001.
Proof.
  destruct (C3_port_adjustment decimalToNumber scenario4 3000 3000 eq_refl eq_refl)
    as (o' & Hrun & Hport & _).
  exists o'. split; [exact Hrun | exact Hport].
Defined.

(** ** Addon flags in the resolved options *)

#[local] Transparent defaultOptions.

Example cla_routerOnly :
  cla decimalToNumber optionDefinitions [valued "appName" "myapp"; flag "router"]
  = ([], returns routerOnly).
Proof. reflexivity. Qed.

Example cla_mongoOnly :
  cla decimalToNumber optionDefinitions [valued "appName" "myapp"; flag "m"]
  = ([], returns mongoOnly).
Proof. reflexivity. Qed.

(** Counterexample to C1 as stated: [cna myapp --router] resolves to
    options with router on and redux off. *)
Lemma C1_counterexample :
  match result (parseArgs "/home" lowerCaseName dirIsFree undefined undefined printsOnly
                          true routerOnly) with
  | returns (options_of o) => get o "router" = Bool true /\ get o "redux" = Bool false
  | _ => False
  end.
Proof. vm_compute. split; reflexivity. Qed.

(** C1, amended. The wizard returns router on only with redux on, and can
    return redux on with router off.  [parseArgs] passes redux and router
    on as they were parsed. *)
Theorem C1_router_and_redux
  (cwd : string) (validForNewPackages : value -> bool) (checkDirExists : object -> value)
  (showVersion showHelp : value) (badName : value -> value) :
  (forall online name replies o,
      result (guidedProcess cwd validForNewPackages checkDirExists badName online name replies)
      = returns (options_of o) ->
      truthy (get o "router") = true -> truthy (get o "redux") = true)
  /\ (forall online name o,
      result (guidedProcess cwd validForNewPackages checkDirExists badName online name
                            [Some true; Some false])
      = returns (options_of o) ->
      get o "redux" = Bool true /\ get o "router" = Bool false)
  /\ (forall online parsed o,
      result (parseArgs cwd validForNewPackages checkDirExists showVersion showHelp badName
                        online parsed) = returns (options_of o) ->
      get o "router" = get parsed "router" /\ get o "redux" = get parsed "redux").
Proof.
  split; [| split].
  - intros online name replies o H.
    apply guidedProcess_returns in H as (redux & router & express & mongo & -> & Hr & _).
    unfold wizardOptions. get_simpl. exact Hr.
  - intros online name o H. by apply guidedProcess_redux_alone in H.
  - intros online parsed o H.
    apply parseArgs_returns in H as (api' & [-> | [_ ->]]);
      unfold withProperties; get_simpl; split; reflexivity.
Qed.

Lemma C1_router_and_redux_witness :
  truthy (get (wizardOptions "/home" true "myapp" true true false false) "redux") = true
  /\ get (withProperties "/home" true routerOnly null) "router" = Bool true.
Proof.
  pose proof (C1_router_and_redux "/home" lowerCaseName dirIsFree undefined undefined
                printsOnly) as (Hwizard & _ & Hargs).
  split.
  - apply (Hwizard true "myapp" [Some true; Some true]
                   (wizardOptions "/home" true "myapp" true true false false));
      reflexivity.
  - destruct (Hargs true routerOnly (withProperties "/home" true routerOnly null) eq_refl)
      as [-> _].
    reflexivity.
Defined.

(** Counterexample to C2 as stated: [cna myapp --mongo] resolves to
    options with mongo on while express is undefined. *)
Lemma C2_counterexample :
  match result (parseArgs "/home" lowerCaseName dirIsFree undefined undefined printsOnly
                          true mongoOnly) with
  | returns (options_of o) => get o "mongo" = Bool true /\ get o "express" = undefined
  | _ => False
  end.
Proof. vm_compute. split; reflexivity. Qed.

(** C2, amended. With mongo on, the derived server flag is on, whichever
    resolver built the options.  The wizard returns mongo on only with
    express on; [parseArgs] passes express and mongo on as they were
    parsed. *)
Theorem C2_mongo_and_server
  (cwd : string) (validForNewPackages : value -> bool) (checkDirExists : object -> value)
  (showVersion showHelp : value) (badName : value -> value) :
  (forall online name replies o,
      result (guidedProcess cwd validForNewPackages checkDirExists badName online name replies)
      = returns (options_of o) ->
      truthy (get o "mongo") = true ->
      truthy (get o "express") = true /\ truthy (get o "server") = true)
  /\ (forall online parsed o,
      result (parseArgs cwd validForNewPackages checkDirExists showVersion showHelp badName
                        online parsed) = returns (options_of o) ->
      get o "mongo" = get parsed "mongo"
      /\ get o "express" = get parsed "express"
      /\ get o "server" = or_ (get o "express") (get o "mongo")
      /\ (truthy (get o "mongo") = true -> truthy (get o "server") = true)).
Proof.
  split.
  - intros online name replies o H.
    apply guidedProcess_returns in H as (redux & router & express & mongo & -> & _ & Hm).
    unfold wizardOptions. get_simpl. simpl. intros ->. rewrite (Hm eq_refl). auto.
  - intros online parsed o H.
    assert (Hor : forall e m, truthy m = true -> truthy (or_ e m) = true).
    { intros e m Hm. unfold or_. destruct (truthy e) eqn:He; assumption. }
    apply parseArgs_returns in H as (api' & [-> | [_ ->]]);
      unfold withProperties; get_simpl; auto.
Qed.

Lemma C2_mongo_and_server_witness :
  (truthy (get (wizardOptions "/home" true "myapp" false false true true) "express") = true
   /\ truthy (get (wizardOptions "/home" true "myapp" false false true true) "server") = true)
  /\ truthy (get (withProperties "/home" true mongoOnly null) "server") = true.
Proof.
  pose proof (C2_mongo_and_server "/home" lowerCaseName dirIsFree undefined undefined
                printsOnly) as (Hwizard & Hargs).
  split.
  - apply (Hwizard true "myapp" [None; Some true; Some true]
                   (wizardOptions "/home" true "myapp" false false true true));
      reflexivity.
  - destruct (Hargs true mongoOnly (withProperties "/home" true mongoOnly null) eq_refl)
      as (_ & _ & _ & Hserver).
    apply Hserver. reflexivity.
Defined.

(** ** Sandbox mode *)

(** C10. With sandbox set, [parseArgs] never calls [badName], whatever the
    name is; when neither version nor help is asked for and the directory
    check passes, it returns the options, with sandbox true, without
    looking at the verdict on the name. *)
Theorem C10_sandbox_skips_name_check
  (cwd : string) (validForNewPackages : value -> bool) (checkDirExists : object -> value)
  (showVersion showHelp : value) (badName : value -> value)
  (online : bool) (parsed : object) :
  truthy (get parsed "sandbox") = true ->
  (forall a, badName_call a ∉
             trace (parseArgs cwd validForNewPackages checkDirExists showVersion showHelp
                              badName online parsed))
  /\ (truthy (get parsed "version") = false ->
      truthy (get parsed "help") = false ->
      (truthy (get parsed "api") = true -> exists s, get parsed "api" = Str s) ->
      (forall api', truthy (checkDirExists (withProperties cwd online parsed api')) = true) ->
      exists api',
        result (parseArgs cwd validForNewPackages checkDirExists showVersion showHelp
                          badName online parsed)
        = returns (options_of (<["sandbox" := Bool true]>
                                 (withProperties cwd online parsed api')))).
Proof.
  intros Hs. split.
  - intros a. by apply parseArgs_sandbox_trace.
  - intros Hv Hh Hapi Hdir. unfold parseArgs. rewrite Hv, Hh, Hs.
    destruct (truthy (get parsed "api")) eqn:Ht.
    + destruct (Hapi eq_refl) as [s ->]. exists (Str (removeSpaces s)).
      specialize (Hdir (Str (removeSpaces s))). unfold withProperties in Hdir.
      run_M. by rewrite Hdir.
    + exists null. specialize (Hdir null). unfold withProperties in Hdir.
      run_M. by rewrite Hdir.
Qed.

Lemma C10_sandbox_skips_name_check_witness :
  lowerCaseName (get sandboxBadName "appName") = false
  /\ exists api',
      result (parseArgs "/home" lowerCaseName dirIsFree undefined undefined printsOnly
                        true sandboxBadName)
      = returns (options_of (<["sandbox" := Bool true]>
                               (withProperties "/home" true sandboxBadName api'))).
Proof.
  split; [reflexivity |].
  apply (C10_sandbox_skips_name_check "/home" lowerCaseName dirIsFree undefined undefined
           printsOnly true sandboxBadName); try reflexivity.
  intros H. discriminate H.
Defined.

(** ** Title and description *)

Section LegacyResolver.

Variable cwd : string.
Variable validForNewPackages : value -> bool.
Variable noName : value.
Variable badName : value -> value.
Variable titleCase : value -> value.

(** What the older [parseArgs] returns, when it returns the options. *)
Lemma legacy_parseArgs_returns online parsed o :
  result (Legacy.parseArgs cwd validForNewPackages noName badName titleCase online parsed)
  = returns (options_of o) ->
  get o "title" = or_ (get parsed "title") (get parsed "appName")
  /\ get o "description"
     = (if truthy (get parsed "description") then get parsed "description"
        else if truthy (get parsed "title") then get parsed "title"
             else titleCase (get parsed "appName")).
Proof.
  unfold Legacy.parseArgs. intros H.
  destruct (truthy (get parsed "api")) eqn:Hapi; [destruct (get parsed "api") eqn:Ha |];
    run_M; try discriminate H.
  all: destruct (truthy (get parsed "appName")); simpl in H;
    [| destruct (truthy noName); discriminate H].
  all: destruct (truthy (get parsed "sandbox")); simpl in H; [discriminate H |].
  all: destruct (validForNewPackages _); simpl in H;
    [| destruct (truthy (badName _)); discriminate H].
  all: injection H as H; subst o; get_simpl; split; reflexivity.
Qed.

End LegacyResolver.

(** Counterexample to C6 as stated: [cna myapp], with no --title, resolves
    to options whose title is the empty string, not the name. *)
Lemma C6_counterexample :
  match result (parseArgs "/home" lowerCaseName dirIsFree undefined undefined printsOnly
                          true nameOnly) with
  | returns (options_of o) =>
      get o "appName" = Str "myapp" /\ get o "title" = Str EmptyString
  | _ => False
  end.
Proof. vm_compute. split; reflexivity. Qed.

(** C6, amended. The older [parseArgs] sets title to appName when no title
    was parsed, and description, when none was parsed, to the parsed title
    or else to [titleCase(appName)].  The [parseArgs] of the entry point
    passes title and description on as they were parsed. *)
Theorem C6_title_and_description
  (cwd : string) (validForNewPackages : value -> bool) (checkDirExists : object -> value)
  (showVersion showHelp noName : value) (badName titleCase : value -> value) :
  (forall online parsed o,
      result (Legacy.parseArgs cwd validForNewPackages noName badName titleCase online parsed)
      = returns (options_of o) ->
      (truthy (get parsed "title") = false -> get o "title" = get parsed "appName")
      /\ (truthy (get parsed "description") = false ->
          get o "description"
          = if truthy (get parsed "title") then get parsed "title"
            else titleCase (get parsed "appName")))
  /\ (forall online parsed o,
      result (parseArgs cwd validForNewPackages checkDirExists showVersion showHelp badName
                        online parsed) = returns (options_of o) ->
      get o "title" = get parsed "title"
      /\ get o "description" = get parsed "description").
Proof.
  split.
  - intros online parsed o H.
    apply legacy_parseArgs_returns in H as [Ht Hd]. split.
    + intros Hf. rewrite Ht. unfold or_. by rewrite Hf.
    + intros Hf. rewrite Hd. by rewrite Hf.
  - intros online parsed o H.
    apply parseArgs_returns in H as (api' & [-> | [_ ->]]);
      unfold withProperties; get_simpl; split; reflexivity.
Qed.

Lemma C6_title_and_description_witness :
  get (withProperties "/home" true nameOnly null) "title" = Str EmptyString
  /\ match result (Legacy.parseArgs "/home" lowerCaseName undefined printsOnly
                     (fun v => v) true nameOnly) with
     | returns (options_of o) =>
         get o "title" = Str "myapp" /\ get o "description" = Str "myapp"
     | _ => False
     end.
Proof.
  pose proof (C6_title_and_description "/home" lowerCaseName dirIsFree undefined undefined
                undefined printsOnly (fun v => v)) as (Hlegacy & Hargs).
  split.
  - destruct (Hargs true nameOnly (withProperties "/home" true nameOnly null) eq_refl)
      as [-> _].
    reflexivity.
  - destruct (result (Legacy.parseArgs "/home" lowerCaseName undefined printsOnly
                        (fun v => v) true nameOnly)) as [[o|v]| |] eqn:E;
      try (vm_compute in E; discriminate E).
    destruct (Hlegacy true nameOnly o E) as [Ht Hd].
    split; [apply Ht | apply Hd]; reflexivity.
Defined.

(** ** The environment file *)

Lemma hasLF_append a b : hasLF (a +:+ b) = hasLF a || hasLF b.
Proof. induction a as [|c a IH]; simpl; [reflexivity |]. by rewrite IH, orb_assoc. Qed.

Lemma hasLF_hex_uint u : hasLF (HexadecimalString.NilEmpty.string_of_uint u) = false.
Proof. induction u; simpl; first [reflexivity | assumption]. Qed.

Lemma hasLF_toString16 n : hasLF (toString16 n) = false.
Proof.
  unfold toString16, HexadecimalString.NilZero.string_of_int,
    HexadecimalString.NilZero.string_of_uint.
  destruct (Z.to_hex_int n) as [u|u]; destruct u; simpl; try reflexivity;
    apply hasLF_hex_uint.
Qed.

Lemma replace018_noLF random s :
  hasLF s = false -> forall k, hasLF (fst (replace018 random k s)) = false.
Proof.
  induction s as [|c s IH]; simpl; [reflexivity |].
  intros H k. apply orb_false_iff in H as [Hc Hs].
  destruct (is018 c).
  - specialize (IH Hs (S k)). destruct (replace018 random (S k) s) as [rest k'].
    simpl in *. unfold uuidDigit. by rewrite hasLF_append, hasLF_toString16, IH.
  - specialize (IH Hs k). destruct (replace018 random k s) as [rest k'].
    simpl in *. by rewrite Hc, IH.
Qed.

Lemma replace018_draws random s :
  forall k, snd (replace018 random k s)
            = (length (List.filter is018 (list_ascii_of_string s)) + k)%nat.
Proof.
  induction s as [|c s IH]; simpl; [reflexivity |].
  intros k. destruct (is018 c).
  - specialize (IH (S k)). destruct (replace018 random (S k) s) as [rest k'].
    simpl in *. lia.
  - specialize (IH k). by destruct (replace018 random k s) as [rest k'].
Qed.

(** The secret stays on its line, and takes 31 numbers from
    [Math.random()]: the next secret is made of the numbers after them. *)
Lemma uuid_noLF random k : hasLF (fst (uuid random k)) = false.
Proof. by apply replace018_noLF. Qed.

Lemma uuid_draws random k : snd (uuid random k) = (31 + k)%nat.
Proof. unfold uuid. by rewrite replace018_draws. Qed.

Lemma dotEnv_lines answers random k :
  fst (dotEnv answers random k)
  = if truthy (get answers "server")
    then String.concat LF (serverEnvLines answers (fst (uuid random k)))
    else "appName=" +:+ toString (get answers "appName") +:+ LF.
Proof.
  unfold dotEnv, dotEnvContents, serverEnvLines.
  destruct (truthy (get answers "mongo")) eqn:Hm.
  - destruct (uuid random k) as [u k']. unfold and_. rewrite Hm.
    by destruct (truthy (get answers "server")).
  - unfold and_. rewrite Hm. cbn [List.filter truthy append]. rewrite Hm.
    by destruct (truthy (get answers "server")).
Qed.

(** Without a server no port line is written: for [cna myapp], whose
    resolved apiPort is 3000, the file is the appName line alone. *)
Lemma dotEnv_without_server :
  get (withProperties "/home" true nameOnly null) "apiPort" = Num 3000
  /\ fst (dotEnv (withProperties "/home" true nameOnly null) (fun _ => 0%Q) 0)
     = "appName=myapp" +:+ LF.
Proof. split; reflexivity. Qed.

(** The lines of the file in each case, and the random numbers used: the
    secret is a new token, made of the next 31. *)
Lemma dotEnv_lines_and_draws (answers : object) (random : nat -> Q) (k : nat) :
  fst (dotEnv answers random k)
  = (if truthy (get answers "server")
     then String.concat LF
            ([ "PORT=" +:+ toString (get answers "apiport") ]
             ++ (if truthy (get answers "mongo")
                 then [ "mongoURI=mongodb://localhost:27017/" +:+ toString (get answers "appName");
                        "mongoSession=" +:+ toString (get answers "appName") +:+ "Sessions";
                        "secret=" +:+ fst (uuid random k) ]
                 else [])
             ++ [ "appName=" +:+ toString (get answers "appName") +:+ LF ])
     else "appName=" +:+ toString (get answers "appName") +:+ LF)
  /\ snd (dotEnv answers random k)
     = (if truthy (get answers "mongo") then 31 + k else k)%nat.
Proof.
  split; [apply dotEnv_lines |].
  unfold dotEnv, dotEnvContents.
  destruct (truthy (get answers "mongo")); [| reflexivity].
  pose proof (uuid_draws random k) as H.
  by destruct (uuid random k) as [u k'].
Qed.

(** ** What a parsed command line holds *)

Section ParsedFields.

Variable StringToNumber : string -> number.

(** No option of the schema is named [apiport] or [port], and the manifest
    fields keep their kind, whatever the arguments. *)
Lemma setArgument_fields a acc t acc' :
  setArgument StringToNumber optionDefinitions a acc = (t, returns acc') ->
  parsedFields acc -> parsedFields acc'.
Proof.
  unfold parsedFields, manifestFields.
  intros H (Ha & Hp & (d & Hd) & (k & Hk) & (au & Hau) & (e & He)).
  unfold setArgument in H.
  destruct a as [n|n val];
    (destruct (List.find (isNamed n) optionDefinitions) as [x|] eqn:Hfind;
     [apply List.find_some in Hfind as [Hin _] | injection H as _ <-; eauto 10]).
  - simpl in Hin.
    repeat (destruct Hin as [<-|Hin];
            [simpl in H; injection H as _ <-; get_simpl; eauto 10 |]).
    destruct Hin.
  - simpl in Hin. unfold applyType in H.
    repeat (destruct Hin as [<-|Hin];
            [simpl in H;
             first [ injection H as _ <-; get_simpl; by eauto 10
                   | rewrite Hk in H; injection H as _ <-; get_simpl; by eauto 10
                   | destruct (portValidator StringToNumber (Str val) _ _)
                       as [t' [v| |]] eqn:Hv; simpl in H; try discriminate H;
                     injection H as _ <-; get_simpl; by eauto 10 ] |]).
    destruct Hin.
Qed.

Lemma cla_fields argv t parsed :
  cla StringToNumber optionDefinitions argv = (t, returns parsed) -> parsedFields parsed.
Proof.
  unfold cla.
  assert (Hdefault : parsedFields (defaultsOf optionDefinitions)).
  { repeat split; try reflexivity; eexists; reflexivity. }
  revert Hdefault. generalize (defaultsOf optionDefinitions) as acc.
  revert t. induction argv as [|a argv IH]; intros t acc Hacc H; simpl in H.
  - by injection H as _ <-.
  - unfold mbind, M_bind in H.
    destruct (setArgument StringToNumber optionDefinitions a acc) as [t1 [acc1| |]] eqn:Ha;
      try discriminate H.
    apply setArgument_fields in Ha; [| exact Hacc].
    destruct (setArguments StringToNumber optionDefinitions argv acc1) as [t2 r2] eqn:Hrest.
    injection H as _ ->. by eapply IH.
Qed.

End ParsedFields.

Section ResolvedFields.

Variable cwd : string.
Variable validForNewPackages : value -> bool.
Variable checkDirExists : object -> value.
Variable showVersion showHelp : value.
Variable badName : value -> value.
Variable StringToNumber : string -> number.

(** The options resolved from a command line. *)
Lemma resolved_fields online argv t parsed o o' :
  cla StringToNumber optionDefinitions argv = (t, returns parsed) ->
  result (parseArgs cwd validForNewPackages checkDirExists showVersion showHelp badName
                    online parsed) = returns (options_of o) ->
  result (processUsersCommand StringToNumber o) = returns o' ->
  parsedFields o'
  /\ get o' "appName" = get parsed "appName"
  /\ get o' "apiPort" = get parsed "apiPort"
  /\ get o' "server" = or_ (get parsed "express") (get parsed "mongo").
Proof.
  intros Hcla Hparse Hrun. apply cla_fields in Hcla.
  rewrite processUsersCommand_result in Hrun. injection Hrun as <-.
  apply parseArgs_returns in Hparse as [api' Ho].
  unfold parsedFields, manifestFields in *.
  destruct (truthy (or_ _ _) && strict_eq _ _);
    destruct Ho as [-> | [_ ->]]; unfold withProperties; get_simpl; tauto.
Qed.

(** The options that the wizard returns. *)
Lemma wizard_fields online name replies o :
  result (guidedProcess cwd validForNewPackages checkDirExists badName online name replies)
  = returns (options_of o) ->
  parsedFields o
  /\ get o "appName" = Str name
  /\ get o "apiPort" = Num 3000.
Proof.
  intros H.
  apply guidedProcess_returns in H as (redux & router & express & mongo & -> & _).
  unfold parsedFields, manifestFields.
  repeat split; try (vm_compute; reflexivity); eexists; vm_compute; reflexivity.
Qed.

End ResolvedFields.

(** With a server, and no [apiport] among the options, the file starts
    with a port line that reads undefined. *)
Lemma dotEnv_port_undefined answers random k :
  get answers "apiport" = undefined ->
  truthy (get answers "server") = true ->
  exists rest, fst (dotEnv answers random k) = "PORT=undefined" +:+ LF +:+ rest.
Proof.
  intros Hport Hserver. rewrite dotEnv_lines, Hserver. unfold serverEnvLines.
  rewrite Hport. destruct (truthy (get answers "mongo")); eexists; reflexivity.
Qed.

(** Every project with a server gets that line, whatever port was asked
    for: from a command line, *)
Lemma resolved_port_line
  (cwd : string) (validForNewPackages : value -> bool) (checkDirExists : object -> value)
  (showVersion showHelp : value) (badName : value -> value)
  (StringToNumber : string -> number) online argv t parsed o o' random k :
  cla StringToNumber optionDefinitions argv = (t, returns parsed) ->
  result (parseArgs cwd validForNewPackages checkDirExists showVersion showHelp badName
                    online parsed) = returns (options_of o) ->
  result (processUsersCommand StringToNumber o) = returns o' ->
  truthy (get o' "server") = true ->
  exists rest, fst (dotEnv o' random k) = "PORT=undefined" +:+ LF +:+ rest.
Proof.
  intros Hcla Hparse Hrun Hserver.
  destruct (resolved_fields cwd validForNewPackages checkDirExists showVersion showHelp
              badName StringToNumber online argv t parsed o o' Hcla Hparse Hrun)
    as ((Hport & _) & _).
  by apply dotEnv_port_undefined.
Qed.

(** and from the wizard. *)
Lemma wizard_port_line
  (cwd : string) (validForNewPackages : value -> bool) (checkDirExists : object -> value)
  (badName : value -> value) online name replies o random k :
  result (guidedProcess cwd validForNewPackages checkDirExists badName online name replies)
  = returns (options_of o) ->
  truthy (get o "server") = true ->
  exists rest, fst (dotEnv o random k) = "PORT=undefined" +:+ LF +:+ rest.
Proof.
  intros H Hserver. apply wizard_fields in H as ((Hport & _) & _).
  by apply dotEnv_port_undefined.
Qed.

(** C4, at [cna myapp --express --apiPort 4000]: the command line resolves
    to options with a server and the API port 4000, and the environment
    file that [dotEnv] renders for them reads PORT=undefined, then the
    appName line: the port that was resolved is not in the file. *)
Theorem C4_port_line_undefined (random : nat -> Q) :
  let o := withProperties "/home" true expressOn4000Parsed null in
  cla decimalToNumber optionDefinitions expressOn4000 = ([], returns expressOn4000Parsed)
  /\ result (parseArgs "/home" lowerCaseName dirIsFree undefined undefined printsOnly
                       true expressOn4000Parsed) = returns (options_of o)
  /\ result (processUsersCommand decimalToNumber o) = returns o
  /\ get o "apiPort" = Num 4000
  /\ truthy (get o "server") = true
  /\ fst (dotEnv o random 0) = "PORT=undefined" +:+ LF +:+ "appName=myapp" +:+ LF.
Proof. repeat split; vm_compute; reflexivity. Qed.

(** ** The manifest *)

Lemma escape_plain (s : string) : plain s = true -> escape s = s.
Proof.
  unfold plain. induction s as [|c s IH]; [reflexivity |].
  simpl. intros [Hc Hs]%andb_prop. rewrite (IH Hs).
  unfold plainChar in Hc. apply andb_prop in Hc as [[Hq Hb]%andb_prop Hn].
  apply negb_true_iff in Hq, Hb. apply Nat.leb_le in Hn.
  unfold escapeChar. rewrite Hq, Hb.
  assert (Hlow : (nat_of_ascii c <? 32)%nat = false) by (apply Nat.ltb_ge; lia).
  rewrite Hlow.
  assert (Hne : forall d, (nat_of_ascii d < 32)%nat -> Ascii.eqb c d = false).
  { intros d Hd. apply Ascii.eqb_neq. intros ->. lia. }
  rewrite !Hne by (vm_compute; lia). reflexivity.
Qed.

(** C8. The document that [packageJson] produces, for options whose
    manifest fields are strings and whose keywords are an array, as every
    resolved options object has them: its members are, in this order,
    name with the appName, version with 0.1.0, description, keywords,
    author and email, and then, with a server, main with server.js and
    the six server scripts, and without one the build and start scripts
    alone, with no main.  What follows email depends on nothing but the
    server flag.  A name without quote, backslash or control character
    reads in the document as it is. *)
Theorem C8_packageJson (answers : object) (name description author email : string)
  (keywords : list string) :
  get answers "appName" = Str name ->
  get answers "description" = Str description ->
  get answers "keywords" = Arr keywords ->
  get answers "author" = Str author ->
  get answers "email" = Str email ->
  packageJson answers
  = document
      ([ member "name" (quote name);
         member "version" (quoted "0.1.0");
         member "description" (quote description);
         member "keywords" (keywordsText keywords);
         member "author" (quote author);
         member "email" (quote email) ]
       ++ (if truthy (get answers "server")
           then [ member "main" (quoted "server.js");
                  member "scripts" serverScriptsText ]
           else [ member "scripts" plainScriptsText ]))
  /\ (plain name = true -> member "name" (quote name) = member "name" (quoted name)).
Proof.
  intros Hname Hdescription Hkeywords Hauthor Hemail. split.
  - unfold packageJson, packageJsonObject.
    rewrite Hname, Hdescription, Hkeywords, Hauthor, Hemail.
    destruct (truthy (get answers "server")); destruct keywords; reflexivity.
  - intros Hplain. unfold quote, quoted. by rewrite escape_plain.
Qed.

(** The manifest of [cna myapp --express --apiPort 4000] *)
Lemma C8_packageJson_witness :
  packageJson (withProperties "/home" true expressOn4000Parsed null)
  = document
      ([ member "name" (quote "myapp");
         member "version" (quoted "0.1.0");
         member "description" (quote EmptyString);
         member "keywords" (keywordsText []);
         member "author" (quote EmptyString);
         member "email" (quote EmptyString) ]
       ++ (if truthy (get (withProperties "/home" true expressOn4000Parsed null) "server")
           then [ member "main" (quoted "server.js");
                  member "scripts" serverScriptsText ]
           else [ member "scripts" plainScriptsText ])).
Proof.
  apply (C8_packageJson (withProperties "/home" true expressOn4000Parsed null)
           "myapp" EmptyString EmptyString EmptyString []); vm_compute; reflexivity.
Defined.

(** [cna myApp] prints this manifest. *)
Example packageJson_myApp :
  packageJson (<["appName" := Str "myApp"]> defaultOptions)
  = String.concat LF
      [ "{";
        "  " +:+ dquote +:+ "name" +:+ dquote +:+ ": " +:+ dquote +:+ "myApp" +:+ dquote +:+ ",";
        "  " +:+ dquote +:+ "version" +:+ dquote +:+ ": " +:+ dquote +:+ "0.1.0" +:+ dquote +:+ ",";
        "  " +:+ dquote +:+ "description" +:+ dquote +:+ ": " +:+ dquote +:+ dquote +:+ ",";
        "  " +:+ dquote +:+ "keywords" +:+ dquote +:+ ": [],";
        "  " +:+ dquote +:+ "author" +:+ dquote +:+ ": " +:+ dquote +:+ dquote +:+ ",";
        "  " +:+ dquote +:+ "email" +:+ dquote +:+ ": " +:+ dquote +:+ dquote +:+ ",";
        "  " +:+ dquote +:+ "scripts" +:+ dquote +:+ ": {";
        "    " +:+ dquote +:+ "build" +:+ dquote +:+ ": " +:+ dquote
          +:+ "cross-env NODE_ENV=production webpack --mode production --env.prod"
          +:+ dquote +:+ ",";
        "    " +:+ dquote +:+ "start" +:+ dquote +:+ ": " +:+ dquote
          +:+ "cross-env NODE_ENV=development webpack-dev-server --mode development --env.dev --open --progress"
          +:+ dquote;
        "  }";
        "}" ].
Proof. vm_compute. reflexivity. Qed.

(** ** Determinism of the renderers *)

(** C9. Two runs of [createFiles] on the same options, with any two
    sources of random numbers, make the same calls, package.json among
    them with the same text, but for the text of the environment file.
    That text is the same lines around the secret line, which is there
    only with mongo (and a server) and holds a token without line break. *)
Theorem C9_renderers_deterministic
  (dirname : string) (webpackConfig : value -> string) (options : object)
  (random1 random2 : nat -> Q) :
  (exists rest,
      createFiles dirname webpackConfig options random1
      = writeFileSync (toString (get options "appDir") +:+ "/.env")
                      (fst (dotEnv options random1 0)) :: rest
      /\ createFiles dirname webpackConfig options random2
         = writeFileSync (toString (get options "appDir") +:+ "/.env")
                         (fst (dotEnv options random2 0)) :: rest
      /\ In (writeFileSync (toString (get options "appDir") +:+ "/package.json")
                           (packageJson options)) rest)
  /\ (exists before after : list string,
         forall random k,
           hasLF (fst (uuid random k)) = false
           /\ fst (dotEnv options random k)
              = String.concat LF
                  (before
                   ++ (if truthy (get options "mongo") && truthy (get options "server")
                       then [ "secret=" +:+ fst (uuid random k) ] else [])
                   ++ after)).
Proof.
  split.
  - unfold createFiles. eexists. split; [reflexivity |]. split; [reflexivity |].
    simpl. auto.
  - exists (if truthy (get options "server")
            then [ "PORT=" +:+ toString (get options "apiport") ]
                 ++ (if truthy (get options "mongo")
                     then [ "mongoURI=mongodb://localhost:27017/"
                              +:+ toString (get options "appName");
                            "mongoSession=" +:+ toString (get options "appName")
                              +:+ "Sessions" ]
                     else [])
            else []),
           [ "appName=" +:+ toString (get options "appName") +:+ LF ].
    intros random k. split; [apply uuid_noLF |].
    rewrite dotEnv_lines. unfold serverEnvLines.
    by destruct (truthy (get options "server")), (truthy (get options "mongo")).
Qed.

(** ** The redux and router files *)

Lemma append_inj_l (p a b : string) : p +:+ a = p +:+ b -> a = b.
Proof. induction p as [|c p IH]; simpl; [auto |]. intros [= H]. auto. Qed.

Section Variants.

Variable dirname : string.
Variable webpackConfig : value -> string.

Ltac not_copied :=
  intros src dest Hv Hc; simpl in Hv, Hc;
  repeat match goal with
    | H : _ \/ _ |- _ => destruct H
    | H : False |- _ => destruct H
    | H : (_, _) = (_, _) |- _ => injection H as <- <-
    end;
  repeat match goal with
    | H : dir _ _ = dir _ _ |- _ => apply append_inj_l in H; discriminate H
    end.

Ltac all_copied :=
  intros src dest Hv; simpl in Hv;
  repeat match goal with
    | H : _ \/ _ |- _ => destruct H
    | H : False |- _ => destruct H
    | H : (_, _) = (_, _) |- _ => injection H as <- <-
    end;
  repeat (apply in_or_app; right); simpl; tauto.

(** C7. With redux on and the router off, [createFiles] copies the app
    shell, the example component and the store in their variants without
    the router, and copies from none of the router-aware files; with the
    router on it copies the router-aware app shell, example component,
    not-found component, store and routes map, and from none of the
    variants without the router.  With both off it copies neither. *)
Theorem C7_redux_and_router_variants (options : object) (random : nat -> Q) :
  let ops := createFiles dirname webpackConfig options random in
  let appDir := toString (get options "appDir") in
  if truthy (get options "router")
  then allCopied dirname routerVariants appDir ops /\ noneCopied dirname plainVariants ops
  else if truthy (get options "redux")
       then allCopied dirname plainVariants appDir ops /\ noneCopied dirname routerVariants ops
       else noneCopied dirname plainVariants ops /\ noneCopied dirname routerVariants ops.
Proof.
  unfold createFiles, or_, allCopied, noneCopied.
  destruct (truthy (get options "router")) eqn:Hrouter;
    destruct (truthy (get options "redux")) eqn:Hredux;
    rewrite ?Hrouter, ?Hredux;
    destruct (truthy (get options "server"));
    destruct (truthy (get options "mongo"));
    destruct (truthy (get options "express"));
    cbn [andb negb app copiedFrom omap list_omap];
    (split; [first [all_copied | not_copied] | not_copied]).
Qed.

End Variants.

(** * Further properties *)

(** ** The port validator *)

(** X1. Given a default that is a port, [portValidator] always returns,
    with a port: the number read from the token, with nothing logged, or
    the default, with one warning. *)
Theorem X1_portValidator_returns_port
  (StringToNumber : string -> number) (val : value) (ty : string) (p : Z) :
  1 <= p <= 65535 ->
  exists t v,
    portValidator StringToNumber val ty (Num p) = (t, returns v)
    /\ isPort v
    /\ (t = [] \/ (exists msg, t = [console_log msg]) /\ v = Num p).
Proof.
  intros Hp. pose proof (portValidator_spec StringToNumber val ty (Num p)) as H.
  destruct (validPort (ToNumber StringToNumber val)) as [q|] eqn:Hq.
  - apply validPort_Some in Hq as [_ Hq].
    exists [], (Num q). split; [exact H |]. split; [by exists q | by left].
  - destruct H as [msg H]. exists [console_log msg], (Num p).
    split; [exact H |]. split; [by exists p |]. right. split; [by exists msg | reflexivity].
Qed.

Lemma X1_portValidator_returns_port_witness :
  exists t v,
    portValidator decimalToNumber (Str "0") "dev" (Num 8080) = (t, returns v) /\ isPort v.
Proof.
  destruct (X1_portValidator_returns_port decimalToNumber (Str "0") "dev" 8080)
    as (t & v & H & Hport & _); [lia |].
  by exists t, v.
Defined.

(** X2. The older schema hands [portValidator] no default: a token that
    is no port then resolves to [undefined], not to the 3000 or 8080 of
    the schema, and the warning announces "Defaulting to undefined...".
    A token that is a port is taken. *)
Theorem X2_legacy_port_without_default (StringToNumber : string -> number) (val : value) :
  match validPort (ToNumber StringToNumber val) with
  | Some p =>
      Legacy.portOption StringToNumber val = ([], returns (Num p))
      /\ Legacy.apiportOption StringToNumber val = ([], returns (Num p))
  | None =>
      exists msg,
        Legacy.portOption StringToNumber val = ([console_log msg], returns undefined)
        /\ Legacy.apiportOption StringToNumber val = ([console_log msg], returns undefined)
        /\ (msg = invalid_port_msg val undefined
            \/ exists n, msg = out_of_range_msg n undefined)
  end.
Proof.
  unfold Legacy.portOption, Legacy.apiportOption, portValidator, validPort.
  destruct (ToNumber StringToNumber val) as [z| | |];
    try (eexists; split; [reflexivity | split; [reflexivity | by left]]).
  destruct (Z.leb_spec 1 z), (Z.leb_spec z 65535); simpl.
  - replace (z <? 1) with false by lia. replace (z >? 65535) with false by lia. by split.
  - replace (z >? 65535) with true by lia. rewrite orb_true_r.
    eexists; split; [reflexivity | split; [reflexivity | right; by exists z]].
  - replace (z <? 1) with true by lia.
    eexists; split; [reflexivity | split; [reflexivity | right; by exists z]].
  - replace (z <? 1) with true by lia.
    eexists; split; [reflexivity | split; [reflexivity | right; by exists z]].
Qed.

(** ** What [parseArgs] adds and keeps *)

Lemma removeSpaces_hasSpace s : hasSpace (removeSpaces s) = false.
Proof.
  induction s as [|c s IH]; simpl; [reflexivity |].
  destruct (Ascii.eqb c " ") eqn:Hc; simpl; [exact IH | by rewrite Hc].
Qed.

Lemma removeSpaces_id s : hasSpace s = false -> removeSpaces s = s.
Proof.
  induction s as [|c s IH]; simpl; [reflexivity |].
  intros H. apply orb_false_iff in H as [Hc Hs]. rewrite Hc. by rewrite IH.
Qed.

Section ParseArgsFacts.

Variable cwd : string.
Variable validForNewPackages : value -> bool.
Variable checkDirExists : object -> value.
Variable showVersion showHelp : value.
Variable badName : value -> value.

(** Everything that holds when [parseArgs] returns the options. *)
Lemma parseArgs_returns_inv online parsed o :
  result (parseArgs cwd validForNewPackages checkDirExists showVersion showHelp badName
                    online parsed) = returns (options_of o) ->
  exists api',
    ((truthy (get parsed "api") = false /\ api' = null)
     \/ exists s, get parsed "api" = Str s /\ api' = Str (removeSpaces s))
    /\ truthy (get parsed "version") = false
    /\ truthy (get parsed "help") = false
    /\ truthy (checkDirExists (withProperties cwd online parsed api')) = true
    /\ ((truthy (get parsed "sandbox") = false
         /\ validForNewPackages (get parsed "appName") = true
         /\ o = withProperties cwd online parsed api')
        \/ (truthy (get parsed "sandbox") = true
            /\ o = <["sandbox" := Bool true]> (withProperties cwd online parsed api'))).
Proof.
  unfold parseArgs, withProperties. intros H.
  destruct (truthy (get parsed "api")) eqn:Hapi; [destruct (get parsed "api") eqn:Ha |];
    run_M; try discriminate H.
  all: destruct (truthy (get parsed "version")); simpl in H;
    [destruct (truthy showVersion); discriminate H |].
  all: destruct (truthy (get parsed "help")); simpl in H;
    [destruct (truthy showHelp); discriminate H |].
  all: destruct (truthy (checkDirExists _)) eqn:Hdir; simpl in H; [| discriminate H].
  all: destruct (truthy (get parsed "sandbox")); simpl in H.
  all: try (destruct (validForNewPackages _) eqn:Hvalid; simpl in H;
            [| destruct (truthy (badName _)); discriminate H]).
  all: injection H as H; subst o; eexists; split; [eauto |]; repeat split; eauto.
Qed.

(** X3. The proxy path of the options that [parseArgs] returns is [null]
    when none was parsed (or an empty one), and otherwise the parsed
    string with every space removed: a string without spaces is kept as it
    is, and one made of spaces only becomes the empty string, not [null]. *)
Theorem X3_api_without_spaces online parsed o :
  result (parseArgs cwd validForNewPackages checkDirExists showVersion showHelp badName
                    online parsed) = returns (options_of o) ->
  (truthy (get parsed "api") = false /\ get o "api" = null)
  \/ (exists s, get parsed "api" = Str s
               /\ get o "api" = Str (removeSpaces s)
               /\ hasSpace (removeSpaces s) = false
               /\ (hasSpace s = false -> removeSpaces s = s)
               /\ (removeSpaces s = EmptyString -> get o "api" <> null)).
Proof.
  intros H. apply parseArgs_returns_inv in H as (api' & Hapi & _ & _ & _ & Ho).
  assert (Hget : get o "api" = api').
  { destruct Ho as [(_ & _ & ->) | (_ & ->)]; unfold withProperties; by get_simpl. }
  destruct Hapi as [[Hf ->] | (s & Hs & ->)]; [by left | right].
  exists s. rewrite Hget. split; [exact Hs |]. split; [reflexivity |].
  split; [apply removeSpaces_hasSpace |]. split; [apply removeSpaces_id |]. discriminate.
Qed.

(** X4. [parseArgs] adds the derived properties and keeps the rest: the
    options it returns are online as found, offline when not online or
    when asked to be, with the application directory under the working
    directory; every property other than online, offline, api, server,
    appDir and sandbox reads as it was parsed. *)
Theorem X4_parseArgs_adds_and_keeps online parsed o :
  result (parseArgs cwd validForNewPackages checkDirExists showVersion showHelp badName
                    online parsed) = returns (options_of o) ->
  get o "online" = Bool online
  /\ get o "offline" = (if online then get parsed "offline" else Bool true)
  /\ get o "appDir" = Str (cwd +:+ "/" +:+ toString (get parsed "appName"))
  /\ (forall k, k ∉ ["online"; "offline"; "api"; "server"; "appDir"; "sandbox"] ->
                get o k = get parsed k).
Proof.
  intros H. apply parseArgs_returns_inv in H as (api' & _ & _ & _ & _ & Ho).
  assert (Hoff : or_ (Bool (negb online)) (get parsed "offline")
                 = if online then get parsed "offline" else Bool true)
    by (by destruct online).
  assert (Hframe : forall k,
             k ∉ ["online"; "offline"; "api"; "server"; "appDir"; "sandbox"] ->
             get (withProperties cwd online parsed api') k = get parsed k).
  { intros k Hk. unfold withProperties.
    rewrite !not_elem_of_cons in Hk. destruct Hk as (? & ? & ? & ? & ? & ? & _).
    rewrite !get_insert_ne by done.
    destruct (decide (k = "router")) as [->|]; [by rewrite get_insert_eq |].
    rewrite get_insert_ne by done.
    destruct (decide (k = "redux")) as [->|]; [by rewrite get_insert_eq |].
    by rewrite !get_insert_ne by done. }
  destruct Ho as [(_ & _ & ->) | (_ & ->)].
  - unfold withProperties at 1 2 3. get_simpl. rewrite Hoff. auto.
  - split; [by unfold withProperties; get_simpl |].
    split; [unfold withProperties; get_simpl; exact Hoff |].
    split; [by unfold withProperties; get_simpl |].
    intros k Hk. pose proof Hk as Hk'. rewrite !not_elem_of_cons in Hk'.
    destruct Hk' as (? & ? & ? & ? & ? & ? & _).
    rewrite get_insert_ne by done. by apply Hframe.
Qed.

(** X5. [parseArgs] returns options only for a name that passes the
    package-name rules, or in sandbox mode, where the options have sandbox
    true; never after a --version or --help, nor when the directory check
    failed. *)
Theorem X5_parseArgs_gate online parsed o :
  result (parseArgs cwd validForNewPackages checkDirExists showVersion showHelp badName
                    online parsed) = returns (options_of o) ->
  truthy (get parsed "version") = false
  /\ truthy (get parsed "help") = false
  /\ ((truthy (get parsed "sandbox") = false
       /\ validForNewPackages (get parsed "appName") = true)
      \/ (truthy (get parsed "sandbox") = true /\ get o "sandbox" = Bool true))
  /\ exists api', truthy (checkDirExists (withProperties cwd online parsed api')) = true.
Proof.
  intros H. apply parseArgs_returns_inv in H as (api' & _ & Hv & Hh & Hdir & Ho).
  split; [exact Hv |]. split; [exact Hh |]. split; [| by exists api'].
  destruct Ho as [(Hs & Hvalid & _) | (Hs & ->)]; [by left | right].
  split; [exact Hs | by get_simpl].
Qed.

(** X6. --version goes first and --help second: with version set the only
    thing done is the call of [showVersion], with help set (and version
    not) the call of [showHelp]; the directory is not checked and the name
    is not reported.  The process then exits, unless the helper returned a
    truthy value, which is handed back instead. *)
Theorem X6_version_and_help_first online parsed :
  (truthy (get parsed "api") = true -> exists s, get parsed "api" = Str s) ->
  (truthy (get parsed "version") = true ->
   parseArgs cwd validForNewPackages checkDirExists showVersion showHelp badName online parsed
   = ([showVersion_call],
      if truthy showVersion then returns (other showVersion) else exits))
  /\ (truthy (get parsed "version") = false ->
      truthy (get parsed "help") = true ->
      parseArgs cwd validForNewPackages checkDirExists showVersion showHelp badName online
                parsed
      = ([showHelp_call], if truthy showHelp then returns (other showHelp) else exits)).
Proof.
  intros Hapi. unfold parseArgs.
  assert (Hclean : exists api',
             (if truthy (get parsed "api")
              then match get parsed "api" with
                   | Str s => mret (Str (removeSpaces s))
                   | _ => TypeError
                   end
              else mret null : M value) = ([], returns api')).
  { destruct (truthy (get parsed "api")) eqn:Ht; [| by exists null].
    destruct (Hapi eq_refl) as [s ->]. by eexists. }
  destruct Hclean as [api' ->]. split.
  - intros ->. run_M. by destruct (truthy showVersion).
  - intros -> ->. run_M. by destruct (truthy showHelp).
Qed.

(** X7. [parseArgs] ends in a [TypeError] exactly when the parsed api is
    truthy and no string, and then before anything was done. *)
Theorem X7_parseArgs_throws online parsed :
  (result (parseArgs cwd validForNewPackages checkDirExists showVersion showHelp badName
                     online parsed) = throws
   <-> truthy (get parsed "api") = true /\ forall s, get parsed "api" <> Str s)
  /\ (result (parseArgs cwd validForNewPackages checkDirExists showVersion showHelp badName
                        online parsed) = throws ->
      trace (parseArgs cwd validForNewPackages checkDirExists showVersion showHelp badName
                       online parsed) = []).
Proof.
  unfold parseArgs.
  destruct (truthy (get parsed "api")) eqn:Hapi; [destruct (get parsed "api") eqn:Ha |];
    run_M; try discriminate Hapi.
  all: try (split; [split; [intros _; split; [reflexivity | discriminate] | reflexivity]
                   | reflexivity]).
  all: split; [split; [| intros [? Hs]; first [discriminate | by destruct (Hs _ eq_refl)]] |];
    split_truthy; discriminate.
Qed.

End ParseArgsFacts.

(** ** The wizard *)

Section WizardFacts.

#[local] Opaque defaultOptions.

Variable cwd : string.
Variable validForNewPackages : value -> bool.
Variable checkDirExists : object -> value.
Variable badName : value -> value.

(** X8. The wizard rejects as soon as possible: after the question for the
    name, when the directory check fails it exits having done nothing
    else, and for a name that fails the package-name rules it calls
    [badName]; in both cases it puts none of the yes/no questions and
    prints nothing, and it does not return options. *)
Theorem X8_wizard_fails_fast online name replies :
  let literal : object :=
    <["appName" := Str name]> (<["appDir" := Str (cwd +:+ "/" +:+ name)]> ∅) in
  (truthy (checkDirExists literal) = false ->
   guidedProcess cwd validForNewPackages checkDirExists badName online name replies
   = ([promptQ_call "Enter a name for your app:"; checkDirExists_call literal], exits))
  /\ (truthy (checkDirExists literal) = true ->
      validForNewPackages (Str name) = false ->
      guidedProcess cwd validForNewPackages checkDirExists badName online name replies
      = ([promptQ_call "Enter a name for your app:"; checkDirExists_call literal;
          badName_call (Str name)],
         if truthy (badName (Str name)) then returns (other (badName (Str name)))
         else exits)).
Proof.
  intros literal. rewrite guidedProcess_run. fold literal.
  generalize literal. clear literal. intros literal. split.
  - by intros ->.
  - by intros -> ->.
Qed.

(** X9. The options that the wizard returns carry the defaults of the
    schema: the ports 8080 and 3000, no proxy path, empty title and
    keywords, force and sandbox off; they are offline exactly when the
    run is not online. *)
Theorem X9_wizard_keeps_defaults online name replies o :
  result (guidedProcess cwd validForNewPackages checkDirExists badName online name replies)
  = returns (options_of o) ->
  get o "devServerPort" = Num 8080
  /\ get o "apiPort" = Num 3000
  /\ get o "api" = null
  /\ get o "title" = Str EmptyString
  /\ get o "keywords" = Arr []
  /\ get o "force" = Bool false
  /\ get o "sandbox" = Bool false
  /\ get o "offline" = Bool (negb online)
  /\ get o "appName" = Str name
  /\ get o "appDir" = Str (cwd +:+ "/" +:+ name).
Proof.
  intros H.
  apply guidedProcess_returns in H as (redux & router & express & mongo & -> & _ & _).
  unfold wizardOptions. get_simpl. repeat split; reflexivity.
Qed.

(** X10. The router question is asked only after a yes to redux: after a
    no, or a bare enter, the next reply answers the express question, and
    router is off. *)
Theorem X10_router_question_skipped online name (first next : option bool)
  (rest : list (option bool)) o :
  first <> Some true ->
  result (guidedProcess cwd validForNewPackages checkDirExists badName online name
                        (first :: next :: rest))
  = returns (options_of o) ->
  get o "redux" = Bool false
  /\ get o "router" = Bool false
  /\ get o "express" = Bool (default false next).
Proof.
  intros Hfirst H. rewrite guidedProcess_run in H.
  generalize dependent (<["appName" := Str name]>
                          (<["appDir" := Str (cwd +:+ "/" +:+ name)]>
                             (∅ : object))).
  intros literal H. run_M.
  destruct (truthy (checkDirExists _)); simpl in H; [| discriminate H].
  destruct (validForNewPackages _); simpl in H;
    [| destruct (truthy (badName _)); discriminate H].
  destruct first as [[]|]; [by destruct Hfirst | |]; simpl in H.
  all: destruct next as [[]|]; simpl in H.
  all: try (destruct (promptYN_Bool "Would you like to include MongoDB?" false rest)
              as (b & r & E); rewrite E in H).
  all: injection H as H; subst o; by get_simpl.
Qed.

End WizardFacts.

#[local] Transparent defaultOptions.

(** ** The adjusted ports *)

(** The ports after the adjustment. *)
Lemma adjusted_ports (StringToNumber : string -> number) (options : object) :
  isPort (get options "devServerPort") ->
  isPort (get options "apiPort") ->
  exists o' d a,
    result (processUsersCommand StringToNumber options) = returns o'
    /\ get o' "devServerPort" = Num d
    /\ get o' "apiPort" = Num a
    /\ get options "apiPort" = Num a
    /\ 1 <= d <= 65536
    /\ (truthy (or_ (get options "express") (get options "mongo")) = true -> d <> a)
    /\ (d = 65536 ->
        get options "devServerPort" = Num 65535 /\ a = 65535).
Proof.
  intros (d & Hd & Hdr) (a & Ha & Har).
  rewrite processUsersCommand_result, Hd, Ha. simpl strict_eq.
  destruct (truthy (or_ (get options "express") (get options "mongo"))) eqn:Hs;
    [destruct (Z.eqb_spec d a) as [->|Hne] |]; simpl andb; cbv iota.
  - exists (<["devServerPort" := Num (a + 1)]> options), (a + 1), a.
    get_simpl. repeat split; auto; try lia. f_equal. lia.
  - exists options, d, a.
    repeat split; auto; try lia; intros; exfalso; lia.
  - exists options, d, a.
    repeat split; auto; try lia; try discriminate; intros; exfalso; lia.
Qed.

(** X11. After [processUsersCommand], on options whose ports are ports,
    the dev server port differs from the API port whenever a server is
    asked for; the API port is as it was, and the dev server port lies in
    [1, 65536]: it leaves the range of ports when both were 65535. *)
Theorem X11_ports_do_not_collide (StringToNumber : string -> number) (options : object) :
  isPort (get options "devServerPort") ->
  isPort (get options "apiPort") ->
  exists o' d a,
    result (processUsersCommand StringToNumber options) = returns o'
    /\ get o' "devServerPort" = Num d
    /\ get o' "apiPort" = Num a
    /\ get options "apiPort" = Num a
    /\ 1 <= d <= 65536
    /\ (truthy (or_ (get options "express") (get options "mongo")) = true -> d <> a)
    /\ (d = 65536 ->
        get options "devServerPort" = Num 65535 /\ a = 65535).
Proof. apply adjusted_ports. Qed.

Lemma X11_ports_do_not_collide_witness :
  exists o' d a,
    result (processUsersCommand decimalToNumber scenario4) = returns o'
    /\ get o' "devServerPort" = Num d /\ get o' "apiPort" = Num a /\ d <> a.
Proof.
  destruct (X11_ports_do_not_collide decimalToNumber scenario4)
    as (o' & d & a & Hrun & Hd & Ha & _ & _ & Hne & _).
  - exists 3000. split; [reflexivity | lia].
  - exists 3000. split; [reflexivity | lia].
  - exists o', d, a. repeat split; auto.
Defined.

(** X12. [processUsersCommand] prints that the run appears to be offline
    exactly when the options are not sandbox options and not online, and
    that it installs from the local cache exactly when they are not
    sandbox options and offline or not online; it prints nothing else. *)
Theorem X12_offline_warnings (StringToNumber : string -> number) (options : object) :
  let t := trace (processUsersCommand StringToNumber options) in
  (In (console_log "You appear to be offline.") t
   <-> truthy (get options "sandbox") = false /\ truthy (get options "online") = false)
  /\ (In (console_log "Installing via local npm cache.") t
      <-> truthy (get options "sandbox") = false
          /\ (truthy (get options "offline") = true \/ truthy (get options "online") = false))
  /\ (forall e, In e t ->
        e = console_log "You appear to be offline."
        \/ e = console_log "Installing via local npm cache.").
Proof.
  unfold processUsersCommand.
  destruct (truthy (or_ _ _) && strict_eq _ _);
    destruct (truthy (get options "sandbox"));
    destruct (truthy (get options "offline"));
    destruct (truthy (get options "online")); simpl.
  all: split; [| split]; [| | intros e He; intuition].
  all: intuition congruence.
Qed.

(** ** What [createFiles] writes, and where *)

Lemma append_nil_r (s : string) : s +:+ EmptyString = s.
Proof.
  induction s as [|c s IH]; [reflexivity |].
  change (String c (s +:+ EmptyString) = String c s). by f_equal.
Qed.

Lemma append_self_inv (s t : string) : s = s +:+ t -> t = EmptyString.
Proof.
  induction s as [|c s IH]; [auto |].
  change (String c s = String c (s +:+ t) -> t = EmptyString). intros [= H]. auto.
Qed.

Section FilesFacts.

Variable dirname : string.
Variable webpackConfig : value -> string.

Ltac flags options :=
  destruct (truthy (get options "server"));
  destruct (truthy (get options "mongo"));
  destruct (truthy (get options "express"));
  destruct (truthy (get options "redux")) eqn:?;
  destruct (truthy (get options "router")) eqn:?.

Ltac each_op H :=
  simpl in H;
  repeat match type of H with
    | _ \/ _ => destruct H as [H|H]
    | False => destruct H
    end; subst.

Ltac differ :=
  let E := fresh in
  intros E; simpl in E;
  first [ discriminate E
        | apply append_inj_l in E; discriminate E
        | apply append_self_inv in E; discriminate E ].

Ltac solve_atom :=
  lazymatch goal with
  | |- In _ _ => simpl; auto 30
  | |- ~ In _ _ =>
      let H := fresh in
      intros H; each_op H; first [discriminate H | injection H as H; revert H; differ]
  | |- forall op, In op _ -> _ <> _ =>
      let H := fresh in intros op H; each_op H; simpl; differ
  | |- forall op, In op _ -> _ /\ _ =>
      let H := fresh in
      intros op H; each_op H;
      (split; [first [discriminate | let E := fresh in intros E; injection E as E; revert E; differ]
              | intros rest; simpl; differ])
  end.

(** X13. Whatever the options, [createFiles] writes the environment file,
    the manifest and the bundler configuration from the renderers, and
    copies the gitignore, the postcss configuration, the readme and the
    dist and src trees. *)
Theorem X13_files_always_written (options : object) (random : nat -> Q) :
  let ops := createFiles dirname webpackConfig options random in
  let appDir := toString (get options "appDir") in
  In (writeFileSync (appDir +:+ "/.env") (fst (dotEnv options random 0))) ops
  /\ In (writeFileSync (appDir +:+ "/package.json") (packageJson options)) ops
  /\ In (writeFileSync (appDir +:+ "/webpack.config.js")
                       (webpackConfig (get options "redux"))) ops
  /\ In (copyFileSync (dir dirname "files/gitignore.txt") (appDir +:+ "/.gitignore")) ops
  /\ In (copyFileSync (dir dirname "files/postcss.config.js")
                      (appDir +:+ "/postcss.config.js")) ops
  /\ In (copyFileSync (dir dirname "files/README.md") (appDir +:+ "/README.md")) ops
  /\ In (copyTree (dir dirname "./files/dist") appDir) ops
  /\ In (copyTree (dir dirname "./files/src") appDir) ops.
Proof.
  unfold createFiles. cbv zeta.
  repeat split; repeat first [rewrite in_app_iff | progress simpl]; auto 30.
Qed.

(** X14. The server entry file is copied exactly when server is set, in
    its mongo variant when mongo is set and the plain one otherwise.  The
    whole API tree is copied when mongo is set; when express is set and
    mongo is not, an API folder is made with the home route alone; with
    neither, nothing is written to an API folder. *)
Theorem X14_server_and_api_files (options : object) (random : nat -> Q) :
  let ops := createFiles dirname webpackConfig options random in
  let appDir := toString (get options "appDir") in
  (if truthy (get options "server")
   then In (copyFileSync
              (dir dirname (if truthy (get options "mongo")
                            then "files/server-mongo.js" else "files/server.js"))
              (appDir +:+ "/server.js")) ops
   else forall op, In op ops -> destination op <> appDir +:+ "/server.js")
  /\ (if truthy (get options "mongo")
      then In (copyTree (dir dirname "./files/api") appDir) ops
           /\ ~ In (mkdirSync (appDir +:+ "/api")) ops
      else if truthy (get options "express")
           then In (mkdirSync (appDir +:+ "/api")) ops
                /\ In (copyFileSync (dir dirname "files/api/home.js")
                                    (appDir +:+ "/api/home.js")) ops
                /\ ~ In (copyTree (dir dirname "./files/api") appDir) ops
           else forall op, In op ops ->
                  op <> copyTree (dir dirname "./files/api") appDir
                  /\ forall rest, destination op <> appDir +:+ "/api" +:+ rest).
Proof.
  unfold createFiles, or_. cbv zeta.
  generalize (toString (get options "appDir")) as appDir. intros appDir.
  flags options; rewrite ?Heqb, ?Heqb0; cbn [andb negb app append];
    (split;
     [solve_atom
     | first [solve_atom
             | split; [solve_atom | first [solve_atom | split; solve_atom]]]]).
Qed.

(** X15. Every path that [createFiles] writes to is the application
    directory or lies under it. *)
Theorem X15_files_stay_in_appDir (options : object) (random : nat -> Q) :
  forall op, In op (createFiles dirname webpackConfig options random) ->
    exists rest, destination op = toString (get options "appDir") +:+ rest.
Proof.
  unfold createFiles, or_. cbv zeta.
  generalize (toString (get options "appDir")) as appDir. intros appDir.
  flags options; rewrite ?Heqb, ?Heqb0; cbn [andb negb app append];
    intros op Hin; each_op Hin; simpl;
    first [ by eexists | exists EmptyString; by rewrite append_nil_r ].
Qed.

(** X16. The src tree is copied before anything else is written under
    src: every call before that copy writes elsewhere, and every call
    after it, the redux and router files, writes under src, over the
    files of the tree. *)
Theorem X16_redux_files_overwrite_src (options : object) (random : nat -> Q) :
  let appDir := toString (get options "appDir") in
  exists before after,
    createFiles dirname webpackConfig options random
    = before ++ copyTree (dir dirname "./files/src") appDir :: after
    /\ (forall op, In op before ->
          forall rest, destination op <> appDir +:+ "/src" +:+ rest)
    /\ (forall op, In op after ->
          exists rest, destination op = appDir +:+ "/src" +:+ rest).
Proof.
  unfold createFiles, or_. cbv zeta.
  generalize (toString (get options "appDir")) as appDir. intros appDir.
  lazymatch goal with
  | |- exists before after, ?A ++ ?B ++ ?C ++ ?D ++ ?E ++ [?d; ?s] ++ ?R = _ /\ _ =>
      exists (A ++ B ++ C ++ D ++ E ++ [d]), R
  end.
  split; [rewrite <- !app_assoc; reflexivity |].
  split.
  - destruct (truthy (get options "server"));
      destruct (truthy (get options "mongo"));
      destruct (truthy (get options "express")); cbn [andb negb app append];
      intros op Hin; each_op Hin; intros rest; simpl; differ.
  - destruct (truthy (get options "redux")) eqn:Hredux;
      destruct (truthy (get options "router")) eqn:Hrouter;
      rewrite ?Hredux, ?Hrouter; cbn [app];
      intros op Hin; each_op Hin; simpl;
      first [ by eexists | exists EmptyString; reflexivity ].
Qed.

End FilesFacts.

(** ** The session secret *)

Lemma truncate_range (r : Q) :
  (0 <= r)%Q -> (r < 1)%Q -> 0 <= truncate (r * 16) <= 15.
Proof.
  destruct r as [n d]. unfold Qle, Qlt, truncate, Qmult. simpl. intros Hn Hd.
  rewrite Pos.mul_1_r. rewrite Z.quot_div_nonneg by lia.
  split; [apply Z.div_pos; lia | apply Z.lt_succ_r, Z.div_lt_upper_bound; lia].
Qed.

Lemma small_cases (P : Z -> Prop) :
  (forall n : nat, (n < 16)%nat -> P (Z.of_nat n)) -> forall t, 0 <= t <= 15 -> P t.
Proof.
  intros H t Ht. replace t with (Z.of_nat (Z.to_nat t)) by lia. apply H. lia.
Qed.

Lemma uuidDigit_char (a : ascii) (r : Q) :
  (0 <= r)%Q -> (r < 1)%Q -> is018 a = true ->
  exists h, uuidDigit a r = String h EmptyString
            /\ (if Ascii.eqb a "8" then isVariantChar h else isHexChar h) = true.
Proof.
  intros H0 H1 Ha. pose proof (truncate_range r H0 H1) as Ht.
  unfold uuidDigit. revert Ht. generalize (truncate (r * 16)) as t.
  unfold is018 in Ha. apply orb_true_iff in Ha as [Ha|Ha];
    [apply orb_true_iff in Ha as [Ha|Ha] |]; apply Ascii.eqb_eq in Ha; subst a.
  all: apply small_cases; intros n Hn.
  all: do 16 (destruct n as [|n]; [eexists; split; reflexivity |]); lia.
Qed.

Lemma fitsTemplate_length template s :
  fitsTemplate template s = true -> String.length s = String.length template.
Proof.
  revert s. induction template as [|t template IH]; intros [|c s]; simpl;
    try discriminate; [reflexivity |].
  intros H. apply andb_true_iff in H as [_ H]. by rewrite (IH s H).
Qed.

Lemma replace018_fits (random : nat -> Q) :
  (forall i, (0 <= random i)%Q /\ (random i < 1)%Q) ->
  forall template k, fitsTemplate template (fst (replace018 random k template)) = true.
Proof.
  intros Hrandom. induction template as [|t template IH]; intros k; [reflexivity |].
  cbn [replace018]. destruct (is018 t) eqn:Ht.
  - specialize (IH (S k)). destruct (replace018 random (S k) template) as [rest k'].
    destruct (uuidDigit_char t (random k)) as (h & -> & Hh);
      [apply Hrandom | apply Hrandom | exact Ht |].
    change (fitsTemplate (String t template) (String h rest) = true).
    cbn [fitsTemplate fst] in *. rewrite IH, andb_true_r, Ht.
    by destruct (Ascii.eqb t "8").
  - specialize (IH k). destruct (replace018 random k template) as [rest k'].
    cbn [fitsTemplate fst] in *. rewrite Ht, IH, andb_true_r.
    destruct (Ascii.eqb t "8") eqn:H8.
    + apply Ascii.eqb_eq in H8. subst t. discriminate Ht.
    + apply Ascii.eqb_refl.
Qed.

(** X17. As long as [Math.random()] returns numbers from 0 up to, but not
    including, 1, the secret is a version-4 UUID: 36 characters, groups
    of 8, 4, 4, 4 and 12 lower-case hexadecimal digits between dashes,
    with 4 first in the third group and 8, 9, a or b first in the
    fourth. *)
Theorem X17_secret_is_uuid4 (random : nat -> Q) (k : nat) :
  (forall i, (0 <= random i)%Q /\ (random i < 1)%Q) ->
  fitsTemplate "10000000-1000-4000-8000-100000000000" (fst (uuid random k)) = true
  /\ String.length (fst (uuid random k)) = 36%nat.
Proof.
  intros Hrandom.
  pose proof (replace018_fits random Hrandom uuidTemplate k) as H.
  split; [exact H |]. exact (fitsTemplate_length _ _ H).
Qed.

Lemma X17_secret_is_uuid4_witness :
  fitsTemplate "10000000-1000-4000-8000-100000000000"
               (fst (uuid (fun _ => (1 # 2)%Q) 0)) = true.
Proof.
  apply (X17_secret_is_uuid4 (fun _ => (1 # 2)%Q) 0).
  intros i. split; [discriminate | reflexivity].
Defined.

(** X18. A secret is made of the 31 random numbers from the [k]-th on and
    of nothing else: two sources that agree on these give the same
    secret, and the next secret starts after them. *)
Theorem X18_secret_uses_its_own_numbers (random random' : nat -> Q) (k : nat) :
  (forall i, (k <= i < k + 31)%nat -> random i = random' i) ->
  uuid random k = uuid random' k /\ snd (uuid random k) = (k + 31)%nat.
Proof.
  intros H. split; [| rewrite uuid_draws; lia].
  unfold uuid.
  assert (Hgen : forall template j,
             (forall i, (j <= i < j + length (List.filter is018 (list_ascii_of_string template)))%nat
                        -> random i = random' i) ->
             replace018 random j template = replace018 random' j template).
  { induction template as [|t template IH]; intros j Hj; [reflexivity |].
    simpl in *. destruct (is018 t); simpl in Hj.
    - rewrite (IH (S j)) by (intros i Hi; apply Hj; lia).
      rewrite (Hj j) by lia. reflexivity.
    - by rewrite (IH j Hj). }
  apply Hgen. intros i Hi. apply H. simpl in Hi. lia.
Qed.

Lemma X18_secret_uses_its_own_numbers_witness :
  uuid (fun i => if (i <? 31)%nat then (1 # 2)%Q else 0%Q) 0 = uuid (fun _ => (1 # 2)%Q) 0.
Proof.
  apply (X18_secret_uses_its_own_numbers
           (fun i => if (i <? 31)%nat then (1 # 2)%Q else 0%Q) (fun _ => (1 # 2)%Q) 0).
  intros i Hi. destruct (Nat.ltb_spec i 31); [reflexivity | lia].
Defined.

(** ** Creating the project *)

Ltac run_S :=
  unfold mbind, Script_bind, fmap, Script_fmap, mret, Script_ret, act, acts, log, say,
    mkdir, copyTo, actions, ending in *;
  simpl in *.

Lemma loud_said (t : list event) (l : list action) :
  List.filter (fun a => negb (quiet a)) (map said t ++ l)
  = List.filter (fun a => negb (quiet a)) l.
Proof. induction t as [|e t IH]; simpl; auto. Qed.

Lemma loud_fsCall (ops : list fs_op) (l : list action) :
  List.filter (fun a => negb (quiet a)) (map fsCall ops ++ l)
  = map fsCall ops ++ List.filter (fun a => negb (quiet a)) l.
Proof. induction ops as [|op ops IH]; simpl; [reflexivity | by rewrite IH]. Qed.

Lemma find_said (t : list event) (l : list action) :
  List.find touchesDisk (map said t ++ l) = List.find touchesDisk l.
Proof. induction t as [|e t IH]; simpl; auto. Qed.

Lemma quiet_said (t : list event) : forallb quiet (map said t) = true.
Proof. induction t as [|e t IH]; simpl; auto. Qed.

Section PipelineFacts.

Variable cwd : string.
Variable validForNewPackages : value -> bool.
Variable checkDirExists : object -> value.
Variable showVersion showHelp : value.
Variable badName : value -> value.
Variable StringToNumber : string -> number.
Variable dirname : string.
Variable webpackConfig : value -> string.

(** X19. When the directory check fails, [createProjectDirectory] exits
    before anything is printed or made, unless force is set outside
    sandbox mode; force is of no use in sandbox mode.  Where it goes on,
    it prints and then makes the application directory, and ends in a
    TypeError when the options hold no path. *)
Theorem X19_force_outside_sandbox_only (options : object) :
  truthy (checkDirExists options) = false ->
  createProjectDirectory cwd checkDirExists options
  = if truthy (get options "sandbox") || negb (truthy (get options "force"))
    then ([said (checkDirExists_call options)], exits)
    else
      let message :=
        console_log (LF +:+ "Creating a new app in " +:+ cwd +:+ "/"
                        +:+ toString (get options "appName") +:+ ".") in
      match get options "appDir" with
      | Str p => ([said (checkDirExists_call options); said message; fsCall (mkdirSync p)],
                  returns tt)
      | _ => ([said (checkDirExists_call options); said message], throws)
      end.
Proof.
  intros Hdir. unfold createProjectDirectory. rewrite Hdir.
  destruct (truthy (get options "sandbox")), (truthy (get options "force"));
    try reflexivity.
  destruct (get options "appDir"); reflexivity.
Qed.

(** X20. [installDependencies] first changes into the application
    directory under the working directory, then runs npm once:
    [npm --offline i] for offline options and [npm i] otherwise.  It
    touches no file itself, and mentions [npm run local] exactly for
    options with a server. *)
Theorem X20_npm_command (options : object) :
  let steps := actions (installDependencies cwd options) in
  ending (installDependencies cwd options) = returns tt
  /\ List.filter (fun a => negb (quiet a)) steps
     = [ chdir (cwd +:+ "/" +:+ toString (get options "appName"));
         run (if truthy (get options "offline") then "npm --offline i" else "npm i") ]
  /\ (In (said (console_log ("  " +:+ "npm run local"))) steps
      <-> truthy (get options "server") = true).
Proof.
  unfold installDependencies.
  destruct (truthy (get options "offline")), (truthy (get options "server")); run_S.
  all: split; [reflexivity |]; split; [reflexivity |].
  all: split; [| by auto 20].
  all: intros H; repeat (destruct H as [H|H]; [try discriminate H |]); try reflexivity;
    try (injection H as H; apply append_inj_l in H; discriminate H); by destruct H.
Qed.

Lemma bind_actions {A B} (m : Script A) (k : A -> Script B) :
  actions (m ≫= k)
  = actions m ++ match ending m with returns a => actions (k a) | _ => [] end.
Proof.
  destruct m as [t [a| |]]; unfold actions, ending, mbind, Script_bind; simpl;
    rewrite ?app_nil_r; try reflexivity.
  by destruct (k a).
Qed.

Lemma bind_ending {A B} (m : Script A) (k : A -> Script B) :
  ending (m ≫= k)
  = match ending m with returns a => ending (k a) | exits => exits | throws => throws end.
Proof.
  destruct m as [t [a| |]]; unfold actions, ending, mbind, Script_bind; simpl;
    try reflexivity.
  by destruct (k a).
Qed.

Lemma bind_returns {A B} (t : list action) (a : A) (k : A -> Script B) :
  ((t, returns a) : Script A) ≫= k = (t ++ actions (k a), ending (k a)).
Proof. unfold mbind, Script_bind, actions, ending. by destruct (k a). Qed.

(** The steps after the options are there. *)
Lemma createProjectDirectory_ok (options : object) (p : string) :
  truthy (checkDirExists options) = true ->
  get options "appDir" = Str p ->
  createProjectDirectory cwd checkDirExists options
  = ([said (checkDirExists_call options);
      said (console_log (LF +:+ "Creating a new"
                            +:+ (if truthy (get options "sandbox")
                                 then " sandbox" else EmptyString)
                            +:+ " app in " +:+ cwd +:+ "/"
                            +:+ toString (get options "appName") +:+ "."));
      fsCall (mkdirSync p)], returns tt).
Proof. intros Hdir Hp. unfold createProjectDirectory. by rewrite Hdir, Hp. Qed.

Lemma createProjectDirectory_first (options : object) (k : unit -> Script unit) :
  match List.find touchesDisk
          (actions (createProjectDirectory cwd checkDirExists options ≫= k)) with
  | Some a => exists p, a = fsCall (mkdirSync p)
  | None => True
  end.
Proof.
  rewrite bind_actions. unfold createProjectDirectory.
  destruct (truthy (checkDirExists options) || _); [| exact I].
  destruct (get options "appDir"); try exact I. simpl. eauto.
Qed.

Lemma createProjectDirectory_no_path (options : object) (k : unit -> Script unit) :
  (forall p, get options "appDir" <> Str p) ->
  forallb quiet (actions (createProjectDirectory cwd checkDirExists options ≫= k)) = true.
Proof.
  intros Hp. rewrite bind_actions. unfold createProjectDirectory.
  destruct (truthy (checkDirExists options) || _); [| reflexivity].
  destruct (get options "appDir") eqn:E; try reflexivity. by destruct (Hp s).
Qed.

Lemma installDependencies_loud (options : object) :
  ending (installDependencies cwd options) = returns tt
  /\ List.filter (fun a => negb (quiet a)) (actions (installDependencies cwd options))
     = [ chdir (cwd +:+ "/" +:+ toString (get options "appName"));
         run (if truthy (get options "offline") then "npm --offline i" else "npm i") ].
Proof.
  unfold installDependencies.
  by destruct (truthy (get options "offline")), (truthy (get options "server")).
Qed.

(** The resolving step prints and calls helpers, and does nothing else. *)
Lemma resolving_is_quiet online argv name replies :
  let resolving : Script object :=
    match argv with
    | [] =>
        asObject <$> say (guidedProcess cwd validForNewPackages checkDirExists
                                        badName online name replies)
    | _ =>
        parsed ← say (cla StringToNumber optionDefinitions argv);
        parsedArgs ← say (parseArgs cwd validForNewPackages checkDirExists
                                    showVersion showHelp badName online parsed);
        say (processUsersCommand StringToNumber (asObject parsedArgs))
    end in
  exists t, actions resolving = map said t.
Proof.
  intros resolving. subst resolving. destruct argv as [|a argv].
  - destruct (guidedProcess _ _ _ _ _ _ _) as [t [r| |]]; by exists t.
  - generalize (a :: argv) as args. intros args.
    destruct (cla StringToNumber optionDefinitions args) as [t0 [parsed| |]];
      [| by exists t0 | by exists t0].
    destruct (parseArgs cwd validForNewPackages checkDirExists showVersion showHelp
                        badName online parsed) as [t1 [r| |]] eqn:E1.
    + destruct (processUsersCommand StringToNumber (asObject r)) as [t2 r2] eqn:E2.
      exists (t0 ++ t1 ++ t2). unfold actions, say, mbind, Script_bind. simpl.
      rewrite E1. simpl. rewrite E2. simpl. destruct r2; by rewrite !map_app.
    + exists (t0 ++ t1). unfold actions, say, mbind, Script_bind. simpl.
      rewrite E1. simpl. by rewrite map_app.
    + exists (t0 ++ t1). unfold actions, say, mbind, Script_bind. simpl.
      rewrite E1. simpl. by rewrite map_app.
Qed.

(** X21. Whatever the command line, the answers and the surroundings, the
    first file-system call of a run, if it makes any, makes a directory:
    nothing is written or copied before the application directory is
    made. *)
Theorem X21_directory_is_made_first online argv name replies random :
  match List.find touchesDisk
          (actions (letsGo cwd validForNewPackages checkDirExists showVersion showHelp
                           badName StringToNumber dirname webpackConfig
                           online argv name replies random)) with
  | Some a => exists p, a = fsCall (mkdirSync p)
  | None => True
  end.
Proof.
  unfold letsGo. rewrite bind_actions. cbn [act actions ending fst snd app].
  rewrite bind_actions.
  destruct (resolving_is_quiet online argv name replies) as [t Ht].
  cbv zeta in Ht. rewrite Ht. cbn [List.find touchesDisk]. rewrite find_said.
  match goal with |- context [ending ?r] => destruct (ending r) as [options| |] end;
    try exact I.
  destruct (truthy (get options "sandbox")).
  - unfold createSandbox. destruct (negb (truthy (get options "appName"))); [exact I |].
    apply createProjectDirectory_first.
  - apply createProjectDirectory_first.
Qed.

#[local] Opaque defaultOptions.

Lemma guidedProcess_runs online name replies :
  validForNewPackages (Str name) = true ->
  (forall o, truthy (checkDirExists o) = true) ->
  exists redux router express mongo,
    result (guidedProcess cwd validForNewPackages checkDirExists badName online name replies)
    = returns (options_of (wizardOptions cwd online name redux router express mongo)).
Proof.
  intros Hvalid Hdir. rewrite guidedProcess_run. unfold wizardOptions.
  generalize (<["appName" := Str name]>
                (<["appDir" := Str (cwd +:+ "/" +:+ name)]> (∅ : object))).
  intros literal. run_M. rewrite Hdir, Hvalid. simpl.
  destruct (promptYN_Bool "Would you like to include Redux?" false replies)
    as (redux & r1 & ->).
  exists redux. simpl. destruct redux.
  - destruct (promptYN_Bool "Would you like to include Redux First Router?" false r1)
      as (router & r2 & ->).
    exists router.
    destruct (promptYN_Bool "Would you like to include an Express server?" false r2)
      as (express & r3 & ->).
    exists express. simpl. destruct express.
    + destruct (promptYN_Bool "Would you like to include MongoDB?" false r3)
        as (mongo & r4 & ->).
      by exists mongo.
    + by exists false.
  - exists false.
    destruct (promptYN_Bool "Would you like to include an Express server?" false r1)
      as (express & r3 & ->).
    exists express. simpl. destruct express.
    + destruct (promptYN_Bool "Would you like to include MongoDB?" false r3)
        as (mongo & r4 & ->).
      by exists mongo.
    + by exists false.
Qed.

(** Steps 3 to 5 on options that are no sandbox options and hold a path. *)
Lemma project_steps (options : object) (p : string) (random : nat -> Q) :
  truthy (get options "sandbox") = false ->
  truthy (checkDirExists options) = true ->
  get options "appDir" = Str p ->
  let steps : Script unit :=
    _ ← createProjectDirectory cwd checkDirExists options;
    _ ← acts (map fsCall (createFiles dirname webpackConfig options random));
    installDependencies cwd options in
  ending steps = returns tt
  /\ List.filter (fun a => negb (quiet a)) (actions steps)
     = fsCall (mkdirSync p)
       :: map fsCall (createFiles dirname webpackConfig options random)
       ++ [ chdir (cwd +:+ "/" +:+ toString (get options "appName"));
            run (if truthy (get options "offline") then "npm --offline i" else "npm i") ].
Proof.
  intros Hs Hdir Hp steps. subst steps.
  destruct (installDependencies_loud options) as [Hend Hloud].
  rewrite !bind_ending, !bind_actions, (createProjectDirectory_ok options p Hdir Hp).
  cbn [actions ending fst snd acts]. split; [exact Hend |].
  cbn [app List.filter quiet negb]. f_equal.
  rewrite loud_fsCall. f_equal. exact Hloud.
Qed.

(** X22. A wizard run for a name that passes the package-name rules, with
    no directory in the way, makes the application directory, then makes
    the file-system calls of [createFiles] for the options of the wizard,
    then changes into the directory and runs npm, offline exactly when
    the run is not online; and it returns. *)
Theorem X22_wizard_run online name replies random :
  validForNewPackages (Str name) = true ->
  (forall o, truthy (checkDirExists o) = true) ->
  let go := letsGo cwd validForNewPackages checkDirExists showVersion showHelp badName
                   StringToNumber dirname webpackConfig online [] name replies random in
  exists o,
    result (guidedProcess cwd validForNewPackages checkDirExists badName online name replies)
    = returns (options_of o)
    /\ ending go = returns tt
    /\ List.filter (fun a => negb (quiet a)) (actions go)
       = fsCall (mkdirSync (cwd +:+ "/" +:+ name))
         :: map fsCall (createFiles dirname webpackConfig o random)
         ++ [ chdir (cwd +:+ "/" +:+ name);
              run (if online then "npm i" else "npm --offline i") ].
Proof.
  intros Hvalid Hdir go. subst go.
  destruct (guidedProcess_runs online name replies Hvalid Hdir)
    as (redux & router & express & mongo & Hres).
  exists (wizardOptions cwd online name redux router express mongo).
  split; [exact Hres |].
  assert (Hreads : truthy (get (wizardOptions cwd online name redux router express mongo)
                               "sandbox") = false
                   /\ get (wizardOptions cwd online name redux router express mongo) "appDir"
                      = Str (cwd +:+ "/" +:+ name)
                   /\ get (wizardOptions cwd online name redux router express mongo)
                          "appName" = Str name
                   /\ get (wizardOptions cwd online name redux router express mongo)
                          "offline" = Bool (negb online)).
  { unfold wizardOptions. get_simpl. repeat split; reflexivity. }
  revert Hres Hreads.
  generalize (wizardOptions cwd online name redux router express mongo) as o.
  intros o Hres (Hs & Hp & Hn & Hoff).
  unfold letsGo.
  destruct (guidedProcess cwd validForNewPackages checkDirExists badName online name replies)
    as [t r]. unfold result in Hres. simpl in Hres. subst r.
  destruct (project_steps o (cwd +:+ "/" +:+ name) random Hs (Hdir o) Hp) as [Hend Hloud].
  cbv zeta in Hend, Hloud. rewrite Hn, Hoff in Hloud.
  split.
  - rewrite bind_ending. cbn [act ending snd]. rewrite bind_ending.
    cbn [ending fst snd fmap Script_fmap say asObject]. by rewrite Hs.
  - rewrite bind_actions. cbn [act actions ending fst snd app]. rewrite bind_actions.
    cbn [actions ending fst snd fmap Script_fmap say asObject]. rewrite Hs.
    cbn [List.filter quiet negb]. rewrite loud_said.
    rewrite Hloud. by destruct online.
Qed.

#[local] Transparent defaultOptions.

Lemma get_empty (k : string) : get ∅ k = undefined.
Proof. unfold get. by rewrite lookup_empty. Qed.

(** What [parseArgs] hands back once the informational flags are off and
    the directory check has passed. *)
Lemma parseArgs_result online parsed :
  truthy (get parsed "version") = false ->
  truthy (get parsed "help") = false ->
  (truthy (get parsed "api") = true -> exists s, get parsed "api" = Str s) ->
  (forall o, truthy (checkDirExists o) = true) ->
  exists api',
    result (parseArgs cwd validForNewPackages checkDirExists showVersion showHelp badName
                      online parsed)
    = if truthy (get parsed "sandbox")
      then returns (options_of (<["sandbox" := Bool true]>
                                  (withProperties cwd online parsed api')))
      else if validForNewPackages (get parsed "appName")
           then returns (options_of (withProperties cwd online parsed api'))
           else if truthy (badName (get parsed "appName"))
                then returns (other (badName (get parsed "appName")))
                else exits.
Proof.
  intros Hv Hh Hapi Hdir. unfold parseArgs, withProperties. rewrite Hv, Hh.
  destruct (truthy (get parsed "api")) eqn:Ht.
  - destruct (Hapi eq_refl) as [s ->]. exists (Str (removeSpaces s)).
    run_M. rewrite Hdir. simpl.
    destruct (truthy (get parsed "sandbox")); [reflexivity |].
    destruct (validForNewPackages _); [reflexivity |]. simpl.
    by destruct (truthy (badName _)).
  - exists null. run_M. rewrite Hdir. simpl.
    destruct (truthy (get parsed "sandbox")); [reflexivity |].
    destruct (validForNewPackages _); [reflexivity |]. simpl.
    by destruct (truthy (badName _)).
Qed.

Lemma processUsersCommand_keeps (options o' : object) (k : string) :
  result (processUsersCommand StringToNumber options) = returns o' ->
  k <> "devServerPort" -> get o' k = get options k.
Proof.
  rewrite processUsersCommand_result. intros [= <-] Hk.
  destruct (truthy (or_ _ _) && strict_eq _ _); [by rewrite get_insert_ne | reflexivity].
Qed.

(** The resolving of a command line, when every part of it returns, and
    when [parseArgs] does not. *)
Lemma resolving_arguments online argv t0 parsed t1 parsedArgs t2 o :
  cla StringToNumber optionDefinitions argv = (t0, returns parsed) ->
  parseArgs cwd validForNewPackages checkDirExists showVersion showHelp badName
            online parsed = (t1, returns parsedArgs) ->
  processUsersCommand StringToNumber (asObject parsedArgs) = (t2, returns o) ->
  (parsed ← say (cla StringToNumber optionDefinitions argv);
   parsedArgs ← say (parseArgs cwd validForNewPackages checkDirExists
                               showVersion showHelp badName online parsed);
   say (processUsersCommand StringToNumber (asObject parsedArgs)))
  = (map said (t0 ++ t1 ++ t2), returns o).
Proof.
  intros Hcla Hparse Hadjust. rewrite Hcla. unfold say, mbind, Script_bind.
  cbn [fst snd]. rewrite Hparse. cbn [fst snd]. rewrite Hadjust. cbn [fst snd].
  by rewrite !map_app.
Qed.

Lemma resolving_stops online argv t0 parsed :
  cla StringToNumber optionDefinitions argv = (t0, returns parsed) ->
  (forall r, result (parseArgs cwd validForNewPackages checkDirExists showVersion showHelp
                               badName online parsed) <> returns r) ->
  exists t,
    ((parsed ← say (cla StringToNumber optionDefinitions argv);
      parsedArgs ← say (parseArgs cwd validForNewPackages checkDirExists
                                  showVersion showHelp badName online parsed);
      say (processUsersCommand StringToNumber (asObject parsedArgs))) : Script object)
    = (map said t, exits)
    \/ ((parsed ← say (cla StringToNumber optionDefinitions argv);
         parsedArgs ← say (parseArgs cwd validForNewPackages checkDirExists
                                     showVersion showHelp badName online parsed);
         say (processUsersCommand StringToNumber (asObject parsedArgs))) : Script object)
       = (map said t, throws).
Proof.
  intros Hcla Hno. rewrite Hcla. unfold say, mbind, Script_bind. cbn [fst snd].
  destruct (parseArgs cwd validForNewPackages checkDirExists showVersion showHelp badName
                      online parsed) as [t1 [r| |]]; [by destruct (Hno r) | |];
    exists (t0 ++ t1); cbn [fst snd]; rewrite map_app; auto.
Qed.

(** A run on a command line: the resolving, then the steps on the
    options. *)
Lemma letsGo_on_arguments online argv name replies random t0 parsed t1 parsedArgs t2 o :
  argv <> [] ->
  cla StringToNumber optionDefinitions argv = (t0, returns parsed) ->
  parseArgs cwd validForNewPackages checkDirExists showVersion showHelp badName
            online parsed = (t1, returns parsedArgs) ->
  processUsersCommand StringToNumber (asObject parsedArgs) = (t2, returns o) ->
  let steps : Script unit :=
    if truthy (get o "sandbox")
    then createSandbox cwd checkDirExists dirname o
    else
      _ ← createProjectDirectory cwd checkDirExists o;
      _ ← acts (map fsCall (createFiles dirname webpackConfig o random));
      installDependencies cwd o in
  letsGo cwd validForNewPackages checkDirExists showVersion showHelp badName
         StringToNumber dirname webpackConfig online argv name replies random
  = (clearScreen :: map said (t0 ++ t1 ++ t2) ++ actions steps, ending steps).
Proof.
  intros Hargv Hcla Hparse Hadjust steps. unfold letsGo.
  destruct argv as [|a argv]; [by destruct Hargv |].
  unfold act. rewrite bind_returns. cbv beta.
  rewrite (resolving_arguments online (a :: argv) t0 parsed t1 parsedArgs t2 o
             Hcla Hparse Hadjust).
  rewrite bind_returns. cbv beta. fold steps. reflexivity.
Qed.

(** X23. A sandbox run on a command line (the informational flags off,
    no directory in the way) makes the application directory and copies
    the sandbox tree into it, and that is all it does to the file system:
    no file of [createFiles] is written and npm is not run.  Without a
    name it only prints how to call the generator; it returns either
    way, whatever the package-name rules say about the name. *)
Theorem X23_sandbox_run online argv name replies random t0 parsed :
  argv <> [] ->
  cla StringToNumber optionDefinitions argv = (t0, returns parsed) ->
  truthy (get parsed "sandbox") = true ->
  truthy (get parsed "version") = false ->
  truthy (get parsed "help") = false ->
  (truthy (get parsed "api") = true -> exists s, get parsed "api" = Str s) ->
  (forall o, truthy (checkDirExists o) = true) ->
  let go := letsGo cwd validForNewPackages checkDirExists showVersion showHelp badName
                   StringToNumber dirname webpackConfig online argv name replies random in
  let appDir := cwd +:+ "/" +:+ toString (get parsed "appName") in
  ending go = returns tt
  /\ List.filter (fun a => negb (quiet a)) (actions go)
     = if truthy (get parsed "appName")
       then [ fsCall (mkdirSync appDir); copySync (dir dirname "files/sandbox") appDir ]
       else [].
Proof.
  intros Hargv Hcla Hs Hv Hh Hapi Hdir go appDir. subst go.
  destruct (parseArgs_result online parsed Hv Hh Hapi Hdir) as [api' Hres].
  rewrite Hs in Hres.
  destruct (parseArgs cwd validForNewPackages checkDirExists showVersion showHelp badName
                      online parsed) as [t1 r1] eqn:Hparse.
  unfold result in Hres. simpl in Hres. subst r1.
  set (o1 := <["sandbox" := Bool true]> (withProperties cwd online parsed api')) in *.
  pose proof (processUsersCommand_result StringToNumber o1) as Hadj.
  destruct (processUsersCommand StringToNumber o1) as [t2 r2] eqn:Hadjust.
  unfold result in Hadj. simpl in Hadj. subst r2.
  match type of Hadjust with _ = (_, returns ?o) => set (o2 := o) in * end.
  assert (Hkeep : forall k, k <> "devServerPort" -> get o2 k = get o1 k).
  { intros k Hk. apply processUsersCommand_keeps; [| exact Hk].
    unfold result. by rewrite Hadjust. }
  assert (Hsand : get o2 "sandbox" = Bool true).
  { rewrite Hkeep by done. unfold o1. by get_simpl. }
  assert (Hname : get o2 "appName" = get parsed "appName").
  { rewrite Hkeep by done. unfold o1, withProperties. by get_simpl. }
  assert (Hpath : get o2 "appDir" = Str appDir).
  { rewrite Hkeep by done. unfold o1, withProperties. by get_simpl. }
  clearbody o2. clear Hkeep.
  rewrite (letsGo_on_arguments online argv name replies random t0 parsed t1
             (options_of o1) t2 o2 Hargv Hcla Hparse Hadjust).
  rewrite Hsand. cbn [truthy actions ending fst snd List.filter quiet negb].
  rewrite loud_said. unfold createSandbox. rewrite Hname.
  destruct (truthy (get parsed "appName")); cbn [negb].
  - by rewrite (createProjectDirectory_ok o2 appDir (Hdir o2) Hpath), Hpath.
  - split; reflexivity.
Qed.

Lemma steps_without_path (k : unit -> Script unit) :
  let steps : Script unit :=
    if truthy (get ∅ "sandbox")
    then createSandbox cwd checkDirExists dirname ∅
    else createProjectDirectory cwd checkDirExists ∅ ≫= k in
  forallb quiet (actions steps) = true /\ ending steps <> returns tt.
Proof.
  rewrite get_empty. cbn [truthy]. cbv zeta. split.
  - apply createProjectDirectory_no_path. intros p. by rewrite get_empty.
  - rewrite bind_ending. unfold createProjectDirectory. rewrite !get_empty.
    by destruct (truthy (checkDirExists ∅) || _).
Qed.

(** X24. A run whose resolver hands back no options (after --version or
    --help, for a name that fails the package-name rules, when the
    directory is in the way, or because a helper returned something) makes
    no file-system call, does not change directory and does not run npm;
    and it does not end normally. *)
Theorem X24_nothing_without_options online argv name replies random :
  let go := letsGo cwd validForNewPackages checkDirExists showVersion showHelp badName
                   StringToNumber dirname webpackConfig online argv name replies random in
  (argv = [] ->
   (forall o, result (guidedProcess cwd validForNewPackages checkDirExists badName
                                    online name replies) <> returns (options_of o)) ->
   forallb quiet (actions go) = true /\ ending go <> returns tt)
  /\ (forall t0 parsed,
        argv <> [] ->
        cla StringToNumber optionDefinitions argv = (t0, returns parsed) ->
        (forall o, result (parseArgs cwd validForNewPackages checkDirExists showVersion
                                     showHelp badName online parsed)
                   <> returns (options_of o)) ->
        forallb quiet (actions go) = true /\ ending go <> returns tt).
Proof.
  intros go. subst go. split.
  - intros -> Hno. unfold letsGo. unfold act. rewrite bind_returns. cbv beta.
    destruct (guidedProcess cwd validForNewPackages checkDirExists badName online name
                            replies) as [t [[o|v]| |]].
    + by destruct (Hno o).
    + unfold say, fmap, Script_fmap. cbn [fst snd asObject]. rewrite bind_returns.
      cbv beta. cbn [actions ending fst snd app forallb quiet andb].
      rewrite forallb_app, quiet_said. apply steps_without_path.
    + unfold say, fmap, Script_fmap, mbind, Script_bind.
      cbn [fst snd actions ending app forallb quiet andb].
      rewrite ?app_nil_r, quiet_said. by split.
    + unfold say, fmap, Script_fmap, mbind, Script_bind.
      cbn [fst snd actions ending app forallb quiet andb].
      rewrite ?app_nil_r, quiet_said. by split.
  - intros t0 parsed Hargv Hcla Hno.
    destruct (parseArgs cwd validForNewPackages checkDirExists showVersion showHelp badName
                        online parsed) as [t1 [[o|v]| |]] eqn:Hparse.
    + by destruct (Hno o).
    + pose proof (processUsersCommand_result StringToNumber ∅) as Hadj.
      rewrite !get_empty in Hadj. cbn [or_ truthy andb] in Hadj.
      destruct (processUsersCommand StringToNumber ∅) as [t2 r2] eqn:Hadjust.
      unfold result in Hadj. simpl in Hadj. subst r2.
      rewrite (letsGo_on_arguments online argv name replies random t0 parsed t1
                 (other v) t2 ∅ Hargv Hcla Hparse Hadjust).
      cbn [actions ending fst snd forallb quiet andb].
      rewrite forallb_app, quiet_said. apply steps_without_path.
    + unfold letsGo. destruct argv as [|a argv]; [by destruct Hargv |].
      unfold act. rewrite bind_returns. cbv beta.
      destruct (resolving_stops online (a :: argv) t0 parsed Hcla) as [t [-> | ->]].
      { intros r Hr. unfold result in Hr. rewrite Hparse in Hr. discriminate Hr. }
      all: unfold mbind, Script_bind; cbn [fst snd actions ending app forallb quiet andb];
        rewrite ?app_nil_r, quiet_said; by split.
    + unfold letsGo. destruct argv as [|a argv]; [by destruct Hargv |].
      unfold act. rewrite bind_returns. cbv beta.
      destruct (resolving_stops online (a :: argv) t0 parsed Hcla) as [t [-> | ->]].
      { intros r Hr. unfold result in Hr. rewrite Hparse in Hr. discriminate Hr. }
      all: unfold mbind, Script_bind; cbn [fst snd actions ending app forallb quiet andb];
        rewrite ?app_nil_r, quiet_said; by split.
Qed.

(** X25. A run on a command line with a name that passes the package-name
    rules (informational flags and sandbox off, no directory in the way)
    makes the application directory under the working directory, makes
    the file-system calls of [createFiles] for the resolved options,
    changes into the directory and runs npm, offline when the run is not
    online or --offline was given; and it returns.  The resolved options
    read as parsed, but for the derived properties and the adjusted
    port. *)
Theorem X25_command_line_run online argv name replies random t0 parsed :
  argv <> [] ->
  cla StringToNumber optionDefinitions argv = (t0, returns parsed) ->
  truthy (get parsed "sandbox") = false ->
  truthy (get parsed "version") = false ->
  truthy (get parsed "help") = false ->
  (truthy (get parsed "api") = true -> exists s, get parsed "api" = Str s) ->
  validForNewPackages (get parsed "appName") = true ->
  (forall o, truthy (checkDirExists o) = true) ->
  let go := letsGo cwd validForNewPackages checkDirExists showVersion showHelp badName
                   StringToNumber dirname webpackConfig online argv name replies random in
  let appDir := cwd +:+ "/" +:+ toString (get parsed "appName") in
  exists o,
    ending go = returns tt
    /\ List.filter (fun a => negb (quiet a)) (actions go)
       = fsCall (mkdirSync appDir)
         :: map fsCall (createFiles dirname webpackConfig o random)
         ++ [ chdir appDir;
              run (if negb online || truthy (get parsed "offline")
                   then "npm --offline i" else "npm i") ]
    /\ (forall k,
          k ∉ ["online"; "offline"; "api"; "server"; "appDir"; "devServerPort"] ->
          get o k = get parsed k).
Proof.
  intros Hargv Hcla Hs Hv Hh Hapi Hvalid Hdir go appDir. subst go.
  destruct (parseArgs_result online parsed Hv Hh Hapi Hdir) as [api' Hres].
  rewrite Hs, Hvalid in Hres.
  destruct (parseArgs cwd validForNewPackages checkDirExists showVersion showHelp badName
                      online parsed) as [t1 r1] eqn:Hparse.
  unfold result in Hres. simpl in Hres. subst r1.
  set (o1 := withProperties cwd online parsed api') in *.
  pose proof (processUsersCommand_result StringToNumber o1) as Hadj.
  destruct (processUsersCommand StringToNumber o1) as [t2 r2] eqn:Hadjust.
  unfold result in Hadj. simpl in Hadj. subst r2.
  match type of Hadjust with _ = (_, returns ?o) => set (o2 := o) in * end.
  assert (Hkeep : forall k, k <> "devServerPort" -> get o2 k = get o1 k).
  { intros k Hk. apply processUsersCommand_keeps; [| exact Hk].
    unfold result. by rewrite Hadjust. }
  assert (Hsand : truthy (get o2 "sandbox") = false).
  { rewrite Hkeep by done. unfold o1, withProperties. by get_simpl. }
  assert (Hname : get o2 "appName" = get parsed "appName").
  { rewrite Hkeep by done. unfold o1, withProperties. by get_simpl. }
  assert (Hpath : get o2 "appDir" = Str appDir).
  { rewrite Hkeep by done. unfold o1, withProperties. by get_simpl. }
  assert (Hoff : truthy (get o2 "offline") = negb online || truthy (get parsed "offline")).
  { rewrite Hkeep by done. unfold o1, withProperties. get_simpl. by destruct online. }
  assert (Hframe : forall k,
             k ∉ ["online"; "offline"; "api"; "server"; "appDir"; "devServerPort"] ->
             get o2 k = get parsed k).
  { intros k Hk. rewrite !not_elem_of_cons in Hk. destruct Hk as (? & ? & ? & ? & ? & ? & _).
    rewrite Hkeep by done. unfold o1, withProperties.
    rewrite !get_insert_ne by done.
    destruct (decide (k = "router")) as [->|]; [by rewrite get_insert_eq |].
    rewrite get_insert_ne by done.
    destruct (decide (k = "redux")) as [->|]; [by rewrite get_insert_eq |].
    by rewrite !get_insert_ne by done. }
  clearbody o2. clear Hkeep. exists o2.
  rewrite (letsGo_on_arguments online argv name replies random t0 parsed t1
             (options_of o1) t2 o2 Hargv Hcla Hparse Hadjust).
  rewrite Hsand. cbn [actions ending fst snd List.filter quiet negb].
  rewrite loud_said.
  destruct (project_steps o2 appDir random Hsand (Hdir o2) Hpath) as [Hend Hloud].
  cbv zeta in Hend, Hloud. rewrite Hname, Hoff in Hloud. auto.
Qed.

End PipelineFacts.

(** ** Ports from the command line to the options *)

(** X26. From any command line on which [parseArgs] returns options to
    the options after [processUsersCommand]: the API port is a port, the
    dev server port lies in [1, 65536], and the two differ whenever the
    options have server set. *)
Theorem X26_resolved_ports
  (cwd : string) (validForNewPackages : value -> bool) (checkDirExists : object -> value)
  (showVersion showHelp : value) (badName : value -> value)
  (StringToNumber : string -> number)
  (online : bool) (argv : list argument) (t0 : list event) (parsed o : object) :
  cla StringToNumber optionDefinitions argv = (t0, returns parsed) ->
  result (parseArgs cwd validForNewPackages checkDirExists showVersion showHelp badName
                    online parsed) = returns (options_of o) ->
  exists o' d a,
    result (processUsersCommand StringToNumber o) = returns o'
    /\ get o' "devServerPort" = Num d
    /\ get o' "apiPort" = Num a
    /\ 1 <= a <= 65535
    /\ 1 <= d <= 65536
    /\ (truthy (get o' "server") = true -> d <> a).
Proof.
  intros Hcla Hparse.
  apply cla_ports in Hcla as [Hd Ha].
  apply parseArgs_returns in Hparse as [api' Ho].
  assert (Hreads : get o "devServerPort" = get parsed "devServerPort"
                   /\ get o "apiPort" = get parsed "apiPort"
                   /\ get o "express" = get parsed "express"
                   /\ get o "mongo" = get parsed "mongo"
                   /\ get o "server" = or_ (get parsed "express") (get parsed "mongo")).
  { destruct Ho as [-> | [_ ->]]; unfold withProperties; get_simpl; auto. }
  destruct Hreads as (Ed & Ea & Ee & Em & Es).
  rewrite <- Ed in Hd. rewrite <- Ea in Ha.
  destruct (adjusted_ports StringToNumber o Hd Ha)
    as (o' & d & a & Hrun & Hd' & Ha' & Ha0 & Hrange & Hne & _).
  exists o', d, a. split; [exact Hrun |]. split; [exact Hd' |]. split; [exact Ha' |].
  destruct Ha as (a0 & Ha1 & Hr). rewrite Ha1 in Ha0. injection Ha0 as <-.
  split; [exact Hr |]. split; [exact Hrange |].
  rewrite (processUsersCommand_keeps StringToNumber o o' "server" Hrun) by done.
  rewrite Es, <- Ee, <- Em. exact Hne.
Qed.

(** ** The defaults of the schema *)

Lemma strict_eq_undefined (v : value) : strict_eq v undefined = true <-> v = undefined.
Proof. destruct v; simpl; split; try discriminate; reflexivity. Qed.

Lemma fold_insert_lookup (defs : list definition) (acc : object) (n : string) :
  NoDup (map name defs) ->
  fold_left (fun acc d => <[name d := defaultValue d]> acc) defs acc !! n
  = match List.find (fun d => bool_decide (name d = n)) defs with
    | Some d => Some (defaultValue d)
    | None => acc !! n
    end.
Proof.
  revert acc. induction defs as [|d defs IH]; intros acc Hnodup; [reflexivity |].
  apply NoDup_cons in Hnodup as [Hnotin Hnodup]. simpl.
  rewrite IH by exact Hnodup. destruct (decide (name d = n)) as [<-|Hne].
  - rewrite bool_decide_eq_true_2 by reflexivity.
    destruct (List.find _ defs) as [d'|] eqn:Hfind; [| by rewrite lookup_insert_eq].
    apply List.find_some in Hfind as [Hin Hname].
    apply bool_decide_eq_true_1 in Hname. destruct Hnotin.
    apply list_elem_of_In. rewrite <- Hname. by apply in_map.
  - rewrite bool_decide_eq_false_2 by exact Hne.
    destruct (List.find _ defs); [reflexivity | by rewrite lookup_insert_ne].
Qed.

(** X27. The defaults that the wizard starts from hold exactly the
    options that define a default value, each at that value: for a schema
    without repeated names, a property is there if and only if a
    definition of that name has a default other than [undefined]. *)
Theorem X27_defaults_of_schema (defs : list definition) (n : string) (v : value) :
  NoDup (map name defs) ->
  defaultsOf defs !! n = Some v
  <-> exists d, In d defs /\ name d = n /\ defaultValue d = v /\ v <> undefined.
Proof.
  intros Hnodup. unfold defaultsOf.
  set (keep := fun d => negb (strict_eq (defaultValue d) undefined)).
  assert (Hsub : NoDup (map name (List.filter keep defs))).
  { clear -Hnodup. induction defs as [|d defs IH]; simpl; [constructor |].
    apply NoDup_cons in Hnodup as [Hnotin Hnodup].
    destruct (keep d); simpl; [| by apply IH].
    constructor; [| by apply IH]. intros Hin. apply Hnotin.
    apply list_elem_of_In in Hin. apply in_map_iff in Hin as (d' & Hname & Hin).
    apply filter_In in Hin as [Hin _]. apply list_elem_of_In.
    rewrite <- Hname. by apply in_map. }
  rewrite fold_insert_lookup by exact Hsub. rewrite lookup_empty. split.
  - destruct (List.find _ _) as [d|] eqn:Hfind; [| discriminate].
    intros [= <-]. apply List.find_some in Hfind as [Hin Hname].
    apply bool_decide_eq_true_1 in Hname. apply filter_In in Hin as [Hin Hkeep].
    exists d. repeat split; auto. intros Hun. unfold keep in Hkeep.
    rewrite Hun in Hkeep. discriminate Hkeep.
  - intros (d & Hin & Hname & Hv & Hdef).
    assert (Hkeep : keep d = true).
    { unfold keep. destruct (strict_eq (defaultValue d) undefined) eqn:E; [| reflexivity].
      apply strict_eq_undefined in E. congruence. }
    destruct (List.find _ _) as [d'|] eqn:Hfind.
    + apply List.find_some in Hfind as [Hin' Hname'].
      apply bool_decide_eq_true_1 in Hname'. apply filter_In in Hin' as [Hin' _].
      assert (d' = d); [| congruence].
      clear -Hnodup Hin Hin' Hname Hname'. subst n.
      induction defs as [|x defs IH]; [destruct Hin |].
      apply NoDup_cons in Hnodup as [Hnotin Hnodup].
      destruct Hin as [->|Hin], Hin' as [->|Hin']; auto.
      * destruct Hnotin. apply list_elem_of_In. rewrite <- Hname'. by apply in_map.
      * destruct Hnotin. apply list_elem_of_In. rewrite Hname'. by apply in_map.
    + assert (Hin' : In d (List.filter keep defs)) by (apply filter_In; auto).
      apply (List.find_none _ _ Hfind) in Hin'.
      rewrite bool_decide_eq_true_2 in Hin' by exact Hname. discriminate Hin'.
Qed.

(** ** A command line without a name *)

Section MissingName.

Variable cwd : string.
Variable validForNewPackages : value -> bool.
Variable checkDirExists : object -> value.
Variable showVersion showHelp : value.
Variable badName : value -> value.

(** X28. [parseArgs] never calls [noName].  A command line with options
    but no name, outside sandbox mode, has the directory [cwd/undefined]
    checked and is then turned down by the name check: [parseArgs] hands
    back no options. *)
Theorem X28_missing_name_is_a_bad_name online parsed :
  validForNewPackages undefined = false ->
  ~ In noName_call
       (trace (parseArgs cwd validForNewPackages checkDirExists showVersion showHelp badName
                         online parsed))
  /\ (get parsed "appName" = undefined ->
      truthy (get parsed "version") = false ->
      truthy (get parsed "help") = false ->
      truthy (get parsed "sandbox") = false ->
      truthy (get parsed "api") = false ->
      (forall o, result (parseArgs cwd validForNewPackages checkDirExists showVersion showHelp
                                   badName online parsed) <> returns (options_of o))
      /\ exists o rest,
          trace (parseArgs cwd validForNewPackages checkDirExists showVersion showHelp badName
                           online parsed) = checkDirExists_call o :: rest
          /\ get o "appDir" = Str (cwd +:+ "/undefined")
          /\ (truthy (checkDirExists o) = true -> rest = [badName_call undefined])).
Proof.
  intros Hvalid. split.
  - unfold parseArgs.
    destruct (truthy (get parsed "api")); [destruct (get parsed "api") |];
      run_M; split_truthy; simpl; intuition discriminate.
  - intros Hname Hv Hh Hs Hapi. unfold parseArgs.
    rewrite Hname, Hv, Hh, Hs, Hapi, Hvalid. run_M.
    match goal with
    | |- context [checkDirExists ?o'] =>
        assert (Hdir : get o' "appDir" = Str (cwd +:+ "/undefined")) by (by get_simpl);
        set (o := o') in *
    end.
    clearbody o. destruct (truthy (checkDirExists o)) eqn:Hc; simpl.
    + split; [intros o'; destruct (truthy (badName undefined)); discriminate |].
      exists o. eexists. split; [| split; [exact Hdir | reflexivity]].
      by destruct (truthy (badName undefined)).
    + split; [intros o'; discriminate |]. exists o. eexists.
      split; [reflexivity | split; [exact Hdir | congruence]].
Qed.

End MissingName.

(** ** The older entry point *)

Section LegacyFacts.

Variable cwd : string.
Variable validForNewPackages : value -> bool.
Variable noName : value.
Variable badName : value -> value.
Variable titleCase : value -> value.
Variable StringToNumber : string -> number.
Variable showVersion showHelp : value.

(** X29. In the older entry point a command line without a name is
    reported through [noName] before any directory is checked; and with a
    name, sandbox mode checks the directory, creates the sandbox from
    inside [parseArgs] whether or not the name is a valid package name, and
    returns [undefined] in place of options. *)
Theorem X29_legacy_name_and_sandbox online parsed :
  (truthy (get parsed "api") = true -> exists s, get parsed "api" = Str s) ->
  (truthy (get parsed "appName") = false ->
   Legacy.parseArgs cwd validForNewPackages noName badName titleCase online parsed
   = ([noName_call], if truthy noName then exits else returns (other noName)))
  /\ (truthy (get parsed "appName") = true ->
      truthy (get parsed "sandbox") = true ->
      exists o,
        Legacy.parseArgs cwd validForNewPackages noName badName titleCase online parsed
        = ([checkDirExists_call o; createSandbox_call o], returns (other undefined))
        /\ get o "appDir" = Str (cwd +:+ "/" +:+ toString (get parsed "appName"))).
Proof.
  intros Hapi. unfold Legacy.parseArgs.
  assert (Hclean : exists api', (if truthy (get parsed "api")
            then match get parsed "api" with
                 | Str s => mret (Str (removeSpaces s))
                 | _ => TypeError
                 end
            else mret null : M value) = ([], returns api')).
  { destruct (truthy (get parsed "api")); [| by eexists].
    destruct (Hapi eq_refl) as [s ->]. by eexists. }
  destruct Hclean as [api' ->]. split.
  - intros ->. run_M. by destruct (truthy noName).
  - intros -> ->. run_M. eexists. split; [reflexivity |]. by get_simpl.
Qed.

(** X30. In the older entry point two port options that both came out as
    [undefined] (see X2) count as the same port: with a server, the dev
    server port is incremented and becomes [NaN], and nothing else
    changes. *)
Theorem X30_legacy_undefined_ports_collide (options : object) :
  truthy (get options "version") = false ->
  truthy (get options "help") = false ->
  get options "port" = undefined ->
  get options "apiport" = undefined ->
  truthy (or_ (get options "express") (get options "mongo")) = true ->
  exists o',
    result (Legacy.processUsersCommand StringToNumber showVersion showHelp options)
    = returns (options_of o')
    /\ get o' "port" = NaN
    /\ forall k, k <> "port" -> get o' k = get options k.
Proof.
  intros Hv Hh Hp Ha Hs. unfold Legacy.processUsersCommand.
  rewrite Hv, Hh, Hp, Ha, Hs.
  exists (<["port" := NaN]> options). split.
  - destruct (truthy (get options "offline") || negb (truthy (get options "online")));
      [destruct (negb (truthy (get options "online"))) |]; reflexivity.
  - split; [by get_simpl |]. intros k Hk. by rewrite get_insert_ne.
Qed.

End LegacyFacts.

(** ** Instances *)

Ltac computed := vm_compute; first [reflexivity | discriminate | tauto].

(** [cna myapp --api "http://local host"], parsed and resolved *)
Lemma X3_api_without_spaces_witness :
  get (withProperties "/home" true (<["api" := Str "http://local host"]> nameOnly)
                      (Str "http://localhost")) "api"
  = Str "http://localhost".
Proof.
  assert (Hrun : result (parseArgs "/home" lowerCaseName dirIsFree undefined undefined
                                   printsOnly true
                                   (<["api" := Str "http://local host"]> nameOnly))
                 = returns (options_of
                     (withProperties "/home" true
                        (<["api" := Str "http://local host"]> nameOnly)
                        (Str "http://localhost")))) by computed.
  destruct (X3_api_without_spaces _ _ _ _ _ _ _ _ _ Hrun)
    as [[Hf _] | (s & Hs & H & _)].
  - vm_compute in Hf. discriminate Hf.
  - vm_compute in Hs. injection Hs as <-. exact H.
Defined.

Lemma X4_parseArgs_adds_and_keeps_witness :
  get (withProperties "/home" true nameOnly null) "appDir" = Str "/home/myapp"
  /\ get (withProperties "/home" true nameOnly null) "title" = Str EmptyString.
Proof.
  assert (Hrun : result (parseArgs "/home" lowerCaseName dirIsFree undefined undefined
                                   printsOnly true nameOnly)
                 = returns (options_of (withProperties "/home" true nameOnly null)))
    by computed.
  destruct (X4_parseArgs_adds_and_keeps _ _ _ _ _ _ _ _ _ Hrun) as (_ & _ & Hdir & Hkeep).
  split; [exact Hdir |]. rewrite Hkeep; [reflexivity |].
  intros Hin. apply list_elem_of_In in Hin. simpl in Hin. intuition discriminate.
Defined.

Lemma X5_parseArgs_gate_witness :
  truthy (get nameOnly "version") = false /\ truthy (get nameOnly "help") = false.
Proof.
  assert (Hrun : result (parseArgs "/home" lowerCaseName dirIsFree undefined undefined
                                   printsOnly true nameOnly)
                 = returns (options_of (withProperties "/home" true nameOnly null)))
    by computed.
  destruct (X5_parseArgs_gate _ _ _ _ _ _ _ _ _ Hrun) as (Hv & Hh & _).
  split; [exact Hv | exact Hh].
Defined.

(** [cna --version] *)
Lemma X6_version_and_help_first_witness :
  parseArgs "/home" lowerCaseName dirIsFree (Bool true) undefined printsOnly true
            (<["version" := Bool true]> defaultOptions)
  = ([showVersion_call], returns (other (Bool true))).
Proof.
  assert (Hapi : truthy (get (<["version" := Bool true]> defaultOptions) "api") = true ->
                 exists s, get (<["version" := Bool true]> defaultOptions) "api" = Str s)
    by (intros H; vm_compute in H; discriminate H).
  apply (proj1 (X6_version_and_help_first "/home" lowerCaseName dirIsFree (Bool true)
                  undefined printsOnly true _ Hapi)).
  computed.
Defined.

(** The wizard, answered with [My App] *)
Lemma X8_wizard_fails_fast_witness :
  result (guidedProcess "/home" lowerCaseName dirIsFree printsOnly true "My App" []) = exits.
Proof.
  pose proof (X8_wizard_fails_fast "/home" lowerCaseName dirIsFree printsOnly true
                "My App" []) as H.
  cbv zeta in H. destruct H as [_ H]. rewrite H; computed.
Defined.

(** The wizard, answered with [myapp] and then with enter *)
Lemma X9_wizard_keeps_defaults_witness :
  get (wizardOptions "/home" true "myapp" false false false false) "apiPort" = Num 3000.
Proof.
  assert (Hrun : result (guidedProcess "/home" lowerCaseName dirIsFree printsOnly true
                                       "myapp" [])
                 = returns (options_of
                     (wizardOptions "/home" true "myapp" false false false false)))
    by computed.
  destruct (X9_wizard_keeps_defaults _ _ _ _ _ _ _ _ Hrun) as (_ & H & _). exact H.
Defined.

(** The wizard, answered with [myapp], enter, and yes to Express *)
Lemma X10_router_question_skipped_witness :
  get (wizardOptions "/home" true "myapp" false false true false) "router" = Bool false
  /\ get (wizardOptions "/home" true "myapp" false false true false) "express" = Bool true.
Proof.
  assert (Hrun : result (guidedProcess "/home" lowerCaseName dirIsFree printsOnly true
                                       "myapp" [None; Some true])
                 = returns (options_of
                     (wizardOptions "/home" true "myapp" false false true false)))
    by computed.
  assert (Hfirst : (None : option bool) <> Some true) by discriminate.
  destruct (X10_router_question_skipped _ _ _ _ _ _ _ _ _ _ Hfirst Hrun) as (_ & Hr & He).
  split; [exact Hr | exact He].
Defined.

(** [cna myapp --force] on a directory that is in the way *)
Lemma X19_force_outside_sandbox_only_witness :
  ending (createProjectDirectory "/home" (fun _ => Bool false)
            (withProperties "/home" true (<["force" := Bool true]> nameOnly) null))
  = returns tt.
Proof.
  rewrite (X19_force_outside_sandbox_only "/home" (fun _ => Bool false)
             (withProperties "/home" true (<["force" := Bool true]> nameOnly) null)
             eq_refl).
  computed.
Defined.

(** The wizard, answered with [myapp] and then with enter, to the end *)
Lemma X22_wizard_run_witness :
  ending (letsGo "/home" lowerCaseName dirIsFree undefined undefined printsOnly
                 decimalToNumber "/cna" (fun _ => EmptyString) true [] "myapp" []
                 (fun _ => 0%Q))
  = returns tt.
Proof.
  pose proof (X22_wizard_run "/home" lowerCaseName dirIsFree undefined undefined printsOnly
                decimalToNumber "/cna" (fun _ => EmptyString) true "myapp" []
                (fun _ => 0%Q) eq_refl (fun _ => eq_refl)) as H.
  cbv zeta in H. destruct H as (o & _ & H & _). exact H.
Defined.

(** [cna "My App" --sandbox], to the end *)
Lemma X23_sandbox_run_witness :
  ending (letsGo "/home" lowerCaseName dirIsFree undefined undefined printsOnly
                 decimalToNumber "/cna" (fun _ => EmptyString) true
                 [valued "appName" "My App"; flag "sandbox"] EmptyString []
                 (fun _ => 0%Q))
  = returns tt.
Proof.
  assert (Hcla : cla decimalToNumber optionDefinitions
                     [valued "appName" "My App"; flag "sandbox"]
                 = ([], returns sandboxBadName)) by computed.
  assert (Hargv : [valued "appName" "My App"; flag "sandbox"] <> []) by discriminate.
  assert (Hapi : truthy (get sandboxBadName "api") = true ->
                 exists s, get sandboxBadName "api" = Str s)
    by (intros H; vm_compute in H; discriminate H).
  pose proof (X23_sandbox_run "/home" lowerCaseName dirIsFree undefined undefined printsOnly
                decimalToNumber "/cna" (fun _ => EmptyString) true _ EmptyString []
                (fun _ => 0%Q) _ _ Hargv Hcla eq_refl eq_refl eq_refl Hapi
                (fun _ => eq_refl)) as H.
  cbv zeta in H. destruct H as [H _]. exact H.
Defined.

(** The wizard, answered with [My App]: nothing is touched *)
Lemma X24_nothing_without_options_witness :
  forallb quiet
    (actions (letsGo "/home" lowerCaseName dirIsFree undefined undefined printsOnly
                     decimalToNumber "/cna" (fun _ => EmptyString) true [] "My App" []
                     (fun _ => 0%Q)))
  = true.
Proof.
  pose proof (X24_nothing_without_options "/home" lowerCaseName dirIsFree undefined
                undefined printsOnly decimalToNumber "/cna" (fun _ => EmptyString) true []
                "My App" [] (fun _ => 0%Q)) as H.
  cbv zeta in H. destruct H as [H _]. apply H; [reflexivity |].
  intros o Hrun. vm_compute in Hrun. discriminate Hrun.
Defined.

(** [cna myapp], to the end *)
Lemma X25_command_line_run_witness :
  ending (letsGo "/home" lowerCaseName dirIsFree undefined undefined printsOnly
                 decimalToNumber "/cna" (fun _ => EmptyString) true
                 [valued "appName" "myapp"] EmptyString [] (fun _ => 0%Q))
  = returns tt.
Proof.
  assert (Hcla : cla decimalToNumber optionDefinitions [valued "appName" "myapp"]
                 = ([], returns nameOnly)) by computed.
  assert (Hargv : [valued "appName" "myapp"] <> []) by discriminate.
  assert (Hapi : truthy (get nameOnly "api") = true -> exists s, get nameOnly "api" = Str s)
    by (intros H; vm_compute in H; discriminate H).
  pose proof (X25_command_line_run "/home" lowerCaseName dirIsFree undefined undefined
                printsOnly decimalToNumber "/cna" (fun _ => EmptyString) true _ EmptyString
                [] (fun _ => 0%Q) _ _ Hargv Hcla eq_refl eq_refl eq_refl Hapi eq_refl
                (fun _ => eq_refl)) as H.
  cbv zeta in H. destruct H as (o & H & _). exact H.
Defined.

(** [cna my-app --devServerPort=3000 --apiPort=3000 --express] *)
Lemma X26_resolved_ports_witness :
  exists o' d a,
    result (processUsersCommand decimalToNumber (withProperties "/home" true scenario4 null))
    = returns o'
    /\ get o' "devServerPort" = Num d
    /\ get o' "apiPort" = Num a
    /\ 1 <= a <= 65535
    /\ 1 <= d <= 65536
    /\ (truthy (get o' "server") = true -> d <> a).
Proof.
  assert (Hcla : cla decimalToNumber optionDefinitions
                     [valued "appName" "my-app"; valued "devServerPort" "3000";
                      valued "apiPort" "3000"; flag "express"]
                 = ([], returns scenario4)) by computed.
  assert (Hrun : result (parseArgs "/home" lowerCaseName dirIsFree undefined undefined
                                   printsOnly true scenario4)
                 = returns (options_of (withProperties "/home" true scenario4 null)))
    by computed.
  exact (X26_resolved_ports _ _ _ _ _ _ _ _ _ _ _ _ Hcla Hrun).
Defined.

Lemma X27_defaults_of_schema_witness :
  defaultsOf optionDefinitions !! "apiPort" = Some (Num 3000)
  /\ defaultsOf optionDefinitions !! "appName" = None.
Proof.
  assert (Hnames : NoDup (map name optionDefinitions))
    by (apply (bool_decide_unpack _); vm_compute; reflexivity).
  split.
  - apply (X27_defaults_of_schema optionDefinitions "apiPort" (Num 3000) Hnames).
    destruct (List.find (fun d => bool_decide (name d = "apiPort")) optionDefinitions)
      as [d|] eqn:Hfind; [| vm_compute in Hfind; discriminate Hfind].
    exists d. pose proof (List.find_some _ _ Hfind) as [Hin _].
    vm_compute in Hfind. injection Hfind as <-.
    split; [exact Hin |]. repeat split. discriminate.
  - destruct (defaultsOf optionDefinitions !! "appName") as [v|] eqn:Hv; [| reflexivity].
    apply (X27_defaults_of_schema optionDefinitions "appName" v Hnames) in Hv
      as (d & Hin & Hname & Hdef & Hun).
    simpl in Hin. exfalso.
    repeat (destruct Hin as [<- | Hin]; [simpl in *; congruence |]). destruct Hin.
Defined.

(** [cna --redux]: options, but no name *)
Lemma X28_missing_name_is_a_bad_name_witness :
  ~ In noName_call
       (trace (parseArgs "/home" lowerCaseName dirIsFree undefined undefined printsOnly true
                         (<["redux" := Bool true]> defaultOptions))).
Proof.
  exact (proj1 (X28_missing_name_is_a_bad_name "/home" lowerCaseName dirIsFree undefined
                  undefined printsOnly true (<["redux" := Bool true]> defaultOptions)
                  eq_refl)).
Defined.

Lemma X29_legacy_name_and_sandbox_witness :
  Legacy.parseArgs "/home" lowerCaseName undefined printsOnly (fun v => v) true
                   (<["redux" := Bool true]> defaultOptions)
  = ([noName_call], returns (other undefined)).
Proof.
  assert (Hapi : truthy (get (<["redux" := Bool true]> defaultOptions) "api") = true ->
                 exists s, get (<["redux" := Bool true]> defaultOptions) "api" = Str s)
    by (intros H; vm_compute in H; discriminate H).
  apply (proj1 (X29_legacy_name_and_sandbox "/home" lowerCaseName undefined printsOnly
                  (fun v => v) true _ Hapi)).
  computed.
Defined.

(** [--port=abc --apiport=abc --express], as the older schema reads it *)
Lemma X30_legacy_undefined_ports_collide_witness :
  exists o',
    result (Legacy.processUsersCommand decimalToNumber undefined undefined
              (<["express" := Bool true]>
               (<["port" := undefined]> (<["apiport" := undefined]> ∅))))
    = returns (options_of o')
    /\ get o' "port" = NaN.
Proof.
  destruct (X30_legacy_undefined_ports_collide decimalToNumber undefined undefined
              (<["express" := Bool true]>
               (<["port" := undefined]> (<["apiport" := undefined]> ∅))))
    as (o' & Hrun & Hport & _); try computed.
  exists o'. split; [exact Hrun | exact Hport].
Defined.

(** The manifest of [cna myapp] *)
Lemma X15_files_stay_in_appDir_witness :
  exists rest,
    destination (writeFileSync "/home/myapp/package.json"
                   (packageJson (withProperties "/home" true nameOnly null)))
    = toString (get (withProperties "/home" true nameOnly null) "appDir") +:+ rest.
Proof.
  apply (X15_files_stay_in_appDir "/cna" (fun _ => EmptyString)
           (withProperties "/home" true nameOnly null) (fun _ => 0%Q)).
  vm_compute. repeat first [left; reflexivity | right].
Defined.
